(** * Advent-calendar coupons: redemption ledger, backup codec, date challenge

    A shallow embedding of the state-carrying logic of the calendar
    application: the page component that owns the redeemed set and the
    timestamp map ([Home]), the data manager that exports, imports and
    resets the persisted list ([DataManager]), the door component
    ([Door]), the date challenge ([AuthModal]), the coupon statistics
    ([getCouponStats]) and the builders of the scannable payloads.

    JavaScript values are modelled as they exist at run time (TypeScript
    annotations are erased): a parsed JSON document is a [json] tree, a
    [Set] is an insertion-ordered list without duplicates, [localStorage]
    is a finite map from strings to strings whose every access may throw.
    The built-ins of the platform that are no code of the repository
    ([JSON.parse], [JSON.stringify], the number-to-string conversion of
    property keys) are the members of the class [Runtime]. *)

From Stdlib Require Import ZArith QArith Qcanon Qround Lia.
From Stdlib Require Ascii.
From stdpp Require Import base decidable numbers option list strings gmap pretty.

Local Open Scope Z_scope.
Local Set Warnings "-register-all".

(** ** JavaScript values *)

(** A JavaScript number.  The finite values are idealised as exact
    rationals in canonical form; the three special values are kept, so that
    a division by zero stays visible. *)
Inductive number :=
| Finite (q : Qc)
| NaN
| PosInf
| NegInf.

#[global] Instance number_eq_dec : EqDecision number.
Proof. solve_decision. Defined.

Definition num (z : Z) : number := Finite (Qc_of_Z z).

Definition is_integer (n : number) : bool :=
  match n with
  | Finite q => Pos.eqb (Qden (this q)) 1
  | _ => false
  end.

(** [a / b] on numbers that are finite, as [getCouponStats] uses it. *)
Definition js_div (a b : number) : number :=
  match a, b with
  | Finite x, Finite y =>
      if decide (y = 0%Qc) then
        (if decide (x = 0%Qc) then NaN
         else if decide (0 < x)%Qc then PosInf else NegInf)
      else Finite (x / y)%Qc
  | _, _ => NaN
  end.

(** [a * b] for a finite right operand. *)
Definition js_mul (a b : number) : number :=
  match a, b with
  | Finite x, Finite y => Finite (x * y)%Qc
  | PosInf, Finite y =>
      if decide (y = 0%Qc) then NaN else if decide (0 < y)%Qc then PosInf else NegInf
  | NegInf, Finite y =>
      if decide (y = 0%Qc) then NaN else if decide (0 < y)%Qc then NegInf else PosInf
  | _, _ => NaN
  end.

(** [Math.round]: the nearest integer, a tie going up. *)
Definition Math_round (a : number) : number :=
  match a with
  | Finite x => num (Qfloor (this x + (1 # 2)))
  | other => other
  end.

(** The result of [JSON.parse], and every value the application keeps. *)
Inductive json :=
| JNull
| JBool (b : bool)
| JNum (n : number)
| JStr (s : string)
| JArr (elems : list json)
| JObj (props : list (string * json)).

(** [undefined] is [None]: the value of a property that is not there. *)
Definition typeof (v : option json) : string :=
  match v with
  | None => "undefined"
  | Some (JBool _) => "boolean"
  | Some (JNum _) => "number"
  | Some (JStr _) => "string"
  | Some JNull | Some (JArr _) | Some (JObj _) => "object"
  end.

(** Truthiness, for [if (v)] and [!v]. *)
Definition truthy (v : json) : bool :=
  match v with
  | JNull => false
  | JBool b => b
  | JNum n => negb (bool_decide (n = num 0) || bool_decide (n = NaN))
  | JStr s => negb (String.eqb s "")
  | JArr _ | JObj _ => true
  end.

Definition Array_isArray (v : option json) : bool :=
  match v with
  | Some (JArr _) => true
  | _ => false
  end.

Fixpoint assoc_get {A} (k : string) (l : list (string * A)) : option A :=
  match l with
  | [] => None
  | (k', v) :: rest => if String.eqb k k' then Some v else assoc_get k rest
  end.

(** [o[k] = v]: an existing property keeps its place, a new one goes last. *)
Fixpoint assoc_set {A} (k : string) (v : A) (l : list (string * A)) : list (string * A) :=
  match l with
  | [] => [(k, v)]
  | (k', v') :: rest =>
      if String.eqb k k' then (k, v) :: rest else (k', v') :: assoc_set k v rest
  end.

(** [data.k] for the named properties the application reads
    ([redeemedCoupons], [exportDate], [version]); an array has none of
    them. *)
Definition get_prop (v : json) (k : string) : option json :=
  match v with
  | JObj props => assoc_get k props
  | _ => None
  end.

(** ** Set

    A [Set] iterates in insertion order and compares with SameValueZero:
    primitives by value, arrays and objects by identity.  Every array or
    object the application puts into a set is a fresh one out of
    [JSON.parse], so two of them are never the same. *)
Definition same_value_zero (a b : json) : bool :=
  match a, b with
  | JNull, JNull => true
  | JBool x, JBool y => Bool.eqb x y
  | JNum x, JNum y => bool_decide (x = y)
  | JStr x, JStr y => String.eqb x y
  | _, _ => false
  end.

Definition Set_has (s : list json) (x : json) : bool :=
  existsb (same_value_zero x) s.

Definition Set_add (x : json) (s : list json) : list json :=
  if Set_has s x then s else s ++ [x].

(** [new Set(array)] *)
Definition Set_of_array (l : list json) : list json :=
  fold_left (fun s x => Set_add x s) l [].

(** ** localStorage behind the safe wrappers

    [safeLocalStorage] of the page and the hook [useSafeLocalStorage] of
    the data manager wrap every access in [try]/[catch]: a read that throws
    gives [null], a write or removal that throws gives [false]. *)
Record Storage := {
  items : gmap string string;
  available : bool;   (* false: every access throws *)
  full : bool         (* true: setItem throws (quota exceeded) *)
}.

Definition getItem (k : string) (st : Storage) : option string :=
  if available st then items st !! k else None.

Definition setItem (k v : string) (st : Storage) : bool * Storage :=
  if available st && negb (full st)
  then (true, {| items := <[k := v]> (items st); available := available st; full := full st |})
  else (false, st).

Definition removeItem (k : string) (st : Storage) : bool * Storage :=
  if available st
  then (true, {| items := delete k (items st); available := available st; full := full st |})
  else (false, st).

(** [storage.isAvailable]: the probe writes, reads and removes a test key. *)
Definition isAvailable (st : Storage) : bool := available st && negb (full st).

Definition fresh_storage : Storage :=
  {| items := ∅; available := true; full := false |}.

(** ** Clock and platform *)

Record Date := {
  getDate : Z;          (* day of the month, 1..31 *)
  getMonth : Z;         (* 0..11, December is 11 *)
  toISOString : string
}.

Class Runtime := {
  JSON_parse : string -> option json;      (* None: SyntaxError thrown *)
  JSON_stringify : json -> nat -> string;  (* second argument: indentation *)
  Number_toString : number -> string       (* a number used as property key *)
}.

(** ** The coupon catalogue ([coupons.ts]) *)

Inductive CouponCategory := ROMANTIC | RELAXATION | ADVENTURE | HOME | CREATIVE | SURPRISE.

#[global] Instance CouponCategory_eq_dec : EqDecision CouponCategory.
Proof. solve_decision. Defined.

(** The string value of each member of the enum. *)
Definition category_value (c : CouponCategory) : string :=
  match c with
  | ROMANTIC => "romantic"
  | RELAXATION => "relaxation"
  | ADVENTURE => "adventure"
  | HOME => "home"
  | CREATIVE => "creative"
  | SURPRISE => "surprise"
  end.

Inductive Difficulty := easy | medium | special.

(** The fields the logic reads; [color], [tags] and [redeemInstructions]
    only reach the markup. *)
Record Coupon := mkCoupon {
  id : Z;
  day : Z;
  title : string;
  description : string;
  validUntil : string;
  emoji : string;
  category : CouponCategory;
  difficulty : Difficulty
}.

(** The double quote, for the one title that contains it. *)
Definition dq : string := String (Ascii.ascii_of_nat 34) EmptyString.

Definition coupons : list Coupon := [
  mkCoupon 1 1 "Profesjonalny Masaż"
    "Pełny masaż ciała (oczywiście wykonany przezemnie) (15 min)"
    "31.01.2026" "💆‍♀️" RELAXATION easy;
  mkCoupon 2 2 "Kolacja przy Świecach"
    "Romantyczna kolacja oczywiście w domu"
    "14.02.2026" "🕯️" ROMANTIC medium;
  mkCoupon 3 3 "Kino Domowe Premium"
    "Film do wyboru + popcorn, nachos i Twoje ulubione słodycze"
    "31.01.2026" "🎬" HOME easy;
  mkCoupon 4 4 "Śniadanie Marzeń"
    "Śniadanie do łóżka z wszystkim czego zapragniesz"
    "15.02.2026" "🥐" ROMANTIC easy;
  mkCoupon 5 5 "Nocny Spacer pod Gwiazdami"
    "Romantyczny spacer"
    "28.02.2026" "✨" ROMANTIC easy;
  mkCoupon 6 6 "Shopping Spree"
    "Wspólne zakupy + bon prezentowy 200 zł"
    "31.03.2026" "🛍️" SURPRISE special;
  mkCoupon 7 7 "Dzień Królowej"
    "Robię WSZYSTKIE rzeczy co tylko mi powiesz i sobie zażyczysz"
    "31.01.2026" "👑" HOME easy;
  mkCoupon 8 8 "Czas dla Siebie"
    "4 godziny tylko dla Ciebie - zero pytań, zero przeszkadzania"
    "28.02.2026" "🎨" RELAXATION easy;
  mkCoupon 9 9 "Wieczór Gier"
    "Planszówki, gry karciane lub gry video - Ty wybierasz!"
    "31.01.2026" "🎮" HOME easy;
  mkCoupon 10 10 "Domowe SPA Day"
    "Kąpiel z bombami, maseczki, paznokcie, relaks total oczywiście do zrealizowania gdy będziemy razem mieszkać"
    "31.01.2030" "🛁" RELAXATION medium;
  mkCoupon 11 11 "Wycieczka Niespodzianka"
    "Jednodniowa wycieczka w tajemnicze miejsce (tylko dla Ciebie!)"
    "30.04.2026" "🚗" ADVENTURE special;
  mkCoupon 12 12 "Twoja Osobista Playlista"
    "Stworzona specjalnie dla Ciebie playlista z 50 utworami"
    "31.12.2026" "🎵" CREATIVE easy;
  mkCoupon 13 13 "Masaż Stóp"
    "Relaksujący masaż stóp"
    "28.02.2026" "👣" RELAXATION easy;
  mkCoupon 14 14 "Sesja Zdjęciowa"
    "Profesjonalna sesja zdjęciowa w miejscu do wyboru + obróbka"
    "31.05.2026" "📸" CREATIVE special;
  mkCoupon 15 15 "Maraton Serialowy"
    "Cały dzień oglądania Twojego ulubionego serialu + pizza"
    "31.01.2026" "🍿" HOME easy;
  mkCoupon 16 16 "Ciasto od Podstaw"
    "Upiekę Twoje ulubione ciasto według Twojej ulubionej receptury (JAK SIĘ NAUCZĘ PIEC)"
    "31.01.2028" "🎂" HOME medium;
  mkCoupon 17 17 "Nieograniczony Poranek"
    "Śpij ile chcesz - zero budzenia, zero obowiązków"
    "28.02.2026" "😴" RELAXATION easy;
  mkCoupon 18 18 "Piknik Romantyczny"
    "Piknik w parku z koszem pełnym przysmaków (gdy będzie cieplej)"
    "30.07.2026" "🧺" ROMANTIC medium;
  mkCoupon 19 19 ("Kupon na " +:+ dq +:+ "nieograniczone przytulanie" +:+ dq +:+ "")
    "Cały wieczór poświęcony tylko na przytulanie – bez limitu czasu, bez przerwy na telefon czy obowiązki. Koc, poduszki, ciepła herbata i my dwoje wtuleni w siebie. Idealny na zimny wieczór, kiedy chcesz czuć bliskość i bezpieczeństwo w moich ramionach. Trzymam Cię tak długo, jak zechcesz... ♾️❤️"
    "28.02.2026" "💕" CREATIVE medium;
  mkCoupon 20 20 "List Miłosny"
    "Odręcznie napisany list opisujący dlaczego Cię kocham"
    "14.02.2026" "💌" ROMANTIC easy;
  mkCoupon 21 21 "Nagrane voice message playlist"
    "10 krótkich nagrań z komplementami (do słuchania kiedy chce)."
    "28.02.2026" "🔊" ROMANTIC medium;
  mkCoupon 22 22 "Kolacja w Restauracji"
    "Romantyczna kolacja w restauracji"
    "31.03.2026" "🍽️" SURPRISE special;
  mkCoupon 23 23 "Dzień Tylko dla Ciebie"
    "Cały dzień poświęcony Tobie - robimy to co Ty chcesz"
    "28.02.2026" "💝" ROMANTIC special;
  mkCoupon 24 24 "🎁 NIESPODZIANKA FINAŁOWA 🎁"
    "Specjalny prezent który zmieni wszystko... Szczegóły 24 grudnia!"
    "31.12.2026" "🎁" SURPRISE special
].

Definition getCouponsByCategory (c : CouponCategory) : list Coupon :=
  filter (fun coupon => category coupon = c) coupons.

Definition getCouponById (i : number) : option Coupon :=
  find (fun coupon => bool_decide (num (id coupon) = i)) coupons.

(** [redeemedIds.includes(coupon.id)] compares with SameValueZero. *)
Definition includes (l : list json) (x : json) : bool :=
  existsb (same_value_zero x) l.

Definition getRedeemedCoupons (redeemedIds : list json) : list Coupon :=
  List.filter (fun coupon => includes redeemedIds (JNum (num (id coupon)))) coupons.

(** [acc[k] = (acc[k] || 0) + 1] over a list of coupons. *)
Definition count_by_category (l : list Coupon) : list (string * Z) :=
  fold_left
    (fun acc coupon =>
       let k := category_value (category coupon) in
       assoc_set k (default 0 (assoc_get k acc) + 1) acc)
    l [].

Record CouponStats := {
  total : Z;
  redeemed : Z;
  remaining : Z;
  percentage : number;
  categoryCounts : list (string * Z);
  redeemedByCategory : list (string * Z)
}.

Definition getCouponStats (redeemedIds : list json) : CouponStats :=
  let total := Z.of_nat (length coupons) in
  let redeemed := Z.of_nat (length redeemedIds) in
  let remaining := total - redeemed in
  {| total := total;
     redeemed := redeemed;
     remaining := remaining;
     percentage := Math_round (js_mul (js_div (num redeemed) (num total)) (num 100));
     categoryCounts := count_by_category coupons;
     redeemedByCategory := count_by_category (getRedeemedCoupons redeemedIds) |}.


(** ** String methods *)

(** [s.endsWith(suffix)] *)
Fixpoint endsWith (s suffix : string) : bool :=
  String.eqb s suffix
  || match s with
     | String _ rest => endsWith rest suffix
     | EmptyString => false
     end.

Fixpoint trimStart (s : string) : string :=
  match s with
  | String c rest => if Ascii.is_space c then trimStart rest else s
  | EmptyString => EmptyString
  end.

(** [s.trim()], for the white space of ASCII. *)
Definition trim (s : string) : string :=
  String.rev (trimStart (String.rev (trimStart s))).

(** The first [n] characters of [pad] repeated for ever ([pad] not empty). *)
Fixpoint fill (n : nat) (pad cur : string) : string :=
  match n with
  | O => EmptyString
  | S n' =>
      match cur with
      | String c rest => String c (fill n' pad rest)
      | EmptyString =>
          match pad with
          | String c rest => String c (fill n' pad rest)
          | EmptyString => EmptyString
          end
      end
  end.

(** [s.padStart(targetLength, padString)] *)
Definition padStart (s : string) (targetLength : nat) (padString : string) : string :=
  if (targetLength <=? String.length s)%nat then s
  else fill (targetLength - String.length s) padString padString +:+ s.

(** [s.split('T')[0]]: what comes before the first [T]. *)
Fixpoint before_T (s : string) : string :=
  match s with
  | String c rest => if Ascii.eqb c (Ascii.ascii_of_nat 84) then EmptyString else String c (before_T rest)
  | EmptyString => EmptyString
  end.

(** ** The page ([Home]) *)

Module Home.

Definition STORAGE_KEY : string := "redeemedCoupons".
Definition FIRST_VISIT_KEY : string := "firstVisit".
Definition REDEEMED_DATES_KEY : string := "redeemedDates".
Definition AUTH_KEY : string := "advent-auth".

(** The state of the component: [state] and the [useState] cells next to
    it.  The annotations say [Set<number>] and [Record<number, string>];
    what the cells hold is whatever [JSON.parse] returned. *)
Record State := {
  selectedCoupon : option number;
  redeemedCoupons : list json;
  showProfile : bool;
  redeemedDates : json;
  isAuthenticated : bool;
  showAuthModal : bool
}.

Definition initial : State :=
  {| selectedCoupon := None;
     redeemedCoupons := [];
     showProfile := false;
     redeemedDates := JObj [];
     isAuthenticated := false;
     showAuthModal := false |}.

(** The component together with the storage it writes through. *)
Record World := {
  page : State;
  storage : Storage
}.

Definition set_redeemedCoupons (s : list json) (h : State) : State :=
  {| selectedCoupon := selectedCoupon h; redeemedCoupons := s;
     showProfile := showProfile h; redeemedDates := redeemedDates h;
     isAuthenticated := isAuthenticated h; showAuthModal := showAuthModal h |}.

Definition set_redeemedDates (d : json) (h : State) : State :=
  {| selectedCoupon := selectedCoupon h; redeemedCoupons := redeemedCoupons h;
     showProfile := showProfile h; redeemedDates := d;
     isAuthenticated := isAuthenticated h; showAuthModal := showAuthModal h |}.

Definition set_selectedCoupon (c : option number) (h : State) : State :=
  {| selectedCoupon := c; redeemedCoupons := redeemedCoupons h;
     showProfile := showProfile h; redeemedDates := redeemedDates h;
     isAuthenticated := isAuthenticated h; showAuthModal := showAuthModal h |}.

Definition set_auth (a m : bool) (h : State) : State :=
  {| selectedCoupon := selectedCoupon h; redeemedCoupons := redeemedCoupons h;
     showProfile := showProfile h; redeemedDates := redeemedDates h;
     isAuthenticated := a; showAuthModal := m |}.

Definition isUnlocked (now : Date) (day : Z) : bool :=
  (getMonth now =? 11) && (day <=? getDate now).

Definition isRedeemed (h : State) (couponId : number) : bool :=
  Set_has (redeemedCoupons h) (JNum couponId).

Definition unlockedCount (now : Date) : Z :=
  if negb (getMonth now =? 11) then 0
  else Z.of_nat (length (List.filter (fun c => day c <=? getDate now) coupons)).

Definition stats (h : State) : CouponStats := getCouponStats (redeemedCoupons h).

Section WithRuntime.
Context `{Runtime}.

(** The own enumerable properties that [{...v}] copies.  The rule that an
    object lists its integer-like keys first is left out: nothing below
    reads the order of the keys. *)
Definition own_props (v : json) : list (string * json) :=
  match v with
  | JObj props => props
  | JArr elems => imap (fun i x => (Number_toString (num (Z.of_nat i)), x)) elems
  | JStr s =>
      imap (fun i c => (Number_toString (num (Z.of_nat i)), JStr (String c EmptyString)))
           (String.list_ascii_of_string s)
  | _ => []
  end.

(** [redeemedAt[id]] *)
Definition redeemedAt (h : State) (couponId : number) : option json :=
  assoc_get (Number_toString couponId) (own_props (redeemedDates h)).

Definition saveRedeemedDate (couponId : number) (now : Date) (w : World) : World :=
  let newDates :=
    JObj (assoc_set (Number_toString couponId) (JStr (toISOString now))
                    (own_props (redeemedDates (page w)))) in
  {| page := set_redeemedDates newDates (page w);
     storage := snd (setItem REDEEMED_DATES_KEY (JSON_stringify newDates 0) (storage w)) |}.

(** One redemption: the state update, the write of the list, the write
    of the timestamp.  Each call is an event of its own and sees the state
    the previous one left.  The toasts and the announcement for screen
    readers are left out. *)
Definition handleRedeem (couponId : number) (now : Date) (w : World) : World :=
  let newRedeemed := Set_add (JNum couponId) (redeemedCoupons (page w)) in
  let st := snd (setItem STORAGE_KEY (JSON_stringify (JArr newRedeemed) 0) (storage w)) in
  saveRedeemedDate couponId now
    {| page := set_redeemedCoupons newRedeemed (page w); storage := st |}.

(** One tick of the interval that saves the set again every 30 seconds. *)
Definition autoSave (w : World) : World :=
  if (0 <? Z.of_nat (length (redeemedCoupons (page w))))
  then {| page := page w;
          storage := snd (setItem STORAGE_KEY
                            (JSON_stringify (JArr (redeemedCoupons (page w))) 0)
                            (storage w)) |}
  else w.

(** The three steps inside the [try] of [initializeData]; [None] is a
    thrown [SyntaxError]. *)
Definition load_redeemed (w : World) : option World :=
  match getItem STORAGE_KEY (storage w) with
  | None => Some w
  | Some saved =>
      if String.eqb saved "" then Some w
      else match JSON_parse saved with
           | None => None
           | Some (JArr parsedData) =>
               Some {| page := set_redeemedCoupons (Set_of_array parsedData) (page w);
                       storage := storage w |}
           | Some _ => Some w
           end
  end.

Definition load_dates (w : World) : option World :=
  match getItem REDEEMED_DATES_KEY (storage w) with
  | None => Some w
  | Some savedDates =>
      if String.eqb savedDates "" then Some w
      else match JSON_parse savedDates with
           | None => None
           | Some parsedDates =>
               Some {| page := set_redeemedDates parsedDates (page w); storage := storage w |}
           end
  end.

Definition mark_first_visit (herName : string) (now : Date) (w : World) : World :=
  let isFirstVisit :=
    match getItem FIRST_VISIT_KEY (storage w) with
    | Some v => String.eqb v ""
    | None => true
    end in
  if isFirstVisit && negb (String.eqb herName "")
  then {| page := page w;
          storage := snd (setItem FIRST_VISIT_KEY (toISOString now) (storage w)) |}
  else w.

(** The effect that initialises the data; the [catch] keeps what the
    [try] had done before the throw. *)
Definition initializeData (herName : string) (now : Date) (w : World) : World :=
  match load_redeemed w with
  | None => w
  | Some w1 =>
      match load_dates w1 with
      | None => w1
      | Some w2 => mark_first_visit herName now w2
      end
  end.

End WithRuntime.

(** The effect that checks the session flag. *)
Definition checkAuth (w : World) : World :=
  match getItem AUTH_KEY (storage w) with
  | Some auth =>
      if String.eqb auth "true"
      then {| page := set_auth true (showAuthModal (page w)) (page w); storage := storage w |}
      else {| page := set_auth (isAuthenticated (page w)) true (page w); storage := storage w |}
  | None => {| page := set_auth (isAuthenticated (page w)) true (page w); storage := storage w |}
  end.

(** A page load: the initial state, then the two effects. *)
Definition load `{Runtime} (herName : string) (now : Date) (st : Storage) : World :=
  initializeData herName now (checkAuth {| page := initial; storage := st |}).

Definition handleAuthenticate (success : bool) (w : World) : World :=
  if success
  then {| page := set_auth true false (page w);
          storage := snd (setItem AUTH_KEY "true" (storage w)) |}
  else w.

Definition handleDoorClick (couponId : number) (unlocked : bool) (h : State) : State :=
  if negb unlocked then h else set_selectedCoupon (Some couponId) h.


(** [state.selectedCoupon ? ... : ...] tests the number for truthiness. *)
Definition selected (h : State) : option number :=
  match selectedCoupon h with
  | Some n => if truthy (JNum n) then Some n else None
  | None => None
  end.

Definition selectedCouponData (h : State) : option Coupon :=
  match selected h with
  | Some n => getCouponById n
  | None => None
  end.

(** [onRedeem] as the page hands it to the modal. *)
Definition onRedeem `{Runtime} (now : Date) (w : World) : World :=
  match selected (page w) with
  | Some n => handleRedeem n now w
  | None => w
  end.

End Home.

(** ** The data manager ([DataManager]) *)

Module DataManager.

Definition BACKUP_VERSION : string := "1.0.0".
Definition STORAGE_KEY : string := "redeemedCoupons".

Definition validateBackupData (data : json) : bool :=
  if negb (truthy data) || negb (String.eqb (typeof (Some data)) "object") then false
  else
    match get_prop data "redeemedCoupons" with
    | Some (JArr redeemedCoupons) =>
        if negb (forallb (fun i => String.eqb (typeof (Some i)) "number") redeemedCoupons)
        then false
        else if negb (String.eqb (typeof (get_prop data "exportDate")) "string") then false
        else true
    | _ => false
    end.

Inductive ExportResult :=
| ExportNoAccess                                  (* storage not available *)
| ExportNoData                                    (* nothing stored under the key *)
| ExportError                                     (* caught: the stored text does not parse *)
| Exported (fileName : string) (dataStr : string) (* the file offered for download *).

Inductive ImportResult :=
| NoFile
| WrongExtension
| TooLarge
| EmptyFile
| MalformedJSON
| InvalidFormat
| WriteFailed
| Imported (versionWarning : bool).

Inductive ResetResult :=
| ResetNoAccess
| ResetCancelled
| ResetFailed
| ResetDone.      (* the page reloads a second later *)

(** What the file input and the [FileReader] deliver. *)
Record File := {
  name : string;
  size : Z;
  content : string
}.

Section WithRuntime.
Context `{Runtime}.

Definition backupData (parsedData : json) (now : Date) : json :=
  JObj [("redeemedCoupons", parsedData);
        ("exportDate", JStr (toISOString now));
        ("version", JStr BACKUP_VERSION)].

Definition exportData (now : Date) (st : Storage) : ExportResult :=
  if negb (isAvailable st) then ExportNoAccess
  else
    match getItem STORAGE_KEY st with
    | None => ExportNoData
    | Some data =>
        if String.eqb data "" then ExportNoData
        else
          match JSON_parse data with
          | None => ExportError
          | Some parsedData =>
              Exported
                ("advent-calendar-backup-" +:+ before_T (toISOString now) +:+ ".json")
                (JSON_stringify (backupData parsedData now) 2)
          end
    end.

(** The handler of the file input together with [reader.onload]. *)
Definition handleFileSelect (file : option File) (st : Storage) : ImportResult * Storage :=
  match file with
  | None => (NoFile, st)
  | Some f =>
      if negb (endsWith (name f) ".json") then (WrongExtension, st)
      else if 1024 * 1024 <? size f then (TooLarge, st)
      else if String.eqb (content f) "" then (EmptyFile, st)
      else
        match JSON_parse (content f) with
        | None => (MalformedJSON, st)
        | Some data =>
            if negb (validateBackupData data) then (InvalidFormat, st)
            else
              let versionWarning :=
                match get_prop data "version" with
                | Some (JStr version) => negb (String.eqb version BACKUP_VERSION)
                | _ => true
                end in
              let redeemedCoupons := default JNull (get_prop data "redeemedCoupons") in
              let '(success, st') :=
                setItem STORAGE_KEY (JSON_stringify redeemedCoupons 0) st in
              if success then (Imported versionWarning, st') else (WriteFailed, st')
        end
  end.

End WithRuntime.

(** [confirmed]: the answer given in the confirmation toast. *)
Definition resetData (confirmed : bool) (st : Storage) : ResetResult * Storage :=
  if negb (isAvailable st) then (ResetNoAccess, st)
  else if negb confirmed then (ResetCancelled, st)
  else
    let '(success, st') := removeItem STORAGE_KEY st in
    if success then (ResetDone, st') else (ResetFailed, st').

End DataManager.

(** ** The date challenge ([AuthModal]) *)

Module AuthModal.

Inductive SubmitResult :=
| MissingValues     (* the error asking for all the values *)
| Accepted          (* [onAuthenticate(true)] called *)
| TryAgain.         (* the error asking to try again *)

Definition handleSubmit (day month year : string) : SubmitResult :=
  let d := padStart (trim day) 2 "0" in
  let m := padStart (trim month) 2 "0" in
  let y := padStart (trim year) 2 "23" in
  if String.eqb d "" || String.eqb m "" || String.eqb y "" then MissingValues
  else if String.eqb d "03" && String.eqb m "02" && String.eqb y "23" then Accepted
  else TryAgain.

(** The challenge as one operation: the modal, then the page's callback. *)
Definition authenticate (day month year : string) (w : Home.World) : bool * Home.World :=
  match handleSubmit day month year with
  | Accepted => (true, Home.handleAuthenticate true w)
  | _ => (false, w)
  end.

End AuthModal.

(** ** The door ([Door]) *)

Module Door.

Record Props := {
  coupon : Coupon;
  isUnlocked : bool;
  isRedeemed : bool
}.

Inductive StatusText :=
| WillUnlock (day : Z)   (* the text naming the December day of the unlock *)
| Redeemed               (* the text saying the coupon was redeemed *)
| ClickToOpen.           (* the text inviting to open *)

Definition statusText (p : Props) : StatusText :=
  if negb (isUnlocked p) then WillUnlock (day (coupon p))
  else if isRedeemed p then Redeemed
  else ClickToOpen.

Definition isToday (now : Date) (p : Props) : bool :=
  (getDate now =? day (coupon p)) && (getMonth now =? 11).

Definition daysUntil (now : Date) (p : Props) : Z :=
  if negb (getMonth now =? 11) then day (coupon p)
  else Z.max 0 (day (coupon p) - getDate now).

(** What the markup shows, one flag per conditional element. *)
Record View := {
  status : StatusText;
  lockOverlay : bool;
  redeemedBadge : bool;
  ariaDisabled : bool;
  todayRing : bool
}.

Definition render (now : Date) (p : Props) : View :=
  {| status := statusText p;
     lockOverlay := negb (isUnlocked p);
     redeemedBadge := isRedeemed p;
     ariaDisabled := negb (isUnlocked p);
     todayRing := isToday now p && isUnlocked p && negb (isRedeemed p) |}.

(** [handleClick]: whether the page's [onClick] is reached. *)
Definition handleClick (p : Props) : bool := isUnlocked p.

(** The properties the page passes for one coupon. *)
Definition props (now : Date) (h : Home.State) (c : Coupon) : Props :=
  {| coupon := c;
     isUnlocked := Home.isUnlocked now (day c);
     isRedeemed := Home.isRedeemed h (num (id c)) |}.

End Door.

(** ** The payloads of the scannable codes *)

Module CouponModal.

Definition couponValue (c : Coupon) (now : Date) : json :=
  JObj [("id", JNum (num (id c)));
        ("title", JStr (title c));
        ("description", JStr (description c));
        ("validUntil", JStr (validUntil c));
        ("emoji", JStr (emoji c));
        ("redeemedAt", JStr (toISOString now))].

Definition couponData `{Runtime} (coupon : option Coupon) (now : Date) : string :=
  match coupon with
  | Some c => JSON_stringify (couponValue c now) 2
  | None => ""
  end.

(** The modal as the page renders it. *)
Definition rendered `{Runtime} (now : Date) (w : Home.World) : string :=
  couponData (Home.selectedCouponData (Home.page w)) now.

End CouponModal.

Module QrCoupon.

Definition qrValue (c : Coupon) (now : Date) : json :=
  JObj [("id", JNum (num (id c)));
        ("title", JStr (title c));
        ("description", JStr (description c));
        ("category", JStr (category_value (category c)));
        ("validUntil", JStr (validUntil c));
        ("redeemedAt", JStr (toISOString now));
        ("version", JStr "1.0")].

Definition qrData `{Runtime} (couponId : number) (now : Date) : option string :=
  match getCouponById couponId with
  | Some c => Some (JSON_stringify (qrValue c now) 2)
  | None => None
  end.

End QrCoupon.

Module Profile.

Record TimelineItem := {
  item : Coupon;
  redeemedDate : string
}.

Definition redeemedCoupons (redeemedCouponIds : list json) (now : Date) : list TimelineItem :=
  map (fun c => {| item := c; redeemedDate := toISOString now |})
      (getRedeemedCoupons redeemedCouponIds).

Definition qrValue (i : TimelineItem) : json :=
  JObj [("id", JNum (num (id (item i))));
        ("title", JStr (title (item i)));
        ("description", JStr (description (item i)));
        ("validUntil", JStr (validUntil (item i)));
        ("category", JStr (category_value (category (item i))));
        ("redeemedAt", JStr (redeemedDate i));
        ("version", JStr "1.0")].

Definition qrData `{Runtime} (i : TimelineItem) : string := JSON_stringify (qrValue i) 2.

(** The profile as the page renders it. *)
Definition rendered (now : Date) (w : Home.World) : list json :=
  map qrValue (redeemedCoupons (Home.redeemedCoupons (Home.page w)) now).

End Profile.

(** ** More of the page: the keyboard, the daily notification, the
    milestones and the two clicks that lead to a redemption *)

Module HomeEvents.

Definition set_showProfile (b : bool) (h : Home.State) : Home.State :=
  {| Home.selectedCoupon := Home.selectedCoupon h;
     Home.redeemedCoupons := Home.redeemedCoupons h;
     Home.showProfile := b;
     Home.redeemedDates := Home.redeemedDates h;
     Home.isAuthenticated := Home.isAuthenticated h;
     Home.showAuthModal := Home.showAuthModal h |}.

Definition handleProfileToggle (h : Home.State) : Home.State :=
  set_showProfile (negb (Home.showProfile h)) h.

(** [state.selectedCoupon] as a condition. *)
Definition modalOpen (h : Home.State) : bool :=
  match Home.selected h with
  | Some _ => true
  | None => false
  end.


(** The key of the marker of one day: the day number in decimal. *)
Definition notification_key (currentDay : Z) : string :=
  "notification_day_" +:+ pretty currentDay.

(** The effect [checkDailyUnlock]; the result says whether the toast is
    shown.  The two seconds between the test and the write are left
    out. *)
Definition checkDailyUnlock (herName : string) (now : Date) (st : Storage) : bool * Storage :=
  if String.eqb herName "" then (false, st)
  else if (getMonth now =? 11) && (getDate now <=? 24) then
    match getItem (notification_key (getDate now)) st with
    | Some lastNotification =>
        if String.eqb lastNotification ""
        then (true, snd (setItem (notification_key (getDate now)) "true" st))
        else (false, st)
    | None => (true, snd (setItem (notification_key (getDate now)) "true" st))
    end
  else (false, st).

Inductive Milestone := HalfOfCalendar | WholeCalendar.

(** The milestone toast of [handleRedeem]: it counts the set of the
    render the handler closes over, plus one. *)
Definition milestone (h : Home.State) : option Milestone :=
  let newCount := Z.of_nat (length (Home.redeemedCoupons h)) + 1 in
  if newCount =? 12 then Some HalfOfCalendar
  else if newCount =? 24 then Some WholeCalendar
  else None.

(** A click on the door of [c]: the door's own handler, then the page's. *)
Definition clickDoor (now : Date) (c : Coupon) (h : Home.State) : Home.State :=
  if Door.handleClick (Door.props now h c)
  then Home.handleDoorClick (num (id c)) (Home.isUnlocked now (day c)) h
  else h.

(** What the page passes to the modal as [isRedeemed]. *)
Definition modalIsRedeemed (h : Home.State) : bool :=
  match Home.selected h with
  | Some n => Home.isRedeemed h n
  | None => false
  end.

(** The modal renders nothing without a coupon; with one it shows either
    the button that redeems or the section with the code. *)
Definition showsRedeemButton (h : Home.State) : bool :=
  match Home.selectedCouponData h with
  | Some _ => negb (modalIsRedeemed h)
  | None => false
  end.

Definition showsCode (h : Home.State) : bool :=
  match Home.selectedCouponData h with
  | Some _ => modalIsRedeemed h
  | None => false
  end.

(** A press on the redeem button, where there is one. *)
Definition pressRedeem `{Runtime} (now : Date) (w : Home.World) : Home.World :=
  if showsRedeemButton (Home.page w) then Home.onRedeem now w else w.

End HomeEvents.

(** ** The countdown ([Countdown]) *)

Module Countdown.

Record TimeLeft := {
  hours : Z;
  minutes : Z;
  seconds : Z;
  totalSeconds : Z
}.

Record CountdownState := {
  timeLeft : TimeLeft;
  nextDay : Z;
  isComplete : bool;
  isLastTenSeconds : bool;
  progress : number
}.

(** What [calculateTimeLeft] reads off the clock: the calendar fields, and
    for a day [d] the milliseconds from now to the midnight that begins
    the [d]th of December of the current year
    ([new Date(currentYear, 11, d, 0, 0, 0).getTime() - now.getTime()]). *)
Record Moment := {
  today : Date;
  untilDecember : Z -> Z
}.

(** The two refs the hook keeps between ticks. *)
Record Refs := {
  hasPlayedSound : bool;
  lastUnlockToast : Z
}.

Inductive Toast :=
| DoorUnlocked (day : Z)
| LastTenSeconds.

Definition SECONDS_IN_DAY : Z := 86400.
Definition LAST_SECONDS_THRESHOLD : Z := 10.
Definition FIRST_DAY : Z := 1.
Definition LAST_DAY : Z := 24.
Definition COMPLETION_DAY : Z := 25.

Definition noTime : TimeLeft :=
  {| hours := 0; minutes := 0; seconds := 0; totalSeconds := 0 |}.

(** The four fields computed from a positive difference. *)
Definition timeLeftOf (difference : Z) : TimeLeft :=
  let totalSeconds := difference / 1000 in
  {| hours := totalSeconds / 3600;
     minutes := Z.rem totalSeconds 3600 / 60;
     seconds := Z.rem totalSeconds 60;
     totalSeconds := totalSeconds |}.

Definition calculateTimeLeft (m : Moment) (refs : Refs)
  : CountdownState * Refs * list Toast :=
  let currentDay := getDate (today m) in
  if negb (getMonth (today m) =? 11) then
    let difference := untilDecember m FIRST_DAY in
    if difference <=? 0 then
      ({| timeLeft := noTime; nextDay := FIRST_DAY; isComplete := false;
          isLastTenSeconds := false; progress := num 0 |}, refs, [])
    else
      ({| timeLeft := timeLeftOf difference; nextDay := FIRST_DAY; isComplete := false;
          isLastTenSeconds := totalSeconds (timeLeftOf difference) <=? LAST_SECONDS_THRESHOLD;
          progress := num 0 |}, refs, [])
  else if LAST_DAY <=? currentDay then
    ({| timeLeft := noTime; nextDay := COMPLETION_DAY; isComplete := true;
        isLastTenSeconds := false; progress := num 100 |}, refs, [])
  else
    let nextUnlockDay := Z.min (currentDay + 1) LAST_DAY in
    let difference := untilDecember m nextUnlockDay in
    if difference <=? 0 then
      let '(refs', toasts) :=
        if negb (lastUnlockToast refs =? nextUnlockDay)
        then ({| hasPlayedSound := hasPlayedSound refs; lastUnlockToast := nextUnlockDay |},
              [DoorUnlocked nextUnlockDay])
        else (refs, []) in
      ({| timeLeft := noTime; nextDay := nextUnlockDay; isComplete := false;
          isLastTenSeconds := false; progress := num 100 |}, refs', toasts)
    else
      let t := timeLeftOf difference in
      let progress :=
        js_mul (js_div (num (SECONDS_IN_DAY - totalSeconds t)) (num SECONDS_IN_DAY))
               (num 100) in
      let isLastTenSeconds := totalSeconds t <=? LAST_SECONDS_THRESHOLD in
      let '(refs', toasts) :=
        if isLastTenSeconds && negb (hasPlayedSound refs)
        then ({| hasPlayedSound := true; lastUnlockToast := lastUnlockToast refs |},
              [LastTenSeconds])
        else if negb isLastTenSeconds
        then ({| hasPlayedSound := false; lastUnlockToast := lastUnlockToast refs |}, [])
        else (refs, []) in
      ({| timeLeft := t; nextDay := nextUnlockDay; isComplete := false;
          isLastTenSeconds := isLastTenSeconds; progress := progress |}, refs', toasts).

(** The toasts of a run of the interval: one tick for each reading of the
    clock, each tick seeing the refs the one before has left. *)
Fixpoint ticks (ms : list Moment) (refs : Refs) : list Toast :=
  match ms with
  | [] => []
  | m :: rest =>
      let '(_, refs', toasts) := calculateTimeLeft m refs in
      toasts ++ ticks rest refs'
  end.

(** The days of the doors announced in a list of toasts. *)
Definition unlockedDays (toasts : list Toast) : list Z :=
  flat_map (fun t => match t with DoorUnlocked d => [d] | LastTenSeconds => [] end) toasts.

(** No element of [l] repeats the one before it, [last] coming first. *)
Fixpoint changes (last : Z) (l : list Z) : bool :=
  match l with
  | [] => true
  | d :: rest => negb (last =? d) && changes d rest
  end.

Definition announcesLastSeconds (toasts : list Toast) : bool :=
  existsb (fun t => match t with LastTenSeconds => true | DoorUnlocked _ => false end) toasts.

End Countdown.

(** ** More of the profile ([Profile]) *)

Module ProfileStats.

Record Achievement := {
  aid : string;
  title : string;
  unlocked : bool;
  progress : option number;
  maxProgress : option number
}.

(** [a >= b] on numbers; false as soon as one of them is [NaN]. *)
Definition js_ge (a b : number) : bool :=
  match a, b with
  | Finite x, Finite y => bool_decide (y <= x)%Qc
  | PosInf, (Finite _ | PosInf | NegInf) => true
  | Finite _, NegInf => true
  | NegInf, NegInf => true
  | _, _ => false
  end.

(** [Math.min] of two numbers. *)
Definition Math_min (a b : number) : number :=
  match a, b with
  | NaN, _ | _, NaN => NaN
  | _, _ => if js_ge b a then a else b
  end.

(** The descriptions and the emoji of the six entries are left out. *)
Definition calculateAchievements
    (redeemedCount totalCount : Z) (categoryCounts : list (string * Z)) : list Achievement :=
  let percentage := js_mul (js_div (num redeemedCount) (num totalCount)) (num 100) in
  let categories := Z.of_nat (length categoryCounts) in
  [ {| aid := "first_coupon"; title := "Pierwsze Kroki";
       unlocked := 1 <=? redeemedCount;
       progress := None; maxProgress := None |};
    {| aid := "five_coupons"; title := "Na Dobrej Drodze";
       unlocked := 5 <=? redeemedCount;
       progress := Some (num (Z.min redeemedCount 5)); maxProgress := Some (num 5) |};
    {| aid := "ten_coupons"; title := "Kolekcjoner";
       unlocked := 10 <=? redeemedCount;
       progress := Some (num (Z.min redeemedCount 10)); maxProgress := Some (num 10) |};
    {| aid := "half_complete"; title := "W Połowie Drogi";
       unlocked := js_ge percentage (num 50);
       progress := Some (Math_min percentage (num 50)); maxProgress := Some (num 50) |};
    {| aid := "all_categories"; title := "Wszechstronny";
       unlocked := 3 <=? categories;
       progress := Some (num categories); maxProgress := Some (num 3) |};
    {| aid := "complete"; title := "Mistrz Kuponów";
       unlocked := totalCount <=? redeemedCount;
       progress := Some (num redeemedCount); maxProgress := Some (num totalCount) |} ].

(** The achievements as the profile computes them from its statistics. *)
Definition achievements (redeemedCouponIds : list json) : list Achievement :=
  let stats := getCouponStats redeemedCouponIds in
  calculateAchievements (redeemed stats) (total stats) (redeemedByCategory stats).

Definition unlockedOf (a : string) (l : list Achievement) : bool :=
  existsb (fun x => String.eqb (aid x) a && unlocked x) l.

Record CategoryRow := {
  rowCategory : string;
  rowTotal : Z;
  rowRedeemed : Z
}.

(** [categoryData]: one row for each entry of [stats.categoryCounts]. *)
Definition categoryData (redeemedCouponIds : list json) : list CategoryRow :=
  let stats := getCouponStats redeemedCouponIds in
  map (fun '(category, total) =>
         {| rowCategory := category;
            rowTotal := total;
            rowRedeemed := default 0 (assoc_get category (redeemedByCategory stats)) |})
      (categoryCounts stats).

(** The width of the bar of one row, in per cent ([CategoryProgress]). *)
Definition rowPercentage (r : CategoryRow) : number :=
  if 0 <? rowTotal r
  then js_mul (js_div (num (rowRedeemed r)) (num (rowTotal r))) (num 100)
  else num 0.

End ProfileStats.

(** ** The storage hook ([useLocalStorage]) *)

Module UseLocalStorage.

(** What the hook returns: the value and the hydration flag. *)
Record Hook := {
  value : json;
  isHydrated : bool
}.

Section WithRuntime.
Context `{Runtime}.

(** The first effect: the read after the mount.  A read that throws, a
    missing or empty item and a text that does not parse all leave the
    value alone; the flag is raised in the [finally]. *)
Definition readEffect (key : string) (h : Hook) (st : Storage) : Hook :=
  let value' :=
    match getItem key st with
    | Some item =>
        if String.eqb item "" then value h
        else match JSON_parse item with
             | Some parsed => parsed
             | None => value h
             end
    | None => value h
    end in
  {| value := value'; isHydrated := true |}.

(** The second effect: the write, once hydrated; a write that throws is
    caught. *)
Definition writeEffect (key : string) (h : Hook) (st : Storage) : Storage :=
  if negb (isHydrated h) then st
  else snd (setItem key (JSON_stringify (value h) 0) st).

(** The mount.  Both effects run after the first render, on the state of
    that render; the second runs again after the render the first has
    caused. *)
Definition mount (key : string) (initialValue : json) (st : Storage) : Hook * Storage :=
  let first := {| value := initialValue; isHydrated := false |} in
  let second := readEffect key first st in
  let st1 := writeEffect key first st in
  (second, writeEffect key second st1).

(** [setValue(v)] and the render after it: none when the value is the
    same (for a string, a number, a boolean or [null]), and then no
    effect runs. *)
Definition setValue (key : string) (v : json) (h : Hook) (st : Storage) : Hook * Storage :=
  if same_value_zero v (value h) then (h, st)
  else
    let h' := {| value := v; isHydrated := isHydrated h |} in
    (h', writeEffect key h' st).

End WithRuntime.

End UseLocalStorage.

(** ** The welcome overlay ([WelcomeOverlay]) *)

Module WelcomeOverlay.

(** The name is a string, with letters outside ASCII: here the list of its
    UTF-16 code units, which is what [length], [trim] and a regular
    expression see. *)
Definition jsstring := list Z.

(** White space and line terminators: what [trim] strips and [\s]
    matches. *)
Definition isWhiteSpace (c : Z) : bool :=
  (c =? 9) || (c =? 10) || (c =? 11) || (c =? 12) || (c =? 13) || (c =? 32)
  || (c =? 160) || (c =? 5760) || ((8192 <=? c) && (c <=? 8202))
  || (c =? 8232) || (c =? 8233) || (c =? 8239) || (c =? 8287)
  || (c =? 12288) || (c =? 65279).

(** The letters of the class besides [a-z] and [A-Z]. *)
Definition polishLetters : list Z :=
  [261; 263; 281; 322; 324; 243; 347; 378; 380;
   260; 262; 280; 321; 323; 211; 346; 377; 379].

(** One character of the class of the regular expression. *)
Definition isNameChar (c : Z) : bool :=
  ((97 <=? c) && (c <=? 122)) || ((65 <=? c) && (c <=? 90))
  || existsb (Z.eqb c) polishLetters || isWhiteSpace c || (c =? 45).

Fixpoint trimStart (s : jsstring) : jsstring :=
  match s with
  | c :: rest => if isWhiteSpace c then trimStart rest else s
  | [] => []
  end.

Definition trim (s : jsstring) : jsstring :=
  rev (trimStart (rev (trimStart s))).

Inductive NameError :=
| Required       (* the name is asked for *)
| TooShort       (* two characters at least *)
| TooLong        (* twenty at most *)
| OnlyLetters.   (* letters only *)

(** [validateName]: the error it sets, [None] when it returns true. *)
Definition validateName (value : jsstring) : option NameError :=
  let trimmed := trim value in
  match trimmed with
  | [] => Some Required
  | _ =>
      if (length trimmed <? 2)%nat then Some TooShort
      else if (20 <? length trimmed)%nat then Some TooLong
      else if negb (forallb isNameChar trimmed) then Some OnlyLetters
      else None
  end.

(** The button to the second step is disabled on [!name.trim()]. *)
Definition nextDisabled (name : jsstring) : bool :=
  match trim name with [] => true | _ => false end.

(** [finish]: the name handed to [setStoredName] and [onComplete], if
    any. *)
Definition finish (name : jsstring) : option jsstring :=
  match trim name with
  | [] => None
  | cleaned => Some cleaned
  end.

(** [handleSkip] stores the fallback name, the word Kochana. *)
Definition fallbackName : jsstring := [75; 111; 99; 104; 97; 110; 97].

Definition handleSkip : jsstring := fallbackName.

End WelcomeOverlay.

(** ** The list of the profile ([filteredCoupons], [handleExport]) *)

Module ProfileView.

(** [a - b] on numbers. *)
Definition js_sub (a b : number) : number :=
  match a, b with
  | Finite x, Finite y => Finite (x - y)%Qc
  | Finite _, PosInf => NegInf
  | Finite _, NegInf => PosInf
  | PosInf, (Finite _ | NegInf) => PosInf
  | NegInf, (Finite _ | PosInf) => NegInf
  | _, _ => NaN
  end.

(** Whether the result of a comparator is above zero; [NaN] counts as
    zero. *)
Definition positive (v : number) : bool :=
  match v with
  | Finite x => bool_decide (0 < x)%Qc
  | PosInf => true
  | _ => false
  end.

(** [s.includes(query)] *)
Fixpoint String_includes (s query : string) : bool :=
  String.prefix query s
  || match s with
     | String _ rest => String_includes rest query
     | EmptyString => false
     end.

(** The sort of an array, which is stable: every element goes before the
    first one it does not come after.  (The order it gives is the one the
    standard asks for whenever the comparator is consistent.) *)
Fixpoint insert {A} (after : A -> A -> bool) (x : A) (l : list A) : list A :=
  match l with
  | [] => [x]
  | y :: rest => if after x y then y :: insert after x rest else x :: l
  end.

Definition sorted_list {A} (after : A -> A -> bool) (l : list A) : list A :=
  fold_right (insert after) [] l.

(** The arrays live in a heap and are named by their place in it:
    [filter] makes a new array, [sort] sorts the array it is called on in
    place and returns that same array. *)
Definition Heap := list (list Profile.TimelineItem).

Definition read (r : nat) (hp : Heap) : list Profile.TimelineItem :=
  default [] (hp !! r).

Definition Array_filter (p : Profile.TimelineItem -> bool) (r : nat) (hp : Heap)
  : nat * Heap :=
  (length hp, hp ++ [List.filter p (read r hp)]).

Definition Array_sort (after : Profile.TimelineItem -> Profile.TimelineItem -> bool)
    (r : nat) (hp : Heap) : nat * Heap :=
  (r, <[r := sorted_list after (read r hp)]> hp).

Definition difficultyOrder (d : Difficulty) : Z :=
  match d with
  | easy => 1
  | medium => 2
  | special => 3
  end.

Section WithLocale.

(** The methods that depend on the locale and on the clock's format. *)
Variable toLowerCase : string -> string.
Variable localeCompare : string -> string -> Z.
Variable getTime : string -> number.   (* [new Date(s).getTime()] *)

Definition inCategory (filterCategory : string) (c : Profile.TimelineItem) : bool :=
  String.eqb (category_value (category (Profile.item c))) filterCategory.

Definition matches (query : string) (c : Profile.TimelineItem) : bool :=
  String_includes (toLowerCase (title (Profile.item c))) query
  || String_includes (toLowerCase (description (Profile.item c))) query
  || String_includes (toLowerCase (category_value (category (Profile.item c)))) query.

Definition byDate (a b : Profile.TimelineItem) : bool :=
  positive (js_sub (getTime (Profile.redeemedDate b)) (getTime (Profile.redeemedDate a))).

Definition byCategory (a b : Profile.TimelineItem) : bool :=
  0 <? localeCompare (category_value (category (Profile.item a)))
                     (category_value (category (Profile.item b))).

Definition byName (a b : Profile.TimelineItem) : bool :=
  0 <? localeCompare (title (Profile.item a)) (title (Profile.item b)).

Definition byDifficulty (a b : Profile.TimelineItem) : bool :=
  0 <? difficultyOrder (difficulty (Profile.item a))
       - difficultyOrder (difficulty (Profile.item b)).

(** [filteredCoupons]: [redeemedCoupons] names the memoised array of the
    redeemed coupons; the result names the array that is shown. *)
Definition filteredCoupons (filterCategory searchQuery sortMode : string)
    (redeemedCoupons : nat) (hp : Heap) : nat * Heap :=
  let filtered := redeemedCoupons in
  let '(filtered, hp) :=
    if negb (String.eqb filterCategory "all")
    then Array_filter (inCategory filterCategory) filtered hp
    else (filtered, hp) in
  let '(filtered, hp) :=
    if negb (String.eqb searchQuery "")
    then Array_filter (matches (toLowerCase searchQuery)) filtered hp
    else (filtered, hp) in
  if String.eqb sortMode "date" then Array_sort byDate filtered hp
  else if String.eqb sortMode "category" then Array_sort byCategory filtered hp
  else if String.eqb sortMode "name" then Array_sort byName filtered hp
  else if String.eqb sortMode "difficulty" then Array_sort byDifficulty filtered hp
  else (filtered, hp).

(** The list on the screen when the memoised array is the only one. *)
Definition view (filterCategory searchQuery sortMode : string)
    (items : list Profile.TimelineItem) : list Profile.TimelineItem :=
  let r := filteredCoupons filterCategory searchQuery sortMode 0 [items] in
  read (fst r) (snd r).

(** The items that pass the filters that are set. *)
Definition passing (filterCategory searchQuery : string)
    (items : list Profile.TimelineItem) : list Profile.TimelineItem :=
  let l := if String.eqb filterCategory "all" then items
           else List.filter (inCategory filterCategory) items in
  if String.eqb searchQuery "" then l
  else List.filter (matches (toLowerCase searchQuery)) l.

(** The order a sort mode asks for; none for a mode that is not
    known. *)
Definition ordered (sortMode : string) (l : list Profile.TimelineItem)
  : list Profile.TimelineItem :=
  if String.eqb sortMode "date" then sorted_list byDate l
  else if String.eqb sortMode "category" then sorted_list byCategory l
  else if String.eqb sortMode "name" then sorted_list byName l
  else if String.eqb sortMode "difficulty" then sorted_list byDifficulty l
  else l.

End WithLocale.

(** [handleExport]: the [coupons] of the document, read from the memoised
    array when the document is written. *)
Definition exportedCoupons (redeemedCoupons : nat) (hp : Heap) : list Profile.TimelineItem :=
  read redeemedCoupons hp.

(** The numbers of a list do not fall. *)
Fixpoint ascending (l : list Z) : bool :=
  match l with
  | a :: rest =>
      match rest with
      | b :: _ => (a <=? b) && ascending rest
      | [] => true
      end
  | [] => true
  end.

End ProfileView.

(** ** A reference runtime

    A printer and a parser for JSON texts (numbers in decimal notation
    without exponent, strings with the two escapes the printer emits), to
    run the definitions above on concrete inputs.  The printer ignores
    the indentation, which is white space only.  No theorem about the
    application depends on this module: the theorems hold for every
    [Runtime]. *)

Module Reference.

Import Stdlib.Strings.Ascii.

Definition quote : ascii := ascii_of_nat 34.
Definition backslash : ascii := ascii_of_nat 92.

Fixpoint escape (s : string) : string :=
  match s with
  | EmptyString => EmptyString
  | String c rest =>
      if Ascii.eqb c quote || Ascii.eqb c backslash
      then String backslash (String c (escape rest))
      else String c (escape rest)
  end.

Definition quoted (s : string) : string :=
  String quote (escape s +:+ String quote EmptyString).

(** The digits after the decimal point of [r / d], at most [fuel] of them. *)
Fixpoint frac_digits (fuel : nat) (r d : Z) : string :=
  match fuel with
  | O => EmptyString
  | S fuel' =>
      if r =? 0 then EmptyString
      else pretty ((10 * r) / d) +:+ frac_digits fuel' ((10 * r) mod d) d
  end.

Definition print_finite (q : Qc) : string :=
  let d := Z.pos (Qden (this q)) in
  let m := Z.abs (Qnum (this q)) in
  let f := frac_digits 17 (m mod d) d in
  (if Qnum (this q) <? 0 then "-" else "")
    +:+ pretty (m / d)
    +:+ (if String.eqb f "" then "" else "." +:+ f).

Definition toString (n : number) : string :=
  match n with
  | Finite q => print_finite q
  | NaN => "NaN"
  | PosInf => "Infinity"
  | NegInf => "-Infinity"
  end.

Fixpoint print (v : json) : string :=
  match v with
  | JNull => "null"
  | JBool true => "true"
  | JBool false => "false"
  | JNum (Finite q) => print_finite q
  | JNum _ => "null"
  | JStr s => quoted s
  | JArr elems =>
      "[" +:+ (fix go (l : list json) : string :=
                 match l with
                 | [] => ""
                 | [x] => print x
                 | x :: rest => print x +:+ "," +:+ go rest
                 end) elems +:+ "]"
  | JObj props =>
      "{" +:+ (fix go (l : list (string * json)) : string :=
                 match l with
                 | [] => ""
                 | [(k, x)] => quoted k +:+ ":" +:+ print x
                 | (k, x) :: rest => quoted k +:+ ":" +:+ print x +:+ "," +:+ go rest
                 end) props +:+ "}"
  end.

Fixpoint skip_ws (cs : list ascii) : list ascii :=
  match cs with
  | c :: rest => if Ascii.is_space c then skip_ws rest else cs
  | [] => []
  end.

Fixpoint digits (cs : list ascii) (acc : Z) (n : nat) : Z * nat * list ascii :=
  match cs with
  | c :: rest =>
      match Ascii.is_nat c with
      | Some d => digits rest (10 * acc + Z.of_nat d) (S n)
      | None => (acc, n, cs)
      end
  | [] => (acc, n, [])
  end.

Definition parse_number (cs : list ascii) : option (number * list ascii) :=
  let '(negative, cs1) :=
    match cs with
    | "-"%char :: rest => (true, rest)
    | _ => (false, cs)
    end in
  let '(ip, n, cs2) := digits cs1 0 0 in
  if (n =? 0)%nat then None
  else
    let '(fp, k, cs3) :=
      match cs2 with
      | "."%char :: rest => digits rest 0 0
      | _ => (0, O, cs2)
      end in
    let den := 10 ^ Z.of_nat k in
    let m := ip * den + fp in
    let q := Qred ((if negative then - m else m) # Z.to_pos den) in
    Some (if Pos.eqb (Qden q) 1 then num (Qnum q) else Finite (Q2Qc q), cs3).

Fixpoint parse_string (cs : list ascii) : option (string * list ascii) :=
  match cs with
  | [] => None
  | c :: rest =>
      if Ascii.eqb c quote then Some (EmptyString, rest)
      else if Ascii.eqb c backslash then
        match rest with
        | e :: rest' =>
            match parse_string rest' with
            | Some (s, r) => Some (String e s, r)
            | None => None
            end
        | [] => None
        end
      else
        match parse_string rest with
        | Some (s, r) => Some (String c s, r)
        | None => None
        end
  end.

Fixpoint parse_value (fuel : nat) (cs : list ascii) : option (json * list ascii) :=
  match fuel with
  | O => None
  | S fuel' =>
      match skip_ws cs with
      | "n"%char :: "u"%char :: "l"%char :: "l"%char :: rest => Some (JNull, rest)
      | "t"%char :: "r"%char :: "u"%char :: "e"%char :: rest => Some (JBool true, rest)
      | "f"%char :: "a"%char :: "l"%char :: "s"%char :: "e"%char :: rest =>
          Some (JBool false, rest)
      | "["%char :: rest =>
          match skip_ws rest with
          | "]"%char :: rest' => Some (JArr [], rest')
          | _ =>
              match parse_elems fuel' rest with
              | Some (l, r) => Some (JArr l, r)
              | None => None
              end
          end
      | "{"%char :: rest =>
          match skip_ws rest with
          | "}"%char :: rest' => Some (JObj [], rest')
          | _ =>
              match parse_members fuel' rest with
              | Some (l, r) => Some (JObj l, r)
              | None => None
              end
          end
      | c :: rest =>
          if Ascii.eqb c quote then
            match parse_string rest with
            | Some (s, r) => Some (JStr s, r)
            | None => None
            end
          else
            match parse_number (c :: rest) with
            | Some (n, r) => Some (JNum n, r)
            | None => None
            end
      | [] => None
      end
  end
with parse_elems (fuel : nat) (cs : list ascii) : option (list json * list ascii) :=
  match fuel with
  | O => None
  | S fuel' =>
      match parse_value fuel' cs with
      | Some (v, r) =>
          match skip_ws r with
          | ","%char :: r' =>
              match parse_elems fuel' r' with
              | Some (l, r'') => Some (v :: l, r'')
              | None => None
              end
          | "]"%char :: r' => Some ([v], r')
          | _ => None
          end
      | None => None
      end
  end
with parse_members (fuel : nat) (cs : list ascii)
  : option (list (string * json) * list ascii) :=
  match fuel with
  | O => None
  | S fuel' =>
      match skip_ws cs with
      | c :: rest =>
          if Ascii.eqb c quote then
            match parse_string rest with
            | Some (k, r) =>
                match skip_ws r with
                | ":"%char :: r1 =>
                    match parse_value fuel' r1 with
                    | Some (v, r2) =>
                        match skip_ws r2 with
                        | ","%char :: r3 =>
                            match parse_members fuel' r3 with
                            | Some (l, r4) => Some ((k, v) :: l, r4)
                            | None => None
                            end
                        | "}"%char :: r3 => Some ([(k, v)], r3)
                        | _ => None
                        end
                    | None => None
                    end
                | _ => None
                end
            | None => None
            end
          else None
      | [] => None
      end
  end.

Definition parse (s : string) : option json :=
  let cs := String.list_ascii_of_string s in
  match parse_value (2 * length cs + 4) cs with
  | Some (v, rest) =>
      match skip_ws rest with
      | [] => Some v
      | _ => None
      end
  | None => None
  end.

Definition runtime : Runtime :=
  {| JSON_parse := parse;
     JSON_stringify := fun v _ => print v;
     Number_toString := toString |}.

(** The clock readings and the storage used in the examples. *)
Definition dec (d : Z) (iso : string) : Date :=
  {| getDate := d; getMonth := 11; toISOString := iso |}.

Definition jan (d : Z) (iso : string) : Date :=
  {| getDate := d; getMonth := 0; toISOString := iso |}.

(** The coupon of day 5 in the catalogue. *)
Definition coupon5 : Coupon :=
  nth 4 coupons (mkCoupon 0 0 "" "" "" "" ROMANTIC easy).

Definition start : Home.World :=
  @Home.load runtime "" (dec 5 "2025-12-05T09:00:00.000Z") fresh_storage.

End Reference.


(** ** A reference locale

    Stand-ins for the methods that depend on the locale, used in the
    examples only: no change of case, the order of the character codes,
    no reading of dates. *)

Module ReferenceLocale.

Definition toLowerCase (s : string) : string := s.

Definition localeCompare (a b : string) : Z :=
  match String.compare a b with
  | Lt => -1
  | Eq => 0
  | Gt => 1
  end.

Definition getTime (s : string) : number := NaN.

End ReferenceLocale.


(** ** The properties in question, as predicates *)

(** Every key of the timestamp map is (the text of) a number in the
    redeemed set. *)
Definition timestamps_redeemed `{Runtime} (h : Home.State) : bool :=
  forallb
    (fun k =>
       existsb (fun x => match x with
                         | JNum n => String.eqb (Number_toString n) k
                         | _ => false
                         end)
               (Home.redeemedCoupons h))
    (map fst (Home.own_props (Home.redeemedDates h))).

Definition is_number (v : json) : bool :=
  match v with
  | JNum _ => true
  | _ => false
  end.

(** The validation of a backup in the words of the specification: an
    object whose [redeemedCoupons] is a collection of values all of integer
    type and whose [exportDate] is a string. *)
Definition payload_of_integers (data : json) : bool :=
  match data with
  | JObj props =>
      match assoc_get "redeemedCoupons" props, assoc_get "exportDate" props with
      | Some (JArr l), Some (JStr _) =>
          forallb (fun x => match x with
                            | JNum n => is_integer n
                            | _ => false
                            end) l
      | _, _ => false
      end
  | _ => false
  end.

(** The same with "number" for "integer". *)
Definition payload_of_numbers (data : json) : bool :=
  match data with
  | JObj props =>
      match assoc_get "redeemedCoupons" props, assoc_get "exportDate" props with
      | Some (JArr l), Some (JStr _) => forallb is_number l
      | _, _ => false
      end
  | _ => false
  end.

(** [JSON.parse] reads back what [JSON.stringify] wrote for [v]. *)
Definition roundtrips `{Runtime} (v : json) (space : nat) : Prop :=
  JSON_stringify v space <> "" /\ JSON_parse (JSON_stringify v space) = Some v.

(** ** Measures used in the statements *)

(** The sum of the counts of an object of counters. *)
Definition sum_counts (l : list (string * Z)) : Z :=
  fold_right (fun kv acc => snd kv + acc) 0 l.

(** How many coupons of a list have the category with the value [k]. *)
Definition count_category (k : string) (l : list Coupon) : Z :=
  Z.of_nat (length (List.filter (fun c => String.eqb (category_value (category c)) k) l)).

(** No two elements of the list are the same for SameValueZero. *)
Fixpoint distinct (s : list json) : bool :=
  match s with
  | [] => true
  | x :: rest => negb (existsb (same_value_zero x) rest) && distinct rest
  end.

(** A run of redemptions, the first of the list first. *)
Definition redeemAll `{Runtime} (events : list (number * Date)) (w : Home.World) : Home.World :=
  fold_left (fun w e => Home.handleRedeem (fst e) (snd e) w) events w.

(** * Properties *)

(** ** Numbers and statistics *)

Lemma Qc_of_Z_nonzero (z : Z) : z <> 0 -> Qc_of_Z z <> 0%Qc.
Proof.
  intros Hz Heq. apply (f_equal this) in Heq. simpl in Heq.
  unfold inject_Z in Heq. injection Heq as Heq. contradiction.
Qed.

Lemma js_div_finite (x : Qc) (b : Z) :
  b <> 0 -> js_div (Finite x) (num b) = Finite (x / Qc_of_Z b)%Qc.
Proof.
  intros Hb. unfold js_div, num.
  destruct (decide (Qc_of_Z b = 0%Qc)) as [Heq|_]; [|reflexivity].
  exfalso. exact (Qc_of_Z_nonzero b Hb Heq).
Qed.

Lemma total_is_24 (redeemedIds : list json) : total (getCouponStats redeemedIds) = 24.
Proof. reflexivity. Qed.

Lemma redeemed_is_length (redeemedIds : list json) :
  redeemed (getCouponStats redeemedIds) = Z.of_nat (length redeemedIds).
Proof. reflexivity. Qed.

(** The value of [percentage] as one integer division. *)
Lemma percentage_closed_form (redeemedIds : list json) :
  percentage (getCouponStats redeemedIds)
  = num ((200 * Z.of_nat (length redeemedIds) + 24) / 48).
Proof.
  unfold getCouponStats. cbn [percentage].
  change (Z.of_nat (length coupons)) with 24.
  unfold num at 1. rewrite js_div_finite by discriminate.
  unfold num at 1. cbn [js_mul Math_round]. do 2 f_equal.
  set (r := Z.of_nat (length redeemedIds)).
  transitivity (Qfloor ((200 * r + 24) # 48)); [|reflexivity].
  apply Qfloor_comp.
  unfold Qcmult, Qcdiv, Qcinv, Qcmult, Q2Qc, this.
  rewrite !Qred_correct. simpl this.
  unfold Qeq, Qplus, Qmult, Qinv, inject_Z. simpl. lia.
Qed.

(** C4.  For every list of redeemed IDs the statistics add up:
    [redeemed + remaining = total]; [percentage] is
    [round (100 * redeemed / total)], a tie rounded up, which is the
    integer quotient of [200 * redeemed + total] by [2 * total]; and
    [percentage] is 0 whenever [total] is 0.  The catalogue is a constant
    of 24 coupons, so [total] is 24 for every input and the division is
    never one by zero.  (The quotient and the product are exact here.  In
    binary floating point they are exact too wherever the result lies on a
    tie, [redeemed] being 3 modulo 6 there, and at least a sixth away from
    a tie everywhere else.) *)
Theorem stats_consistency (redeemedIds : list json) :
  let s := getCouponStats redeemedIds in
  redeemed s + remaining s = total s
  /\ percentage s
     = Math_round (js_div (js_mul (num 100) (num (redeemed s))) (num (total s)))
  /\ percentage s = num ((200 * redeemed s + total s) / (2 * total s))
  /\ total s <> 0
  /\ (total s = 0 -> percentage s = num 0).
Proof.
  cbv zeta. split; [|split; [|split; [|split]]];
    [| |rewrite percentage_closed_form; reflexivity|rewrite total_is_24; discriminate|].
  - unfold getCouponStats. cbn [redeemed remaining total]. lia.
  - rewrite total_is_24, redeemed_is_length.
    unfold getCouponStats. cbn [percentage].
    change (Z.of_nat (length coupons)) with 24.
    set (r := Qc_of_Z (Z.of_nat (length redeemedIds))).
    unfold num at 1 3 4 5. fold r. cbn [js_mul].
    rewrite !js_div_finite by discriminate. cbn [js_mul Math_round].
    replace (r / Qc_of_Z 24 * Qc_of_Z 100)%Qc with (Qc_of_Z 100 * r / Qc_of_Z 24)%Qc
      by (unfold Qcdiv; ring).
    reflexivity.
  - rewrite total_is_24. discriminate.
Qed.

(** The scenario of the specification: 12 of 24 redeemed is 50 per cent;
    3 of 24 is 12.5, rounded up. *)
Example stats_half :
  percentage (getCouponStats (map (fun z => JNum (num z)) [1;2;3;4;5;6;7;8;9;10;11;12]))
  = num 50.
Proof. rewrite percentage_closed_form. reflexivity. Qed.

Example stats_tie_rounds_up :
  percentage (getCouponStats [JNum (num 1); JNum (num 2); JNum (num 3)]) = num 13.
Proof. rewrite percentage_closed_form. reflexivity. Qed.

(** The arithmetic has no guard of its own: on an empty catalogue the same
    expression would be [0 / 0]. *)
Remark percentage_of_nothing :
  Math_round (js_mul (js_div (num 0) (num 0)) (num 100)) = NaN.
Proof. reflexivity. Qed.

(** ** Sets, objects and the storage *)

Lemma same_value_zero_number (n : number) : same_value_zero (JNum n) (JNum n) = true.
Proof. cbn. apply bool_decide_eq_true. reflexivity. Qed.

Lemma Set_has_app (s t : list json) (x : json) :
  Set_has (s ++ t) x = Set_has s x || Set_has t x.
Proof. unfold Set_has. apply existsb_app. Qed.

Lemma Set_has_add (s : list json) (n : number) :
  Set_has (Set_add (JNum n) s) (JNum n) = true.
Proof.
  unfold Set_add. destruct (Set_has s (JNum n)) eqn:Hin; [exact Hin|].
  rewrite Set_has_app. cbn [Set_has existsb].
  rewrite same_value_zero_number. apply orb_true_iff. right. reflexivity.
Qed.

(** Adding what is already there changes nothing. *)
Lemma Set_add_again (s : list json) (n : number) :
  Set_add (JNum n) (Set_add (JNum n) s) = Set_add (JNum n) s.
Proof.
  unfold Set_add at 1. rewrite Set_has_add. reflexivity.
Qed.

Lemma Set_add_keeps (s : list json) (x y : json) :
  Set_has s y = true -> Set_has (Set_add x s) y = true.
Proof.
  intros Hy. unfold Set_add. destruct (Set_has s x); [exact Hy|].
  rewrite Set_has_app, Hy. reflexivity.
Qed.

Lemma Set_add_not_empty (x : json) (s : list json) : Set_add x s <> [].
Proof.
  unfold Set_add. destruct (Set_has s x) eqn:Hin.
  - destruct s; [discriminate Hin|discriminate].
  - destruct s; discriminate.
Qed.

Lemma Set_of_array_from (l acc : list json) :
  acc <> [] -> fold_left (fun s x => Set_add x s) l acc <> [].
Proof.
  revert acc. induction l as [|x l IH]; intros acc Hacc; cbn [fold_left].
  - exact Hacc.
  - apply IH. apply Set_add_not_empty.
Qed.

Lemma Set_of_array_empty (l : list json) : Set_of_array l = [] <-> l = [].
Proof.
  split.
  - destruct l as [|x l]; [reflexivity|]. unfold Set_of_array. cbn [fold_left].
    intros Hnil. exfalso. revert Hnil. apply Set_of_array_from, Set_add_not_empty.
  - intros ->. reflexivity.
Qed.

Lemma assoc_get_set {A} (k : string) (v : A) (l : list (string * A)) :
  assoc_get k (assoc_set k v l) = Some v.
Proof.
  induction l as [|[k' v'] l IH]; cbn [assoc_set assoc_get].
  - rewrite String.eqb_refl. reflexivity.
  - destruct (String.eqb k k') eqn:Hk; cbn [assoc_get].
    + rewrite String.eqb_refl. reflexivity.
    + rewrite Hk. exact IH.
Qed.

Lemma assoc_set_keys {A} (k : string) (v : A) (l : list (string * A)) (k' : string) :
  In k' (map fst (assoc_set k v l)) -> k' = k \/ In k' (map fst l).
Proof.
  induction l as [|[k0 v0] l IH]; cbn [assoc_set map fst In].
  - intros [->|[]]. left. reflexivity.
  - destruct (String.eqb k k0) eqn:Hk; cbn [map fst In].
    + intros [->|Hin]; [left; reflexivity|right; right; exact Hin].
    + intros [->|Hin]; [right; left; reflexivity|].
      destruct (IH Hin) as [->|Hin']; [left; reflexivity|right; right; exact Hin'].
Qed.

Lemma getItem_setItem_same (k v : string) (st : Storage) :
  fst (setItem k v st) = true -> getItem k (snd (setItem k v st)) = Some v.
Proof.
  destruct st as [m [] []]; cbn; try discriminate.
  intros _. apply lookup_insert_eq.
Qed.

Lemma getItem_setItem_other (k k' v : string) (st : Storage) :
  k <> k' -> getItem k' (snd (setItem k v st)) = getItem k' st.
Proof.
  intros Hne. destruct st as [m [] []]; cbn; try reflexivity.
  apply lookup_insert_ne. exact Hne.
Qed.

Lemma setItem_available (k v : string) (st : Storage) :
  isAvailable st = true ->
  setItem k v st
  = (true, {| items := <[k := v]> (items st); available := available st; full := full st |}).
Proof. unfold isAvailable, setItem. intros ->. reflexivity. Qed.

Lemma getItem_removeItem_same (k : string) (st : Storage) :
  getItem k (snd (removeItem k st)) = None.
Proof.
  destruct st as [m [] f]; cbn; [|reflexivity]. apply lookup_delete_eq.
Qed.

Lemma getItem_removeItem_other (k k' : string) (st : Storage) :
  k <> k' -> getItem k' (snd (removeItem k st)) = getItem k' st.
Proof.
  intros Hne. destruct st as [m [] f]; cbn; [|reflexivity].
  apply lookup_delete_ne. exact Hne.
Qed.

(** ** Redemption *)

Section Redemption.
Context `{Runtime}.

Lemma handleRedeem_redeemedCoupons (couponId : number) (now : Date) (w : Home.World) :
  Home.redeemedCoupons (Home.page (Home.handleRedeem couponId now w))
  = Set_add (JNum couponId) (Home.redeemedCoupons (Home.page w)).
Proof. reflexivity. Qed.

Lemma handleRedeem_redeemedDates (couponId : number) (now : Date) (w : Home.World) :
  Home.redeemedDates (Home.page (Home.handleRedeem couponId now w))
  = JObj (assoc_set (Number_toString couponId) (JStr (toISOString now))
                    (Home.own_props (Home.redeemedDates (Home.page w)))).
Proof. reflexivity. Qed.

Lemma handleRedeem_redeemedAt (couponId : number) (now : Date) (w : Home.World) :
  Home.redeemedAt (Home.page (Home.handleRedeem couponId now w)) couponId
  = Some (JStr (toISOString now)).
Proof.
  unfold Home.redeemedAt. rewrite handleRedeem_redeemedDates.
  cbn [Home.own_props]. apply assoc_get_set.
Qed.

Lemma handleRedeem_stored_list (couponId : number) (now : Date) (w : Home.World) :
  getItem Home.STORAGE_KEY (Home.storage (Home.handleRedeem couponId now w))
  = if available (Home.storage w) && negb (full (Home.storage w))
    then Some (JSON_stringify
                 (JArr (Set_add (JNum couponId) (Home.redeemedCoupons (Home.page w)))) 0)
    else getItem Home.STORAGE_KEY (Home.storage w).
Proof.
  unfold Home.handleRedeem, Home.saveRedeemedDate. cbn [Home.storage Home.page].
  rewrite getItem_setItem_other by discriminate.
  destruct (Home.storage w) as [m [] []]; cbn; try reflexivity.
  apply lookup_insert_eq.
Qed.

Lemma handleRedeem_flags (couponId : number) (now : Date) (w : Home.World) :
  available (Home.storage (Home.handleRedeem couponId now w)) = available (Home.storage w)
  /\ full (Home.storage (Home.handleRedeem couponId now w)) = full (Home.storage w).
Proof.
  unfold Home.handleRedeem, Home.saveRedeemedDate. cbn [Home.storage Home.page].
  destruct (Home.storage w) as [m [] []]; cbn; split; reflexivity.
Qed.

(** C1, as the code has it.  Redeeming the same coupon twice leaves the
    redeemed set, the stored list and [isRedeemed] as one redemption left
    them; the timestamp kept for the coupon is the one of the latest call:
    the second call writes its own clock reading over the first. *)
Theorem redeem_twice (couponId : number) (t1 t2 : Date) (w : Home.World) :
  let w1 := Home.handleRedeem couponId t1 w in
  let w2 := Home.handleRedeem couponId t2 w1 in
  Home.isRedeemed (Home.page w1) couponId = true
  /\ Home.isRedeemed (Home.page w2) couponId = true
  /\ Home.redeemedCoupons (Home.page w2) = Home.redeemedCoupons (Home.page w1)
  /\ getItem Home.STORAGE_KEY (Home.storage w2) = getItem Home.STORAGE_KEY (Home.storage w1)
  /\ Home.redeemedAt (Home.page w1) couponId = Some (JStr (toISOString t1))
  /\ Home.redeemedAt (Home.page w2) couponId = Some (JStr (toISOString t2)).
Proof.
  cbv zeta. repeat split.
  - unfold Home.isRedeemed. rewrite handleRedeem_redeemedCoupons. apply Set_has_add.
  - unfold Home.isRedeemed. rewrite !handleRedeem_redeemedCoupons.
    rewrite Set_add_again. apply Set_has_add.
  - rewrite !handleRedeem_redeemedCoupons. apply Set_add_again.
  - rewrite (handleRedeem_stored_list couponId t2).
    destruct (handleRedeem_flags couponId t1 w) as [-> ->].
    rewrite handleRedeem_redeemedCoupons, Set_add_again.
    rewrite (handleRedeem_stored_list couponId t1).
    destruct (available (Home.storage w) && negb (full (Home.storage w))); reflexivity.
  - apply handleRedeem_redeemedAt.
  - apply handleRedeem_redeemedAt.
Qed.

End Redemption.

(** C1 as stated fails: coupon 5 redeemed on 5 December and again on
    6 December carries the timestamp of 6 December, not the one a single
    redemption had stored. *)
Lemma second_redeem_overwrites_timestamp :
  let w1 := @Home.handleRedeem Reference.runtime (num 5)
              (Reference.dec 5 "2025-12-05T10:00:00.000Z") Reference.start in
  let w2 := @Home.handleRedeem Reference.runtime (num 5)
              (Reference.dec 6 "2025-12-06T18:30:00.000Z") w1 in
  @Home.redeemedAt Reference.runtime (Home.page w2) (num 5)
  <> @Home.redeemedAt Reference.runtime (Home.page w1) (num 5).
Proof. vm_compute. discriminate. Qed.

(** ** Hydration *)

Section Hydration.
Context `{Runtime}.

Lemma load_dates_redeemedCoupons (w w' : Home.World) :
  Home.load_dates w = Some w' ->
  Home.redeemedCoupons (Home.page w') = Home.redeemedCoupons (Home.page w)
  /\ Home.storage w' = Home.storage w.
Proof.
  unfold Home.load_dates.
  destruct (getItem Home.REDEEMED_DATES_KEY (Home.storage w)) as [savedDates|].
  - destruct (String.eqb savedDates "").
    + intros [= <-]. split; reflexivity.
    + destruct (JSON_parse savedDates); [|discriminate].
      intros [= <-]. split; reflexivity.
  - intros [= <-]. split; reflexivity.
Qed.

Lemma mark_first_visit_page (herName : string) (now : Date) (w : Home.World) :
  Home.page (Home.mark_first_visit herName now w) = Home.page w.
Proof.
  unfold Home.mark_first_visit.
  destruct (_ && _); reflexivity.
Qed.

Lemma initializeData_redeemedCoupons (herName : string) (now : Date) (w : Home.World) :
  Home.redeemedCoupons (Home.page (Home.initializeData herName now w))
  = match getItem Home.STORAGE_KEY (Home.storage w) with
    | None => Home.redeemedCoupons (Home.page w)
    | Some saved =>
        if String.eqb saved "" then Home.redeemedCoupons (Home.page w)
        else match JSON_parse saved with
             | Some (JArr parsedData) => Set_of_array parsedData
             | _ => Home.redeemedCoupons (Home.page w)
             end
    end.
Proof.
  unfold Home.initializeData.
  destruct (Home.load_redeemed w) as [w1|] eqn:H1.
  - assert (Hw1 : Home.redeemedCoupons (Home.page w1)
                  = match getItem Home.STORAGE_KEY (Home.storage w) with
    | None => Home.redeemedCoupons (Home.page w)
    | Some saved =>
        if String.eqb saved "" then Home.redeemedCoupons (Home.page w)
        else match JSON_parse saved with
             | Some (JArr parsedData) => Set_of_array parsedData
             | _ => Home.redeemedCoupons (Home.page w)
             end
    end).
    { unfold Home.load_redeemed in H1.
      destruct (getItem Home.STORAGE_KEY (Home.storage w)) as [saved|].
      - destruct (String.eqb saved ""); [injection H1 as <-; reflexivity|].
        destruct (JSON_parse saved) as [[| | | |parsedData|]|];
          try discriminate; injection H1 as <-; reflexivity.
      - injection H1 as <-. reflexivity. }
    rewrite <- Hw1.
    destruct (Home.load_dates w1) as [w2|] eqn:H2; [|reflexivity].
    rewrite mark_first_visit_page.
    apply load_dates_redeemedCoupons in H2. apply H2.
  - unfold Home.load_redeemed in H1.
    destruct (getItem Home.STORAGE_KEY (Home.storage w)) as [saved|]; [|discriminate].
    destruct (String.eqb saved ""); [discriminate|].
    destruct (JSON_parse saved) as [[| | | |parsedData|]|]; try discriminate.
    reflexivity.
Qed.

Lemma load_redeemedCoupons (herName : string) (now : Date) (st : Storage) :
  Home.redeemedCoupons (Home.page (Home.load herName now st))
  = match getItem Home.STORAGE_KEY st with
    | None => []
    | Some saved =>
        if String.eqb saved "" then []
        else match JSON_parse saved with
             | Some (JArr parsedData) => Set_of_array parsedData
             | _ => []
             end
    end.
Proof.
  unfold Home.load. rewrite initializeData_redeemedCoupons.
  unfold Home.checkAuth. cbn [Home.storage Home.page].
  destruct (getItem Home.AUTH_KEY st) as [auth|]; [destruct (String.eqb auth "true")|];
    reflexivity.
Qed.

(** C9, as the code has it.  Loading the page never throws ([load] is a
    total function: the [catch] absorbs a text that does not parse), and
    the redeemed set it leaves is empty exactly when the stored value is
    missing, the empty text, no JSON, no array, or the empty array.  A
    stored array that is not empty becomes the set of its elements, of
    whatever type they are. *)
Theorem hydrate_redeemed (herName : string) (now : Date) (st : Storage) :
  (Home.redeemedCoupons (Home.page (Home.load herName now st)) = []
   <-> ~ exists saved parsedData,
           getItem Home.STORAGE_KEY st = Some saved
           /\ saved <> ""
           /\ JSON_parse saved = Some (JArr parsedData)
           /\ parsedData <> [])
  /\ (forall saved parsedData,
        getItem Home.STORAGE_KEY st = Some saved ->
        saved <> "" ->
        JSON_parse saved = Some (JArr parsedData) ->
        Home.redeemedCoupons (Home.page (Home.load herName now st))
        = Set_of_array parsedData).
Proof.
  rewrite load_redeemedCoupons. split.
  - destruct (getItem Home.STORAGE_KEY st) as [saved|].
    + destruct (String.eqb saved "") eqn:Hempty.
      * apply String.eqb_eq in Hempty. split; [|reflexivity].
        intros _ (s' & l' & [= <-] & Hne & _). contradiction.
      * destruct (JSON_parse saved) as [[| | | |parsedData|]|] eqn:Hparse;
          try (split; [intros _ (s' & l' & [= <-] & _ & Hp & _); congruence|reflexivity]).
        cbv beta iota. rewrite Set_of_array_empty. split.
        -- intros -> (s' & l' & [= <-] & _ & Hp & Hl). congruence.
        -- intros Hno. destruct parsedData as [|x l]; [reflexivity|].
           exfalso. apply Hno. exists saved, (x :: l).
           repeat split; try assumption; try discriminate.
           apply String.eqb_neq. exact Hempty.
    + split; [|reflexivity]. intros _ (s' & l' & [=] & _).
  - intros saved parsedData -> Hne ->.
    apply String.eqb_neq in Hne. rewrite Hne. reflexivity.
Qed.

End Hydration.

(** C9 as stated fails on an array of values that are no numbers: the
    stored text of the array of the strings a and b is loaded as a set of
    two strings. *)
Lemma hydrate_keeps_non_numeric :
  let st := snd (setItem Home.STORAGE_KEY
                   (Reference.print (JArr [JStr "a"; JStr "b"])) fresh_storage) in
  Home.redeemedCoupons
    (Home.page (@Home.load Reference.runtime "" (Reference.dec 5 "2025-12-05T09:00:00.000Z") st))
  <> [].
Proof. vm_compute. discriminate. Qed.

(** ** Reset *)

Section Reset.
Context `{Runtime}.

Lemma resetData_confirmed (st : Storage) :
  isAvailable st = true ->
  DataManager.resetData true st
  = (DataManager.ResetDone, snd (removeItem DataManager.STORAGE_KEY st)).
Proof.
  unfold DataManager.resetData, isAvailable, removeItem.
  destruct st as [m [] []]; cbn; try discriminate. reflexivity.
Qed.

(** Whatever the answer and the outcome, only the list of redeemed IDs
    can go. *)
Lemma resetData_other_keys (confirmed : bool) (st : Storage) (k : string) :
  k <> DataManager.STORAGE_KEY ->
  getItem k (snd (DataManager.resetData confirmed st)) = getItem k st.
Proof.
  intros Hk. unfold DataManager.resetData, isAvailable, removeItem, getItem.
  destruct st as [m [] []], confirmed; cbn; try reflexivity.
  apply lookup_delete_ne. congruence.
Qed.

(** C2, as the code has it.  After a confirmed reset on a working storage
    the list of redeemed IDs is gone from the storage, every other key is
    as it was, and the page loaded from that storage has an empty redeemed
    set: [isRedeemed] is false for every ID and the statistics count 0. *)
Theorem reset_clears_redeemed (herName : string) (now : Date) (st : Storage) :
  isAvailable st = true ->
  let r := DataManager.resetData true st in
  let w := Home.load herName now (snd r) in
  fst r = DataManager.ResetDone
  /\ getItem Home.STORAGE_KEY (snd r) = None
  /\ (forall k, k <> Home.STORAGE_KEY -> getItem k (snd r) = getItem k st)
  /\ Home.redeemedCoupons (Home.page w) = []
  /\ (forall couponId, Home.isRedeemed (Home.page w) couponId = false)
  /\ redeemed (Home.stats (Home.page w)) = 0.
Proof.
  intros Hav. cbv zeta. rewrite (resetData_confirmed st Hav). cbn [fst snd].
  assert (Hgone : getItem Home.STORAGE_KEY (snd (removeItem DataManager.STORAGE_KEY st)) = None)
    by apply getItem_removeItem_same.
  assert (Hempty : Home.redeemedCoupons
                     (Home.page (Home.load herName now
                                   (snd (removeItem DataManager.STORAGE_KEY st)))) = []).
  { rewrite load_redeemedCoupons, Hgone. reflexivity. }
  repeat split.
  - exact Hgone.
  - intros k Hk. apply getItem_removeItem_other.
    intros Heq. apply Hk. symmetry. exact Heq.
  - exact Hempty.
  - intros couponId. unfold Home.isRedeemed. rewrite Hempty. reflexivity.
  - unfold Home.stats. rewrite Hempty. reflexivity.
Qed.

End Reset.

(** The storage after coupon 5 was redeemed on 5 December. *)
Lemma reset_clears_redeemed_witness :
  let st := Home.storage
              (@Home.handleRedeem Reference.runtime (num 5)
                 (Reference.dec 5 "2025-12-05T10:00:00.000Z") Reference.start) in
  isAvailable st = true
  /\ Home.redeemedCoupons
       (Home.page (@Home.load Reference.runtime ""
                     (Reference.dec 6 "2025-12-06T08:00:00.000Z")
                     (snd (DataManager.resetData true st)))) = [].
Proof.
  cbv zeta. split; [reflexivity|].
  refine (proj1 (proj2 (proj2 (proj2
    (@reset_clears_redeemed Reference.runtime ""
       (Reference.dec 6 "2025-12-06T08:00:00.000Z") _ _))))).
  reflexivity.
Defined.

(** C2 as stated fails for the timestamp map: the reset removes only the
    list of redeemed IDs, so the timestamp of coupon 5 is still stored and
    the page loaded next has it again. *)
Lemma reset_keeps_timestamps :
  let st := Home.storage
              (@Home.handleRedeem Reference.runtime (num 5)
                 (Reference.dec 5 "2025-12-05T10:00:00.000Z") Reference.start) in
  let r := DataManager.resetData true st in
  let w := @Home.load Reference.runtime "" (Reference.dec 6 "2025-12-06T08:00:00.000Z") (snd r) in
  fst r = DataManager.ResetDone
  /\ getItem Home.REDEEMED_DATES_KEY (snd r) <> None
  /\ @Home.redeemedAt Reference.runtime (Home.page w) (num 5)
     = Some (JStr "2025-12-05T10:00:00.000Z").
Proof. vm_compute. repeat split. discriminate. Qed.

(** The reset reloads the page a second after the removal.  A tick of the
    auto-save that falls into that second writes the list back from the
    page that is still open. *)
Example autoSave_between_reset_and_reload :
  let w1 := @Home.handleRedeem Reference.runtime (num 5)
              (Reference.dec 5 "2025-12-05T10:00:00.000Z") Reference.start in
  let afterReset :=
    {| Home.page := Home.page w1;
       Home.storage := snd (DataManager.resetData true (Home.storage w1)) |} in
  let afterTick := @Home.autoSave Reference.runtime afterReset in
  getItem Home.STORAGE_KEY (Home.storage afterReset) = None
  /\ getItem Home.STORAGE_KEY (Home.storage afterTick) = Some "[5]"
  /\ Home.redeemedCoupons
       (Home.page (@Home.load Reference.runtime ""
                     (Reference.dec 6 "2025-12-06T08:00:00.000Z") (Home.storage afterTick)))
     = [JNum (num 5)].
Proof. vm_compute. repeat split. Qed.

(** ** The timestamps and the redeemed set *)

Section Invariant.
Context `{Runtime}.

Lemma In_Set_add (x y : json) (s : list json) : In y s -> In y (Set_add x s).
Proof.
  intros Hy. unfold Set_add. destruct (Set_has s x); [exact Hy|].
  apply in_or_app. left. exact Hy.
Qed.

Lemma same_value_zero_number_eq (n : number) (x : json) :
  same_value_zero (JNum n) x = true -> x = JNum n.
Proof.
  destruct x; cbn; try discriminate.
  intros Heq. apply bool_decide_eq_true in Heq. congruence.
Qed.

Lemma In_Set_add_self (n : number) (s : list json) : In (JNum n) (Set_add (JNum n) s).
Proof.
  pose proof (Set_has_add s n) as Hhas. unfold Set_has in Hhas.
  apply existsb_exists in Hhas. destruct Hhas as (x & Hx & Heq).
  apply same_value_zero_number_eq in Heq. subst x. exact Hx.
Qed.

Lemma timestamps_redeemed_initial : timestamps_redeemed Home.initial = true.
Proof. reflexivity. Qed.

Lemma handleFileSelect_other_keys (file : option DataManager.File) (st : Storage) (k : string) :
  k <> DataManager.STORAGE_KEY ->
  getItem k (snd (DataManager.handleFileSelect file st)) = getItem k st.
Proof.
  intros Hk. unfold DataManager.handleFileSelect.
  destruct file as [f|]; [|reflexivity].
  destruct (negb (endsWith (DataManager.name f) ".json")); [reflexivity|].
  destruct (1024 * 1024 <? DataManager.size f); [reflexivity|].
  destruct (String.eqb (DataManager.content f) ""); [reflexivity|].
  destruct (JSON_parse (DataManager.content f)) as [data|]; [|reflexivity].
  destruct (negb (DataManager.validateBackupData data)); [reflexivity|].
  destruct (setItem _ _ st) as [success st'] eqn:Hset.
  assert (Hst' : st' = snd (setItem DataManager.STORAGE_KEY
                              (JSON_stringify (default JNull (get_prop data "redeemedCoupons")) 0)
                              st)) by (rewrite Hset; reflexivity).
  destruct success; cbn [snd]; rewrite Hst'; apply getItem_setItem_other; congruence.
Qed.

(** C3, as the code has it.  The page starts with no timestamp at all,
    and a redemption keeps every timestamped ID inside the redeemed set.
    Reset and import rewrite the list of redeemed IDs only: the stored
    timestamp map is the same before and after them. *)
Theorem redeem_keeps_timestamps_redeemed (couponId : number) (now : Date) (w : Home.World) :
  timestamps_redeemed (Home.page w) = true ->
  timestamps_redeemed (Home.page (Home.handleRedeem couponId now w)) = true
  /\ timestamps_redeemed Home.initial = true
  /\ (forall confirmed,
        getItem Home.REDEEMED_DATES_KEY
          (snd (DataManager.resetData confirmed (Home.storage w)))
        = getItem Home.REDEEMED_DATES_KEY (Home.storage w))
  /\ (forall file,
        getItem Home.REDEEMED_DATES_KEY
          (snd (DataManager.handleFileSelect file (Home.storage w)))
        = getItem Home.REDEEMED_DATES_KEY (Home.storage w)).
Proof.
  intros Hinv. split; [|split; [exact timestamps_redeemed_initial|split]].
  - unfold timestamps_redeemed in *.
    rewrite handleRedeem_redeemedCoupons, handleRedeem_redeemedDates.
    cbn [Home.own_props].
    rewrite forallb_forall in *. intros k Hk.
    apply assoc_set_keys in Hk. destruct Hk as [->|Hk].
    + apply existsb_exists. exists (JNum couponId). split.
      * apply In_Set_add_self.
      * apply String.eqb_refl.
    + specialize (Hinv k Hk). apply existsb_exists in Hinv.
      destruct Hinv as (x & Hx & Hkx).
      apply existsb_exists. exists x. split; [|exact Hkx].
      apply In_Set_add. exact Hx.
  - intros confirmed. apply resetData_other_keys. discriminate.
  - intros file. apply handleFileSelect_other_keys. discriminate.
Qed.

End Invariant.

(** The page after coupon 5 was redeemed on 5 December, and coupon 6 on
    the day after. *)
Lemma redeem_keeps_timestamps_redeemed_witness :
  let w := @Home.handleRedeem Reference.runtime (num 5)
             (Reference.dec 5 "2025-12-05T10:00:00.000Z") Reference.start in
  @timestamps_redeemed Reference.runtime (Home.page w) = true
  /\ @timestamps_redeemed Reference.runtime
       (Home.page (@Home.handleRedeem Reference.runtime (num 6)
                     (Reference.dec 6 "2025-12-06T11:00:00.000Z") w)) = true.
Proof.
  cbv zeta. split; [reflexivity|].
  refine (proj1 (@redeem_keeps_timestamps_redeemed Reference.runtime (num 6)
                   (Reference.dec 6 "2025-12-06T11:00:00.000Z") _ _)).
  reflexivity.
Defined.

(** C3 as stated fails for reset and for import, each followed by the
    reload it asks for: with coupon 5 redeemed, a reset leaves its
    timestamp with an empty redeemed set, and the import of a backup that
    lists coupon 1 alone leaves it beside the set of coupon 1. *)
Lemma reset_and_import_break_invariant :
  let w1 := @Home.handleRedeem Reference.runtime (num 5)
              (Reference.dec 5 "2025-12-05T10:00:00.000Z") Reference.start in
  let later := Reference.dec 6 "2025-12-06T08:00:00.000Z" in
  let afterReset :=
    @Home.load Reference.runtime "" later
      (snd (DataManager.resetData true (Home.storage w1))) in
  let doc := Reference.print
               (@DataManager.backupData (JArr [JNum (num 1)]) later) in
  let file := {| DataManager.name := "backup.json";
                 DataManager.size := Z.of_nat (String.length doc);
                 DataManager.content := doc |} in
  let imported := @DataManager.handleFileSelect Reference.runtime (Some file) (Home.storage w1) in
  let afterImport := @Home.load Reference.runtime "" later (snd imported) in
  @timestamps_redeemed Reference.runtime (Home.page w1) = true
  /\ @timestamps_redeemed Reference.runtime (Home.page afterReset) = false
  /\ fst imported = DataManager.Imported false
  /\ @timestamps_redeemed Reference.runtime (Home.page afterImport) = false.
Proof. vm_compute. repeat split. Qed.

(** ** Import and export *)

Section Backup.
Context `{Runtime}.

Lemma typeof_number (v : json) : String.eqb (typeof (Some v)) "number" = is_number v.
Proof. destruct v; reflexivity. Qed.

(** The checks of [validateBackupData], one after the other, accept the
    objects with an array of numbers and a string for the date. *)
Lemma validateBackupData_spec (data : json) :
  DataManager.validateBackupData data = payload_of_numbers data.
Proof.
  unfold DataManager.validateBackupData, payload_of_numbers.
  destruct data as [| b | n | s | elems | props]; try reflexivity.
  - destruct b; reflexivity.
  - cbn [truthy typeof]. destruct (negb _); reflexivity.
  - cbn [truthy typeof]. destruct (negb _); reflexivity.
  - change (negb (truthy (JObj props))
            || negb (String.eqb (typeof (Some (JObj props))) "object")) with false.
    cbv iota. cbn [get_prop].
    destruct (assoc_get "redeemedCoupons" props) as [[| | | |l|]|]; try reflexivity;
      try (destruct (assoc_get "exportDate" props) as [[]|]; reflexivity).
    assert (Hall : forallb (fun i => String.eqb (typeof (Some i)) "number") l
                   = forallb is_number l).
    { clear. induction l as [|x l IH]; [reflexivity|].
      cbn [forallb]. rewrite typeof_number, IH. reflexivity. }
    rewrite Hall.
    destruct (assoc_get "exportDate" props) as [[]|];
      destruct (forallb is_number l); reflexivity.
Qed.

(** Nothing is written unless the import succeeds. *)
Lemma import_atomic (file : option DataManager.File) (st : Storage) :
  (forall versionWarning,
     fst (DataManager.handleFileSelect file st) <> DataManager.Imported versionWarning) ->
  snd (DataManager.handleFileSelect file st) = st.
Proof.
  unfold DataManager.handleFileSelect.
  destruct file as [f|]; [|reflexivity].
  destruct (negb (endsWith (DataManager.name f) ".json")); [reflexivity|].
  destruct (1024 * 1024 <? DataManager.size f); [reflexivity|].
  destruct (String.eqb (DataManager.content f) ""); [reflexivity|].
  destruct (JSON_parse (DataManager.content f)) as [data|]; [|reflexivity].
  destruct (negb (DataManager.validateBackupData data)); [reflexivity|].
  unfold setItem. destruct (available st && negb (full st)); cbn [fst snd].
  - intros Hno. exfalso. exact (Hno _ eq_refl).
  - reflexivity.
Qed.

(** C5, as the code has it.  A file that reaches the validation with a
    payload that is no object, or whose [redeemedCoupons] is no array of
    numbers, or whose [exportDate] is no string, is rejected as an invalid
    format and the storage is left as it was.  The elements have to be
    numbers; they need not be integers. *)
Theorem import_rejects_invalid (f : DataManager.File) (st : Storage) (data : json) :
  endsWith (DataManager.name f) ".json" = true ->
  DataManager.size f <= 1024 * 1024 ->
  DataManager.content f <> "" ->
  JSON_parse (DataManager.content f) = Some data ->
  payload_of_numbers data = false ->
  DataManager.handleFileSelect (Some f) st = (DataManager.InvalidFormat, st).
Proof.
  intros Hname Hsize Hcontent Hparse Hbad.
  unfold DataManager.handleFileSelect.
  rewrite Hname. cbn [negb].
  replace (1024 * 1024 <? DataManager.size f) with false
    by (symmetry; apply Z.ltb_ge; exact Hsize).
  apply String.eqb_neq in Hcontent. rewrite Hcontent, Hparse.
  rewrite validateBackupData_spec, Hbad. reflexivity.
Qed.

Lemma endsWith_app (a b : string) : endsWith (a +:+ b) b = true.
Proof.
  induction a as [|c a IH].
  - change ("" +:+ b) with b. destruct b; cbn [endsWith]; rewrite String.eqb_refl; reflexivity.
  - change (String c a +:+ b) with (String c (a +:+ b)). cbn [endsWith].
    rewrite IH. apply orb_true_r.
Qed.

Lemma endsWith_app_app (a x b : string) : endsWith (a +:+ x +:+ b) b = true.
Proof.
  induction a as [|c a IH].
  - change ("" +:+ x +:+ b) with (x +:+ b). apply endsWith_app.
  - change (String c a +:+ x +:+ b) with (String c (a +:+ x +:+ b)). cbn [endsWith].
    rewrite IH. apply orb_true_r.
Qed.

Lemma exportData_stored (now : Date) (st : Storage) (saved : string) (parsedData : json) :
  isAvailable st = true ->
  getItem DataManager.STORAGE_KEY st = Some saved ->
  saved <> "" ->
  JSON_parse saved = Some parsedData ->
  DataManager.exportData now st
  = DataManager.Exported
      ("advent-calendar-backup-" +:+ before_T (toISOString now) +:+ ".json")
      (JSON_stringify (DataManager.backupData parsedData now) 2).
Proof.
  intros Hav Hget Hne Hparse. unfold DataManager.exportData.
  rewrite Hav, Hget. cbn [negb].
  apply String.eqb_neq in Hne. rewrite Hne, Hparse. reflexivity.
Qed.


End Backup.

(** The scenario of the specification: a backup whose IDs are the strings
    a and b, offered while coupon 5 is redeemed. *)
Lemma import_rejects_invalid_witness :
  let data := JObj [("redeemedCoupons", JArr [JStr "a"; JStr "b"]);
                    ("exportDate", JStr "2025-01-01")] in
  let f := {| DataManager.name := "backup.json";
              DataManager.size := Z.of_nat (String.length (Reference.print data));
              DataManager.content := Reference.print data |} in
  let st := Home.storage
              (@Home.handleRedeem Reference.runtime (num 5)
                 (Reference.dec 5 "2025-12-05T10:00:00.000Z") Reference.start) in
  payload_of_numbers data = false
  /\ @DataManager.handleFileSelect Reference.runtime (Some f) st
     = (DataManager.InvalidFormat, st).
Proof.
  cbv zeta. split; [reflexivity|].
  apply (@import_rejects_invalid Reference.runtime _ _
           (JObj [("redeemedCoupons", JArr [JStr "a"; JStr "b"]);
                  ("exportDate", JStr "2025-01-01")])).
  - reflexivity.
  - apply Z.leb_le. vm_compute. reflexivity.
  - intros Hc. vm_compute in Hc. discriminate Hc.
  - vm_compute. reflexivity.
  - reflexivity.
Defined.

(** C5 as stated fails on a number that is no integer: a backup that lists
    1.5 does not consist of integers, and it is imported (with the warning
    for the missing version) and written to the storage. *)
Lemma import_accepts_non_integer :
  let data := JObj [("redeemedCoupons", JArr [JNum (Finite (Q2Qc (3 # 2)))]);
                    ("exportDate", JStr "2025-01-01")] in
  let doc := Reference.print data in
  let f := {| DataManager.name := "backup.json";
              DataManager.size := Z.of_nat (String.length doc);
              DataManager.content := doc |} in
  let r := @DataManager.handleFileSelect Reference.runtime (Some f) fresh_storage in
  payload_of_integers data = false
  /\ Reference.parse doc = Some data
  /\ fst r = DataManager.Imported true
  /\ getItem DataManager.STORAGE_KEY (snd r) = Some "[1.5]".
Proof. vm_compute. repeat split. Qed.



(** ** The door *)

(** C7, as the code has it.  A redeemed coupon always shows the redeemed
    badge and never the invitation to open.  Its status is "redeemed" when
    the clock has its day unlocked; when the clock has not, the door is
    locked like any other: the status names the day of the unlock, the
    lock overlay is drawn and a click is refused. *)
Theorem redeemed_door (now : Date) (h : Home.State) (c : Coupon) :
  Home.isRedeemed h (num (id c)) = true ->
  let p := Door.props now h c in
  let v := Door.render now p in
  Door.redeemedBadge v = true
  /\ Door.status v <> Door.ClickToOpen
  /\ (Home.isUnlocked now (day c) = true ->
      Door.status v = Door.Redeemed /\ Door.lockOverlay v = false
      /\ Door.handleClick p = true)
  /\ (Home.isUnlocked now (day c) = false ->
      Door.status v = Door.WillUnlock (day c) /\ Door.lockOverlay v = true
      /\ Door.handleClick p = false).
Proof.
  intros Hred. cbv zeta.
  unfold Door.render, Door.props, Door.statusText, Door.handleClick.
  cbn [Door.redeemedBadge Door.status Door.lockOverlay Door.isUnlocked Door.isRedeemed
       Door.coupon].
  rewrite Hred.
  destruct (Home.isUnlocked now (day c)); cbn [negb];
    repeat split; try discriminate; try reflexivity; intros; discriminate.
Qed.

(** Coupon 5, redeemed on 5 December and looked at on 20 December. *)
Lemma redeemed_door_witness :
  let w := @Home.handleRedeem Reference.runtime (num 5)
             (Reference.dec 5 "2025-12-05T10:00:00.000Z") Reference.start in
  let now := Reference.dec 20 "2025-12-20T12:00:00.000Z" in
  Home.isRedeemed (Home.page w) (num (id Reference.coupon5)) = true
  /\ Door.status (Door.render now (Door.props now (Home.page w) Reference.coupon5))
     = Door.Redeemed.
Proof.
  cbv zeta. split; [reflexivity|].
  refine (proj1 (proj1 (proj2 (proj2
    (redeemed_door (Reference.dec 20 "2025-12-20T12:00:00.000Z") _ Reference.coupon5 _))) _)).
  - reflexivity.
  - reflexivity.
Defined.

(** C7 as stated fails once the clock has left December: coupon 5,
    redeemed on 5 December, is shown on 10 January with the status of a
    locked door and under the lock overlay. *)
Lemma redeemed_door_locked_in_january :
  let w := @Home.handleRedeem Reference.runtime (num 5)
             (Reference.dec 5 "2025-12-05T10:00:00.000Z") Reference.start in
  let now := Reference.jan 10 "2026-01-10T12:00:00.000Z" in
  let v := Door.render now (Door.props now (Home.page w) Reference.coupon5) in
  Home.isRedeemed (Home.page w) (num (id Reference.coupon5)) = true
  /\ Door.status v = Door.WillUnlock 5
  /\ Door.status v <> Door.Redeemed
  /\ Door.lockOverlay v = true.
Proof. vm_compute. repeat split. discriminate. Qed.

(** The scenario of the specification for coupon 5.  On 3 December the
    door is locked, two days ahead; on 5 December it invites to open; once
    redeemed it shows as redeemed; on 1 December of the year after, the
    redeemed door is locked again, four days ahead. *)
Example scenario_coupon5 :
  let c := Reference.coupon5 in
  let h := Home.page Reference.start in
  let h' := Home.page (@Home.handleRedeem Reference.runtime (num 5)
                         (Reference.dec 5 "2025-12-05T10:00:00.000Z") Reference.start) in
  let dec3 := Reference.dec 3 "2025-12-03T10:00:00.000Z" in
  let dec5 := Reference.dec 5 "2025-12-05T10:00:00.000Z" in
  let next := Reference.dec 1 "2026-12-01T10:00:00.000Z" in
  Door.statusText (Door.props dec3 h c) = Door.WillUnlock 5
  /\ Door.daysUntil dec3 (Door.props dec3 h c) = 2
  /\ Door.statusText (Door.props dec5 h c) = Door.ClickToOpen
  /\ Door.statusText (Door.props dec5 h' c) = Door.Redeemed
  /\ Door.statusText (Door.props next h' c) = Door.WillUnlock 5
  /\ Door.daysUntil next (Door.props next h' c) = 4.
Proof. vm_compute. repeat split. Qed.

(** ** The date challenge *)

(** C8, at the input on which the code leaves it: the candidate 3, 2 and
    a year left blank.  The blank year is padded with the digits of the
    expected year, so the date is accepted and the flag is stored, although
    the year padded with zeros is 00 and does not match. *)
Theorem blank_year_is_accepted :
  let r := AuthModal.authenticate "3" "2" "" {| Home.page := Home.initial; Home.storage := fresh_storage |} in
  fst r = true
  /\ getItem Home.AUTH_KEY (Home.storage (snd r)) = Some "true"
  /\ Home.isAuthenticated (Home.page (snd r)) = true
  /\ padStart (trim "") 2 "0" = "00".
Proof. vm_compute. repeat split. Qed.

(** The same for a year of one digit: 3 is padded to 23. *)
Example one_digit_year_is_accepted : AuthModal.handleSubmit "3" "2" "3" = AuthModal.Accepted.
Proof. reflexivity. Qed.

Example exact_date_is_accepted : AuthModal.handleSubmit "03" "02" "23" = AuthModal.Accepted.
Proof. reflexivity. Qed.

Example wrong_date_is_refused :
  AuthModal.authenticate "04" "02" "23" {| Home.page := Home.initial; Home.storage := fresh_storage |}
  = (false, {| Home.page := Home.initial; Home.storage := fresh_storage |}).
Proof. reflexivity. Qed.

(** A mismatch stores nothing and leaves the page as it was. *)
Lemma refused_changes_nothing (d m y : string) (w : Home.World) :
  fst (AuthModal.authenticate d m y w) = false -> snd (AuthModal.authenticate d m y w) = w.
Proof.
  unfold AuthModal.authenticate. destruct (AuthModal.handleSubmit d m y); cbn;
    [reflexivity|discriminate|reflexivity].
Qed.




(** ** The payloads of the scannable codes *)

Section Payloads.
Context `{Runtime}.



End Payloads.

(** Coupon 5 was redeemed in the morning of 5 December; the payload built
    in the evening of 7 December says 7 December. *)
Example payload_ignores_stored_timestamp :
  let w := Home.handleDoorClick (num 5) true
             (Home.page (@Home.handleRedeem Reference.runtime (num 5)
                           (Reference.dec 5 "2025-12-05T10:00:00.000Z") Reference.start)) in
  let later := Reference.dec 7 "2025-12-07T19:00:00.000Z" in
  @Home.redeemedAt Reference.runtime w (num 5) = Some (JStr "2025-12-05T10:00:00.000Z")
  /\ option_map (fun c => get_prop (CouponModal.couponValue c later) "redeemedAt")
       (Home.selectedCouponData w)
     = Some (Some (JStr "2025-12-07T19:00:00.000Z")).
Proof. vm_compute. split; reflexivity. Qed.

(** * Further properties of the code *)

(** ** The catalogue and the statistics *)

Lemma catalogue_ids : map id coupons = [1;2;3;4;5;6;7;8;9;10;11;12;13;14;15;16;17;18;19;20;21;22;23;24].
Proof. reflexivity. Qed.

Lemma catalogue_days : map day coupons = map id coupons.
Proof. reflexivity. Qed.

Lemma num_inj (a b : Z) : num a = num b -> a = b.
Proof.
  unfold num. intros [= Heq]. exact Heq.
Qed.

Lemma getCouponById_catalogue (c : Coupon) :
  In c coupons -> getCouponById (num (id c)) = Some c /\ 1 <= id c <= 24.
Proof.
  intros Hin. unfold coupons in Hin. cbn [In] in Hin.
  repeat (destruct Hin as [<-|Hin]; [split; [vm_compute; reflexivity|cbn; lia]|]).
  contradiction.
Qed.

(** X1.  Looking a coupon up by its ID finds it, and finds nothing else:
    [getCouponById i] is [c] exactly when [c] is the coupon of the
    catalogue with the ID [i]. *)
Theorem getCouponById_spec (i : number) (c : Coupon) :
  getCouponById i = Some c <-> In c coupons /\ num (id c) = i.
Proof.
  split.
  - intros Hfind. apply find_some in Hfind. destruct Hfind as [Hin Heq].
    split; [exact Hin|]. apply bool_decide_eq_true in Heq. exact Heq.
  - intros [Hin <-]. apply getCouponById_catalogue. exact Hin.
Qed.




Lemma assoc_get_set_other {A} (k k' : string) (v : A) (l : list (string * A)) :
  k <> k' -> assoc_get k (assoc_set k' v l) = assoc_get k l.
Proof.
  intros Hne. induction l as [|[k0 v0] l IH]; cbn [assoc_set assoc_get].
  - apply String.eqb_neq in Hne. rewrite Hne. reflexivity.
  - destruct (String.eqb k' k0) eqn:Hk'; cbn [assoc_get].
    + apply String.eqb_eq in Hk'. subst k0.
      apply String.eqb_neq in Hne. rewrite Hne. reflexivity.
    + destruct (String.eqb k k0); [reflexivity|exact IH].
Qed.

Lemma sum_counts_set (k : string) (v : Z) (l : list (string * Z)) :
  sum_counts (assoc_set k v l) = sum_counts l - default 0 (assoc_get k l) + v.
Proof.
  induction l as [|[k0 v0] l IH]; cbn [assoc_set assoc_get sum_counts fold_right snd default].
  - change (from_option Datatypes.id 0 None) with 0. lia.
  - destruct (String.eqb k k0); cbn [sum_counts fold_right snd].
    + change (from_option Datatypes.id 0 (Some v0)) with v0. lia.
    + fold (sum_counts (assoc_set k v l)). fold (sum_counts l). rewrite IH. lia.
Qed.

Lemma count_by_category_from (l : list Coupon) (acc : list (string * Z)) :
  sum_counts
    (fold_left (fun acc coupon =>
                  let k := category_value (category coupon) in
                  assoc_set k (default 0 (assoc_get k acc) + 1) acc) l acc)
  = sum_counts acc + Z.of_nat (length l)
  /\ forall k,
       default 0
         (assoc_get k
            (fold_left (fun acc coupon =>
                          let k := category_value (category coupon) in
                          assoc_set k (default 0 (assoc_get k acc) + 1) acc) l acc))
       = default 0 (assoc_get k acc) + count_category k l.
Proof.
  revert acc. induction l as [|c l IH]; intros acc.
  - cbn [fold_left length]. unfold count_category. cbn. split; [lia|intros k; lia].
  - cbn [fold_left]. destruct (IH (assoc_set (category_value (category c))
                                    (default 0 (assoc_get (category_value (category c)) acc) + 1)
                                    acc)) as [Hsum Hget].
    cbv zeta in Hsum, Hget |- *. split.
    + rewrite Hsum, sum_counts_set. cbn [length]. lia.
    + intros k. rewrite Hget. unfold count_category. cbn [List.filter].
      destruct (String.eqb (category_value (category c)) k) eqn:Hk.
      * apply String.eqb_eq in Hk. subst k. rewrite assoc_get_set.
        cbn [length]. change (default 0 (Some ?x)) with x. cbn [default from_option]. lia.
      * apply String.eqb_neq in Hk.
        rewrite assoc_get_set_other by congruence. lia.
Qed.

Lemma count_by_category_sum (l : list Coupon) :
  sum_counts (count_by_category l) = Z.of_nat (length l).
Proof. exact (proj1 (count_by_category_from l [])). Qed.

Lemma count_by_category_get (l : list Coupon) (k : string) :
  default 0 (assoc_get k (count_by_category l)) = count_category k l.
Proof. exact (proj2 (count_by_category_from l []) k). Qed.

Lemma filter_or_length {A} (p q : A -> bool) (l : list A) :
  (length (List.filter (fun x => p x || q x) l)
   <= length (List.filter p l) + length (List.filter q l))%nat.
Proof.
  induction l as [|x l IH]; [reflexivity|]. cbn [List.filter].
  destruct (p x), (q x); cbn [orb length]; lia.
Qed.

Lemma filter_unique_length {A} (f : A -> number) (n : number) (l : list A) :
  NoDup (map f l) ->
  (length (List.filter (fun x => bool_decide (f x = n)) l) <= 1)%nat.
Proof.
  induction l as [|x l IH]; [intros _; cbn; lia|].
  cbn [map List.filter]. intros Hnd0.
  inversion Hnd0 as [|? ? Hnotin Hnd]; subst.
  destruct (bool_decide (f x = n)) eqn:Hx; [|apply IH; exact Hnd].
  apply bool_decide_eq_true in Hx. cbn [length].
  assert (Hnone : List.filter (fun y => bool_decide (f y = n)) l = []).
  { clear IH Hnd Hnd0. induction l as [|y l IHl]; [reflexivity|]. cbn [List.filter].
    destruct (bool_decide (f y = n)) eqn:Hy.
    - apply bool_decide_eq_true in Hy. exfalso. apply Hnotin.
      cbn [map]. rewrite Hx, <- Hy. constructor.
    - apply IHl. intros Hin. apply Hnotin. cbn [map]. constructor 2. exact Hin. }
  rewrite Hnone. cbn. lia.
Qed.

Lemma catalogue_ids_distinct : NoDup (map (fun c => num (id c)) coupons).
Proof. refine (bool_decide_unpack _ _). vm_compute. exact I. Qed.

Lemma matching_coupons_at_most_one (x : json) :
  (length (List.filter (fun c => same_value_zero (JNum (num (id c))) x) coupons) <= 1)%nat.
Proof.
  destruct x as [| b | n | s | elems | props];
    try (induction coupons as [|c l IH]; [cbn; lia|exact IH]).
  exact (filter_unique_length (fun c => num (id c)) n coupons catalogue_ids_distinct).
Qed.

(** No more coupons are found than IDs are given. *)
Lemma getRedeemedCoupons_length (redeemedIds : list json) :
  (length (getRedeemedCoupons redeemedIds) <= length redeemedIds)%nat.
Proof.
  unfold getRedeemedCoupons.
  induction redeemedIds as [|x ids IH].
  - cbn [includes existsb]. induction coupons as [|c l IHl]; [cbn; lia|exact IHl].
  - unfold includes in *. cbn [existsb length].
    pose proof (filter_or_length
                  (fun c => same_value_zero (JNum (num (id c))) x)
                  (fun c => existsb (same_value_zero (JNum (num (id c)))) ids) coupons) as Hor.
    pose proof (matching_coupons_at_most_one x) as Hone. lia.
Qed.

(** X3.  The counts by category add up: over the catalogue to [total],
    over the redeemed coupons to the number of coupons of the catalogue
    whose ID is in the list, which is at most [redeemed] and at most
    [total].  (IDs that are in no coupon, or repeated, count in [redeemed]
    and in no category.) *)
Theorem stats_category_sums (redeemedIds : list json) :
  let s := getCouponStats redeemedIds in
  sum_counts (categoryCounts s) = total s
  /\ sum_counts (redeemedByCategory s) = Z.of_nat (length (getRedeemedCoupons redeemedIds))
  /\ sum_counts (redeemedByCategory s) <= redeemed s
  /\ sum_counts (redeemedByCategory s) <= total s.
Proof.
  cbv zeta. unfold getCouponStats.
  cbn [categoryCounts redeemedByCategory total redeemed].
  rewrite !count_by_category_sum.
  pose proof (getRedeemedCoupons_length redeemedIds) as Hlen.
  assert (Hsub : (length (getRedeemedCoupons redeemedIds) <= length coupons)%nat).
  { unfold getRedeemedCoupons. generalize coupons. intros l.
    induction l as [|c l IH]; [cbn; lia|]. cbn [List.filter].
    destruct (includes _ _); cbn [length]; lia. }
  repeat split; lia.
Qed.

Lemma count_category_filter (k : string) (p : Coupon -> bool) (l : list Coupon) :
  0 <= count_category k (List.filter p l) <= count_category k l.
Proof.
  unfold count_category. split; [lia|]. apply inj_le.
  induction l as [|c l IH]; [cbn; lia|]. cbn [List.filter].
  destruct (p c); cbn [List.filter];
    destruct (String.eqb (category_value (category c)) k); cbn [length]; lia.
Qed.

(** X4.  The profile shows one row for each of the six categories of the
    catalogue; in every row the total is positive and the number
    redeemed lies between 0 and the total, so the bar of the row is never
    wider than the whole. *)
Theorem categoryData_rows (redeemedCouponIds : list json) :
  map ProfileStats.rowCategory (ProfileStats.categoryData redeemedCouponIds)
  = ["relaxation"; "romantic"; "home"; "surprise"; "adventure"; "creative"]
  /\ Forall (fun r => 0 < ProfileStats.rowTotal r
                      /\ 0 <= ProfileStats.rowRedeemed r <= ProfileStats.rowTotal r)
            (ProfileStats.categoryData redeemedCouponIds).
Proof.
  split; [reflexivity|].
  unfold ProfileStats.categoryData, getCouponStats.
  cbn [categoryCounts redeemedByCategory].
  change (count_by_category coupons)
    with [("relaxation", 5); ("romantic", 7); ("home", 5); ("surprise", 3);
          ("adventure", 1); ("creative", 3)].
  cbn [map].
  repeat (constructor;
          [cbn [ProfileStats.rowTotal ProfileStats.rowRedeemed];
           rewrite count_by_category_get;
           split; [lia|];
           match goal with
           | |- 0 <= count_category ?k _ <= ?t =>
               change t with (count_category k coupons)
           end;
           apply count_category_filter|]).
  constructor.
Qed.

(** X5.  The percentage is 0 only for the empty list and 100 only for a
    list of exactly 24 IDs, and it never falls when the list grows. *)
Theorem percentage_extremes (redeemedIds more : list json) :
  let s := getCouponStats redeemedIds in
  (percentage s = num 0 <-> redeemed s = 0)
  /\ (percentage s = num 100 <-> redeemed s = 24)
  /\ exists p q,
       percentage s = num p
       /\ percentage (getCouponStats (redeemedIds ++ more)) = num q
       /\ 0 <= p <= q.
Proof.
  cbv zeta. rewrite !percentage_closed_form, redeemed_is_length.
  pose proof (Nat2Z.is_nonneg (length redeemedIds)) as Hr.
  pose proof (Nat2Z.is_nonneg (length more)) as Hm.
  split; [|split].
  - split.
    + intros Heq. apply num_inj in Heq. revert Heq. Z.div_mod_to_equations. lia.
    + intros ->. reflexivity.
  - split.
    + intros Heq. apply num_inj in Heq. revert Heq. Z.div_mod_to_equations. lia.
    + intros ->. reflexivity.
  - eexists _, _. split; [reflexivity|]. split; [reflexivity|].
    rewrite length_app, Nat2Z.inj_add.
    Z.div_mod_to_equations. lia.
Qed.

(** ** Doors, clicks and redemptions on the page *)

Lemma days_filter_length (f : Z -> bool) (l : list Coupon) :
  length (List.filter (fun c => f (day c)) l) = length (List.filter f (map day l)).
Proof.
  induction l as [|c l IH]; [reflexivity|]. cbn [List.filter map].
  destruct (f (day c)); cbn [length]; rewrite IH; reflexivity.
Qed.

Lemma filter_le_cons (k d : Z) (l : list Z) :
  Z.of_nat (length (List.filter (fun x => x <=? d) (k :: l)))
  = (if k <=? d then 1 else 0) + Z.of_nat (length (List.filter (fun x => x <=? d) l)).
Proof. cbn [List.filter]. destruct (k <=? d); cbn [length]; lia. Qed.

Lemma days_up_to (d : Z) :
  Z.of_nat (length (List.filter (fun c => day c <=? d) coupons)) = Z.max 0 (Z.min d 24).
Proof.
  rewrite (days_filter_length (fun x => x <=? d)), catalogue_days, catalogue_ids.
  rewrite !filter_le_cons. change (Z.of_nat (length (List.filter _ []))) with 0.
  assert (Hcases : d <= 0 \/ 24 <= d \/
                   d = 1 \/ d = 2 \/ d = 3 \/ d = 4 \/ d = 5 \/ d = 6 \/ d = 7 \/ d = 8 \/
                   d = 9 \/ d = 10 \/ d = 11 \/ d = 12 \/ d = 13 \/ d = 14 \/ d = 15 \/
                   d = 16 \/ d = 17 \/ d = 18 \/ d = 19 \/ d = 20 \/ d = 21 \/ d = 22 \/
                   d = 23) by lia.
  destruct Hcases as [Hlow|[Hhigh|Hmid]].
  - repeat match goal with
           | |- context [?k <=? d] =>
               replace (k <=? d) with false by (symmetry; apply Z.leb_gt; lia)
           end.
    lia.
  - repeat match goal with
           | |- context [?k <=? d] =>
               replace (k <=? d) with true by (symmetry; apply Z.leb_le; lia)
           end.
    lia.
  - repeat (destruct Hmid as [->|Hmid]; [reflexivity|]). subst d. reflexivity.
Qed.

(** X6.  The number of available doors in the header is the number of
    doors the page shows unlocked: in December the day of the month,
    kept between 0 and 24, and 0 in every other month. *)
Theorem unlockedCount_spec (now : Date) :
  Home.unlockedCount now
  = Z.of_nat (length (List.filter (fun c => Home.isUnlocked now (day c)) coupons))
  /\ Home.unlockedCount now
     = if getMonth now =? 11 then Z.max 0 (Z.min (getDate now) 24) else 0.
Proof.
  unfold Home.unlockedCount, Home.isUnlocked.
  destruct (getMonth now =? 11); cbn [negb andb].
  - split; [reflexivity|]. apply days_up_to.
  - split; [|reflexivity].
    induction coupons as [|c l IH]; [reflexivity|exact IH].
Qed.

(** X7.  The lock and the number of days on the lock overlay agree: a door
    is unlocked exactly when it is December and no days are left; a door
    locked in December has one day left at least; today's door is always
    unlocked; and outside December the overlay counts the bare number of
    the day. *)
Theorem door_lock_and_days (now : Date) (h : Home.State) (c : Coupon) :
  let p := Door.props now h c in
  (Door.isUnlocked p = true <-> getMonth now = 11 /\ Door.daysUntil now p = 0)
  /\ (getMonth now = 11 -> Door.isUnlocked p = false -> 1 <= Door.daysUntil now p)
  /\ (Door.isToday now p = true -> Door.isUnlocked p = true)
  /\ (getMonth now <> 11 ->
      Door.isUnlocked p = false /\ Door.daysUntil now p = day c).
Proof.
  cbv zeta. unfold Door.props, Door.daysUntil, Door.isToday, Home.isUnlocked.
  cbn [Door.isUnlocked Door.coupon].
  destruct (getMonth now =? 11) eqn:Hm; cbn [negb andb].
  - apply Z.eqb_eq in Hm. split; [|split; [|split]].
    + split.
      * intros Hle. apply Z.leb_le in Hle. lia.
      * intros [_ Hz]. apply Z.leb_le. lia.
    + intros _ Hlocked. apply Z.leb_gt in Hlocked. lia.
    + intros Htoday. apply andb_true_iff in Htoday. destruct Htoday as [Heq _].
      apply Z.eqb_eq in Heq. apply Z.leb_le. lia.
    + intros Hne. contradiction.
  - apply Z.eqb_neq in Hm. split; [|split; [|split]].
    + split; [discriminate|]. intros [Hm' _]. contradiction.
    + intros Hm'. contradiction.
    + intros Htoday. apply andb_true_iff in Htoday. destruct Htoday as [_ Hf].
      discriminate.
    + intros _. split; reflexivity.
Qed.

Section Clicks.
Context `{Runtime}.

Lemma selected_catalogue (c : Coupon) (h : Home.State) :
  In c coupons ->
  Home.selected (Home.set_selectedCoupon (Some (num (id c))) h) = Some (num (id c)).
Proof.
  intros Hin. destruct (getCouponById_catalogue c Hin) as [_ Hrange].
  unfold Home.selected. cbn [Home.selectedCoupon Home.set_selectedCoupon truthy].
  assert (Hnz : bool_decide (num (id c) = num 0) = false).
  { apply bool_decide_eq_false. intros Heq. apply num_inj in Heq. lia. }
  rewrite Hnz. reflexivity.
Qed.

Lemma handleRedeem_selectedCoupon (couponId : number) (now : Date) (w : Home.World) :
  Home.selectedCoupon (Home.page (Home.handleRedeem couponId now w))
  = Home.selectedCoupon (Home.page w).
Proof. reflexivity. Qed.

(** X8.  From a page with no modal open, a click on the door of a coupon
    of the catalogue and a press on the redeem button redeem the coupon
    exactly when the clock has its day unlocked, and then with the
    timestamp of that moment if it was not redeemed before; on a locked
    door the two change nothing at all. *)
Theorem click_then_redeem (now : Date) (c : Coupon) (w : Home.World) :
  In c coupons ->
  HomeEvents.modalOpen (Home.page w) = false ->
  let clicked := {| Home.page := HomeEvents.clickDoor now c (Home.page w);
                    Home.storage := Home.storage w |} in
  let w' := HomeEvents.pressRedeem now clicked in
  (Home.isUnlocked now (day c) = false -> w' = w)
  /\ (Home.isUnlocked now (day c) = true ->
      Home.isRedeemed (Home.page w') (num (id c)) = true
      /\ (Home.isRedeemed (Home.page w) (num (id c)) = false ->
          Home.redeemedAt (Home.page w') (num (id c)) = Some (JStr (toISOString now)))
      /\ (Home.isRedeemed (Home.page w) (num (id c)) = true ->
          Home.redeemedDates (Home.page w') = Home.redeemedDates (Home.page w))).
Proof.
  intros Hin Hclosed. cbv zeta.
  unfold HomeEvents.clickDoor, Door.handleClick, Door.props. cbn [Door.isUnlocked].
  destruct (Home.isUnlocked now (day c)) eqn:Hunl.
  - split; [discriminate|]. intros _.
    unfold Home.handleDoorClick. cbn [negb].
    unfold HomeEvents.pressRedeem, HomeEvents.showsRedeemButton,
      HomeEvents.modalIsRedeemed, Home.selectedCouponData, Home.onRedeem.
    cbn [Home.page]. rewrite (selected_catalogue c (Home.page w) Hin).
    destruct (getCouponById_catalogue c Hin) as [-> _].
    change (Home.isRedeemed (Home.set_selectedCoupon (Some (num (id c))) (Home.page w))
              (num (id c)))
      with (Home.isRedeemed (Home.page w) (num (id c))).
    destruct (Home.isRedeemed (Home.page w) (num (id c))) eqn:Hred; cbn [negb].
    + cbn [Home.page]. split; [exact Hred|]. split; [discriminate|]. intros _. reflexivity.
    + split; [|split; [|discriminate]].
      * unfold Home.isRedeemed. rewrite handleRedeem_redeemedCoupons. apply Set_has_add.
      * intros _. apply handleRedeem_redeemedAt.
  - split; [|discriminate]. intros _.
    unfold HomeEvents.pressRedeem, HomeEvents.showsRedeemButton, Home.selectedCouponData.
    cbn [Home.page].
    unfold HomeEvents.modalOpen in Hclosed.
    destruct (Home.selected (Home.page w)); [discriminate|].
    destruct w; reflexivity.
Qed.

(** X9.  Through the modal a coupon is redeemed once: a second press on
    the redeem button changes nothing, neither the set nor the timestamp
    nor the storage, because the button is gone once the coupon is
    redeemed. *)
Theorem pressRedeem_once (t1 t2 : Date) (w : Home.World) :
  HomeEvents.pressRedeem t2 (HomeEvents.pressRedeem t1 w) = HomeEvents.pressRedeem t1 w.
Proof.
  unfold HomeEvents.pressRedeem at 2 3.
  destruct (HomeEvents.showsRedeemButton (Home.page w)) eqn:Hbtn.
  - unfold HomeEvents.showsRedeemButton, HomeEvents.modalIsRedeemed,
      Home.selectedCouponData in Hbtn.
    unfold Home.onRedeem.
    destruct (Home.selected (Home.page w)) as [n|] eqn:Hsel; [|discriminate].
    unfold HomeEvents.pressRedeem.
    assert (Hgone : HomeEvents.showsRedeemButton (Home.page (Home.handleRedeem n t1 w)) = false).
    { unfold HomeEvents.showsRedeemButton, HomeEvents.modalIsRedeemed,
        Home.selectedCouponData, Home.selected.
      rewrite handleRedeem_selectedCoupon. fold (Home.selected (Home.page w)).
      rewrite Hsel. destruct (getCouponById n); [|reflexivity].
      unfold Home.isRedeemed. rewrite handleRedeem_redeemedCoupons, Set_has_add.
      reflexivity. }
    rewrite Hgone. reflexivity.
  - unfold HomeEvents.pressRedeem. rewrite Hbtn. reflexivity.
Qed.

End Clicks.

(** Coupon 5 on the morning of 5 December, on the page as it starts. *)
Lemma click_then_redeem_witness :
  let now := Reference.dec 5 "2025-12-05T10:00:00.000Z" in
  let clicked := {| Home.page := HomeEvents.clickDoor now Reference.coupon5
                                   (Home.page Reference.start);
                    Home.storage := Home.storage Reference.start |} in
  In Reference.coupon5 coupons
  /\ HomeEvents.modalOpen (Home.page Reference.start) = false
  /\ Home.isRedeemed
       (Home.page (@HomeEvents.pressRedeem Reference.runtime now clicked))
       (num (id Reference.coupon5)) = true.
Proof.
  cbv zeta.
  assert (Hin : In Reference.coupon5 coupons).
  { unfold Reference.coupon5, coupons. cbn [nth In]. do 4 right. left. reflexivity. }
  split; [exact Hin|]. split; [reflexivity|].
  refine (proj1 (proj2 (@click_then_redeem Reference.runtime
                          (Reference.dec 5 "2025-12-05T10:00:00.000Z")
                          Reference.coupon5 Reference.start Hin eq_refl) eq_refl)).
Defined.





(** ** Sessions and reloads *)

Ltac destruct_matches :=
  repeat match goal with
         | |- context [match ?x with _ => _ end] => destruct x
         end.

Section Reloads.
Context `{Runtime}.

Lemma load_redeemed_frame (w w1 : Home.World) :
  Home.load_redeemed w = Some w1 ->
  Home.storage w1 = Home.storage w
  /\ Home.isAuthenticated (Home.page w1) = Home.isAuthenticated (Home.page w)
  /\ Home.showAuthModal (Home.page w1) = Home.showAuthModal (Home.page w)
  /\ Home.redeemedDates (Home.page w1) = Home.redeemedDates (Home.page w).
Proof.
  unfold Home.load_redeemed. destruct_matches; intros Heq; simplify_eq;
    repeat split; reflexivity.
Qed.

Lemma load_dates_frame (w w1 : Home.World) :
  Home.load_dates w = Some w1 ->
  Home.storage w1 = Home.storage w
  /\ Home.isAuthenticated (Home.page w1) = Home.isAuthenticated (Home.page w)
  /\ Home.showAuthModal (Home.page w1) = Home.showAuthModal (Home.page w).
Proof.
  unfold Home.load_dates. destruct_matches; intros Heq; simplify_eq;
    repeat split; reflexivity.
Qed.

Lemma initializeData_auth (herName : string) (now : Date) (w : Home.World) :
  Home.isAuthenticated (Home.page (Home.initializeData herName now w))
  = Home.isAuthenticated (Home.page w)
  /\ Home.showAuthModal (Home.page (Home.initializeData herName now w))
     = Home.showAuthModal (Home.page w).
Proof.
  unfold Home.initializeData.
  destruct (Home.load_redeemed w) as [w1|] eqn:H1; [|split; reflexivity].
  destruct (load_redeemed_frame w w1 H1) as (_ & Ha1 & Hm1 & _).
  destruct (Home.load_dates w1) as [w2|] eqn:H2; [|split; assumption].
  destruct (load_dates_frame w1 w2 H2) as (_ & Ha2 & Hm2).
  rewrite mark_first_visit_page. split; congruence.
Qed.

Lemma load_auth (herName : string) (now : Date) (st : Storage) :
  Home.isAuthenticated (Home.page (Home.load herName now st))
  = bool_decide (getItem Home.AUTH_KEY st = Some "true")
  /\ Home.showAuthModal (Home.page (Home.load herName now st))
     = negb (bool_decide (getItem Home.AUTH_KEY st = Some "true")).
Proof.
  unfold Home.load.
  destruct (initializeData_auth herName now
              (Home.checkAuth {| Home.page := Home.initial; Home.storage := st |}))
    as [-> ->].
  unfold Home.checkAuth. cbn [Home.storage Home.page].
  destruct (getItem Home.AUTH_KEY st) as [auth|] eqn:Hget.
  - destruct (String.eqb auth "true") eqn:Heq; cbn.
    + apply String.eqb_eq in Heq. subst auth.
      rewrite bool_decide_eq_true_2 by reflexivity. split; reflexivity.
    + apply String.eqb_neq in Heq.
      rewrite bool_decide_eq_false_2 by congruence. split; reflexivity.
  - cbn. rewrite bool_decide_eq_false_2 by discriminate. split; reflexivity.
Qed.

(** X11.  The session flag survives a reload: once the date was accepted
    on a working storage, every later load of the page is authenticated
    and shows no challenge; a load from a storage without the flag shows
    the challenge. *)
Theorem session_survives_reload
    (d m y herName : string) (now : Date) (w : Home.World) :
  isAvailable (Home.storage w) = true ->
  fst (AuthModal.authenticate d m y w) = true ->
  let st := Home.storage (snd (AuthModal.authenticate d m y w)) in
  Home.isAuthenticated (Home.page (Home.load herName now st)) = true
  /\ Home.showAuthModal (Home.page (Home.load herName now st)) = false
  /\ (forall st0, getItem Home.AUTH_KEY st0 = None ->
        Home.isAuthenticated (Home.page (Home.load herName now st0)) = false
        /\ Home.showAuthModal (Home.page (Home.load herName now st0)) = true).
Proof.
  intros Hav Hok. cbv zeta.
  assert (Hflag : getItem Home.AUTH_KEY
                    (Home.storage (snd (AuthModal.authenticate d m y w))) = Some "true").
  { unfold AuthModal.authenticate in *.
    destruct (AuthModal.handleSubmit d m y); try discriminate.
    cbn [snd Home.handleAuthenticate Home.storage].
    apply getItem_setItem_same. rewrite setItem_available by exact Hav. reflexivity. }
  split; [|split].
  - rewrite (proj1 (load_auth herName now _)), Hflag.
    apply bool_decide_eq_true_2. reflexivity.
  - rewrite (proj2 (load_auth herName now _)), Hflag.
    rewrite bool_decide_eq_true_2 by reflexivity. reflexivity.
  - intros st0 Hnone.
    rewrite (proj1 (load_auth herName now st0)), (proj2 (load_auth herName now st0)), Hnone.
    rewrite bool_decide_eq_false_2 by discriminate. split; reflexivity.
Qed.

(** X12.  Hydration writes nothing but the marker of the first visit, and
    that only once: every other key is as it was, and with an empty name,
    or with a marker already there, the storage is untouched. *)
Theorem initializeData_writes_marker_only (herName : string) (now : Date) (w : Home.World) :
  (forall k, k <> Home.FIRST_VISIT_KEY ->
     getItem k (Home.storage (Home.initializeData herName now w))
     = getItem k (Home.storage w))
  /\ (forall marker,
        getItem Home.FIRST_VISIT_KEY (Home.storage w) = Some marker ->
        marker <> "" ->
        Home.storage (Home.initializeData herName now w) = Home.storage w)
  /\ Home.storage (Home.initializeData "" now w) = Home.storage w.
Proof.
  assert (Hsteps : Home.storage (Home.initializeData herName now w) = Home.storage w
                   \/ Home.storage (Home.initializeData herName now w)
                      = Home.storage (Home.mark_first_visit herName now w)).
  { unfold Home.initializeData.
    destruct (Home.load_redeemed w) as [w1|] eqn:H1; [|left; reflexivity].
    assert (Hs1 : Home.storage w1 = Home.storage w)
      by exact (proj1 (load_redeemed_frame w w1 H1)).
    destruct (Home.load_dates w1) as [w2|] eqn:H2; [|left; exact Hs1].
    assert (Hs2 : Home.storage w2 = Home.storage w1)
      by exact (proj1 (load_dates_frame w1 w2 H2)).
    right. unfold Home.mark_first_visit. rewrite Hs2, Hs1.
    destruct (_ && _); cbn [Home.storage]; rewrite ?Hs2, ?Hs1; reflexivity. }
  assert (Hsteps0 : Home.storage (Home.initializeData "" now w) = Home.storage w).
  { unfold Home.initializeData.
    destruct (Home.load_redeemed w) as [w1|] eqn:H1; [|reflexivity].
    assert (Hs1 : Home.storage w1 = Home.storage w)
      by exact (proj1 (load_redeemed_frame w w1 H1)).
    destruct (Home.load_dates w1) as [w2|] eqn:H2; [|exact Hs1].
    assert (Hs2 : Home.storage w2 = Home.storage w1)
      by exact (proj1 (load_dates_frame w1 w2 H2)).
    unfold Home.mark_first_visit. cbn [String.eqb negb]. rewrite andb_false_r.
    rewrite Hs2. exact Hs1. }
  split; [|split].
  - intros k Hk. destruct Hsteps as [->| ->]; [reflexivity|].
    unfold Home.mark_first_visit. destruct (_ && _); [|reflexivity].
    cbn [Home.storage]. apply getItem_setItem_other. congruence.
  - intros marker Hget Hne. destruct Hsteps as [->| ->]; [reflexivity|].
    unfold Home.mark_first_visit. rewrite Hget.
    apply String.eqb_neq in Hne. rewrite Hne. reflexivity.
  - exact Hsteps0.
Qed.

(** X13.  A list that does not parse stops the whole hydration: neither
    the timestamps nor the marker of the first visit are handled after
    it, and the page and the storage stay exactly as they were. *)
Theorem corrupt_list_stops_hydration
    (herName : string) (now : Date) (w : Home.World) (saved : string) :
  getItem Home.STORAGE_KEY (Home.storage w) = Some saved ->
  saved <> "" ->
  JSON_parse saved = None ->
  Home.initializeData herName now w = w.
Proof.
  intros Hget Hne Hparse. unfold Home.initializeData, Home.load_redeemed.
  apply String.eqb_neq in Hne. rewrite Hget, Hne, Hparse. reflexivity.
Qed.

End Reloads.

(** The date itself, typed on a fresh profile. *)
Lemma session_survives_reload_witness :
  let w := {| Home.page := Home.initial; Home.storage := fresh_storage |} in
  let now := Reference.dec 5 "2025-12-05T09:00:00.000Z" in
  isAvailable (Home.storage w) = true
  /\ fst (AuthModal.authenticate "03" "02" "23" w) = true
  /\ Home.isAuthenticated
       (Home.page (@Home.load Reference.runtime "" now
                     (Home.storage (snd (AuthModal.authenticate "03" "02" "23" w))))) = true.
Proof.
  cbv zeta. split; [reflexivity|]. split; [reflexivity|].
  refine (proj1 (@session_survives_reload Reference.runtime "03" "02" "23" ""
                   (Reference.dec 5 "2025-12-05T09:00:00.000Z")
                   {| Home.page := Home.initial; Home.storage := fresh_storage |}
                   eq_refl eq_refl)).
Defined.

(** A list cut off after its first element, beside the timestamp of
    coupon 5 and with a name that would ask for the marker. *)
Lemma corrupt_list_stops_hydration_witness :
  let st := snd (setItem Home.STORAGE_KEY "[5"
                   (Home.storage
                      (@Home.handleRedeem Reference.runtime (num 5)
                         (Reference.dec 5 "2025-12-05T10:00:00.000Z") Reference.start))) in
  let w := {| Home.page := Home.initial; Home.storage := st |} in
  getItem Home.REDEEMED_DATES_KEY st <> None
  /\ Reference.parse "[5" = None
  /\ @Home.initializeData Reference.runtime "Ania"
       (Reference.dec 6 "2025-12-06T08:00:00.000Z") w = w.
Proof.
  cbv zeta. split; [vm_compute; discriminate|]. split; [reflexivity|].
  apply (@corrupt_list_stops_hydration Reference.runtime "Ania" _ _ "[5").
  - reflexivity.
  - discriminate.
  - reflexivity.
Defined.

(** ** The redeemed set is a set, and survives a reload *)

Lemma same_value_zero_sym (a b : json) : same_value_zero a b = same_value_zero b a.
Proof.
  destruct a, b; cbn; try reflexivity.
  - destruct b, b0; reflexivity.
  - destruct (decide (n = n0)) as [->|Hne].
    + rewrite !bool_decide_eq_true_2; reflexivity.
    + rewrite !bool_decide_eq_false_2; congruence.
  - apply String.eqb_sym.
Qed.

Lemma distinct_snoc (s : list json) (x : json) :
  distinct s = true -> Set_has s x = false -> distinct (s ++ [x]) = true.
Proof.
  unfold Set_has. induction s as [|y s IH]; [reflexivity|].
  cbn [distinct existsb app]. intros Hd Hx.
  apply andb_true_iff in Hd. destruct Hd as [Hy Hd].
  apply orb_false_iff in Hx. destruct Hx as [Hxy Hx].
  apply andb_true_iff. split; [|exact (IH Hd Hx)].
  rewrite existsb_app. cbn [existsb].
  apply negb_true_iff in Hy. rewrite Hy, same_value_zero_sym, Hxy. reflexivity.
Qed.

Lemma distinct_Set_add (x : json) (s : list json) :
  distinct s = true -> distinct (Set_add x s) = true.
Proof.
  intros Hd. unfold Set_add. destruct (Set_has s x) eqn:Hx; [exact Hd|].
  apply distinct_snoc; assumption.
Qed.

Lemma distinct_fold (l acc : list json) :
  distinct acc = true -> distinct (fold_left (fun s x => Set_add x s) l acc) = true.
Proof.
  revert acc. induction l as [|x l IH]; intros acc Hd; [exact Hd|].
  cbn [fold_left]. apply IH. apply distinct_Set_add. exact Hd.
Qed.



Section Persistence.
Context `{Runtime}.

Lemma load_distinct (herName : string) (now : Date) (st : Storage) :
  distinct (Home.redeemedCoupons (Home.page (Home.load herName now st))) = true.
Proof.
  rewrite load_redeemedCoupons.
  destruct (getItem Home.STORAGE_KEY st) as [saved|]; [|reflexivity].
  destruct (String.eqb saved ""); [reflexivity|].
  destruct (JSON_parse saved) as [[| | | |parsedData|]|]; try reflexivity.
  unfold Set_of_array. apply distinct_fold. reflexivity.
Qed.

(** X14.  The redeemed set never holds an element twice: whatever the
    storage held when the page was loaded, and whatever is redeemed
    after, in whatever order and however often, no two elements of the
    set are the same, so [redeemed] in the statistics counts each of
    them once. *)
Theorem redeemed_set_distinct
    (herName : string) (now : Date) (st : Storage) (events : list (number * Date)) :
  distinct (Home.redeemedCoupons
              (Home.page (redeemAll events (Home.load herName now st)))) = true.
Proof.
  unfold redeemAll.
  generalize (load_distinct herName now st).
  generalize (Home.load herName now st). intros w Hw.
  revert w Hw. induction events as [|e events IH]; intros w Hw; [exact Hw|].
  cbn [fold_left]. apply IH. rewrite handleRedeem_redeemedCoupons.
  apply distinct_Set_add. exact Hw.
Qed.



End Persistence.


(** ** The daily notification and the milestones *)

Lemma notification_key_inj (d1 d2 : Z) :
  HomeEvents.notification_key d1 = HomeEvents.notification_key d2 -> d1 = d2.
Proof.
  unfold HomeEvents.notification_key. intros Heq.
  apply (inj (String.app "notification_day_")) in Heq.
  apply (inj pretty) in Heq. exact Heq.
Qed.

(** X16.  The toast of the day is shown once for a day of the month, for
    ever: after a run of the check in December, a later run on a date with
    the same day of the month shows nothing and writes nothing, in the
    same December or in any month after; a run on another day leaves the
    marker of this day alone. *)
Theorem daily_notification_once (herName : string) (now later : Date) (st : Storage) :
  isAvailable st = true ->
  herName <> "" ->
  getMonth now = 11 ->
  getDate now <= 24 ->
  let st1 := snd (HomeEvents.checkDailyUnlock herName now st) in
  getItem (HomeEvents.notification_key (getDate now)) st1 <> None
  /\ (getDate later = getDate now ->
      getItem (HomeEvents.notification_key (getDate now)) st <> Some "" ->
      HomeEvents.checkDailyUnlock herName later st1 = (false, st1))
  /\ (getDate later <> getDate now ->
      getItem (HomeEvents.notification_key (getDate now))
        (snd (HomeEvents.checkDailyUnlock herName later st1))
      = getItem (HomeEvents.notification_key (getDate now)) st1).
Proof.
  intros Hav Hname Hmonth Hday. cbv zeta.
  apply String.eqb_neq in Hname.
  assert (Hfirst :
            getItem (HomeEvents.notification_key (getDate now))
              (snd (HomeEvents.checkDailyUnlock herName now st))
            = match getItem (HomeEvents.notification_key (getDate now)) st with
              | Some v => if String.eqb v "" then Some "true" else Some v
              | None => Some "true"
              end).
  { unfold HomeEvents.checkDailyUnlock. rewrite Hname, Hmonth.
    replace (getDate now <=? 24) with true by (symmetry; apply Z.leb_le; exact Hday).
    cbn [Z.eqb Pos.eqb andb].
    destruct (getItem (HomeEvents.notification_key (getDate now)) st) as [v|] eqn:Hget.
    - destruct (String.eqb v ""); cbn [snd]; [|exact Hget].
      apply getItem_setItem_same. rewrite setItem_available by exact Hav. reflexivity.
    - cbn [snd]. apply getItem_setItem_same.
      rewrite setItem_available by exact Hav. reflexivity. }
  split; [|split].
  - rewrite Hfirst. destruct (getItem _ st) as [v|]; [destruct (String.eqb v "")|];
      discriminate.
  - intros Hsame Hnot_empty.
    unfold HomeEvents.checkDailyUnlock at 1. rewrite Hname, Hsame, Hfirst.
    destruct (_ && _); [|reflexivity].
    destruct (getItem (HomeEvents.notification_key (getDate now)) st) as [v|] eqn:Hget.
    + destruct (String.eqb v "") eqn:Hv; [reflexivity|]. rewrite Hv. reflexivity.
    + reflexivity.
  - intros Hother.
    unfold HomeEvents.checkDailyUnlock at 1. rewrite Hname.
    destruct (_ && _); [|reflexivity].
    destruct (getItem (HomeEvents.notification_key (getDate later)) _) as [v|];
      [destruct (String.eqb v "")|]; cbn [snd]; try reflexivity;
      apply getItem_setItem_other; intros Heq; apply notification_key_inj in Heq;
      contradiction.
Qed.

Lemma daily_notification_once_witness :
  let now := Reference.dec 5 "2025-12-05T09:00:00.000Z" in
  let next := Reference.dec 5 "2026-12-05T09:00:00.000Z" in
  let st1 := snd (HomeEvents.checkDailyUnlock "Ania" now fresh_storage) in
  fst (HomeEvents.checkDailyUnlock "Ania" now fresh_storage) = true
  /\ HomeEvents.checkDailyUnlock "Ania" next st1 = (false, st1).
Proof.
  cbv zeta. split; [reflexivity|].
  refine (proj1 (proj2 (daily_notification_once "Ania"
                          (Reference.dec 5 "2025-12-05T09:00:00.000Z")
                          (Reference.dec 5 "2026-12-05T09:00:00.000Z")
                          fresh_storage eq_refl _ eq_refl _)) eq_refl _).
  - discriminate.
  - cbn. lia.
  - discriminate.
Defined.

Lemma Set_add_new_length (x : json) (s : list json) :
  Set_has s x = false -> length (Set_add x s) = S (length s).
Proof.
  intros Hx. unfold Set_add. rewrite Hx, length_app. cbn [length]. lia.
Qed.

(** X17.  For a coupon that is not redeemed yet the milestone toasts tell
    the truth: the toast for half of the calendar comes exactly when the
    redemption makes the set 12 large, the one for the whole calendar
    exactly when it makes it 24 large. *)
Theorem milestone_on_new_coupon `{Runtime} (couponId : number) (now : Date) (w : Home.World) :
  Home.isRedeemed (Home.page w) couponId = false ->
  let size := length (Home.redeemedCoupons (Home.page (Home.handleRedeem couponId now w))) in
  (HomeEvents.milestone (Home.page w) = Some HomeEvents.HalfOfCalendar <-> size = 12%nat)
  /\ (HomeEvents.milestone (Home.page w) = Some HomeEvents.WholeCalendar <-> size = 24%nat)
  /\ (HomeEvents.milestone (Home.page w) = None <-> size <> 12%nat /\ size <> 24%nat).
Proof.
  intros Hnew. cbv zeta. rewrite handleRedeem_redeemedCoupons.
  unfold Home.isRedeemed in Hnew. rewrite (Set_add_new_length _ _ Hnew).
  unfold HomeEvents.milestone.
  destruct (Z.eqb_spec (Z.of_nat (length (Home.redeemedCoupons (Home.page w))) + 1) 12) as [H12|H12];
    [|destruct (Z.eqb_spec (Z.of_nat (length (Home.redeemedCoupons (Home.page w))) + 1) 24)
        as [H24|H24]];
    repeat split; intros; try discriminate; try lia;
    try match goal with Hx : _ /\ _ |- _ => destruct Hx end; try lia; try reflexivity.
Qed.

Lemma milestone_on_new_coupon_witness :
  Home.isRedeemed (Home.page Reference.start) (num 5) = false
  /\ (HomeEvents.milestone (Home.page Reference.start) = None
      <-> length (Home.redeemedCoupons
                    (Home.page (@Home.handleRedeem Reference.runtime (num 5)
                                  (Reference.dec 5 "2025-12-05T10:00:00.000Z")
                                  Reference.start))) <> 12%nat
          /\ length (Home.redeemedCoupons
                       (Home.page (@Home.handleRedeem Reference.runtime (num 5)
                                     (Reference.dec 5 "2025-12-05T10:00:00.000Z")
                                     Reference.start))) <> 24%nat).
Proof.
  split; [reflexivity|].
  exact (proj2 (proj2 (@milestone_on_new_coupon Reference.runtime (num 5)
                         (Reference.dec 5 "2025-12-05T10:00:00.000Z")
                         Reference.start eq_refl))).
Defined.

(** ** The inputs the challenge accepts *)




(** ** Import, reset and the auto-save *)

Section Restore.
Context `{Runtime}.

(** What a successful import has done. *)
Lemma handleFileSelect_imported
    (f : DataManager.File) (st st' : Storage) (versionWarning : bool) :
  DataManager.handleFileSelect (Some f) st = (DataManager.Imported versionWarning, st') ->
  exists data,
    endsWith (DataManager.name f) ".json" = true
    /\ (1024 * 1024 <? DataManager.size f) = false
    /\ String.eqb (DataManager.content f) "" = false
    /\ JSON_parse (DataManager.content f) = Some data
    /\ DataManager.validateBackupData data = true
    /\ versionWarning
       = match get_prop data "version" with
         | Some (JStr version) => negb (String.eqb version DataManager.BACKUP_VERSION)
         | _ => true
         end
    /\ isAvailable st = true
    /\ st' = snd (setItem DataManager.STORAGE_KEY
                    (JSON_stringify (default JNull (get_prop data "redeemedCoupons")) 0) st).
Proof.
  unfold DataManager.handleFileSelect.
  destruct (endsWith (DataManager.name f) ".json") eqn:Hext; cbn [negb]; [|discriminate].
  destruct (1024 * 1024 <? DataManager.size f) eqn:Hsize; [discriminate|].
  destruct (String.eqb (DataManager.content f) "") eqn:Hcontent; [discriminate|].
  destruct (JSON_parse (DataManager.content f)) as [data|] eqn:Hparse; [|discriminate].
  destruct (DataManager.validateBackupData data) eqn:Hvalid; cbn [negb]; [|discriminate].
  unfold setItem, isAvailable.
  destruct (available st && negb (full st)) eqn:Hav; [|discriminate].
  intros [= Hw Hst]. exists data. cbn [snd].
  split; [reflexivity|]. split; [reflexivity|]. split; [reflexivity|].
  split; [reflexivity|]. split; [exact Hvalid|]. split; [symmetry; exact Hw|].
  split; [reflexivity|]. symmetry; exact Hst.
Qed.

(** X19.  An import replaces, it does not merge: when a file is imported
    with success, the file would be imported with the same answer into any
    other working storage, and the list stored afterwards is the same
    whatever the storage held under the key before; no other key
    changes. *)
Theorem import_replaces
    (f : DataManager.File) (st1 st1' st2 : Storage) (versionWarning : bool) :
  DataManager.handleFileSelect (Some f) st1 = (DataManager.Imported versionWarning, st1') ->
  isAvailable st2 = true ->
  exists st2' stored,
    DataManager.handleFileSelect (Some f) st2 = (DataManager.Imported versionWarning, st2')
    /\ getItem DataManager.STORAGE_KEY st1' = Some stored
    /\ getItem DataManager.STORAGE_KEY st2' = Some stored
    /\ forall k, k <> DataManager.STORAGE_KEY -> getItem k st2' = getItem k st2.
Proof.
  intros Himp Hav2.
  destruct (handleFileSelect_imported f st1 st1' versionWarning Himp)
    as (data & Hext & Hsize & Hcontent & Hparse & Hvalid & Hw & Hav1 & Hst1').
  exists (snd (setItem DataManager.STORAGE_KEY
                 (JSON_stringify (default JNull (get_prop data "redeemedCoupons")) 0) st2)),
    (JSON_stringify (default JNull (get_prop data "redeemedCoupons")) 0).
  split; [|split; [|split]].
  - unfold DataManager.handleFileSelect.
    rewrite Hext, Hsize, Hcontent, Hparse, Hvalid. cbn [negb].
    rewrite <- Hw. rewrite (setItem_available _ _ st2 Hav2). reflexivity.
  - rewrite Hst1'. apply getItem_setItem_same.
    rewrite (setItem_available _ _ st1 Hav1). reflexivity.
  - apply getItem_setItem_same.
    rewrite (setItem_available _ _ st2 Hav2). reflexivity.
  - intros k Hk. apply getItem_setItem_other. congruence.
Qed.

Lemma removeItem_twice (k : string) (st : Storage) :
  removeItem k (snd (removeItem k st)) = removeItem k st.
Proof.
  unfold removeItem. destruct st as [m [] fl]; cbn; [|reflexivity].
  rewrite delete_delete_eq. reflexivity.
Qed.

(** X20.  The whole backup cycle.  From a working storage that holds the
    text of an array of numbers: the export gives a document; the
    confirmed reset that follows succeeds, after it there is nothing to
    export and the page loads with an empty redeemed set; the import of
    the document into the storage after the reset succeeds without a
    version warning, and the page loaded next has the redeemed set of the
    page loaded before the export.  Through the whole cycle every other
    key of the storage, the timestamps among them, keeps its value. *)
Theorem backup_reset_restore
    (herName : string) (now later : Date) (st : Storage) (saved : string) (ids : list json) :
  isAvailable st = true ->
  getItem DataManager.STORAGE_KEY st = Some saved ->
  saved <> "" ->
  JSON_parse saved = Some (JArr ids) ->
  forallb is_number ids = true ->
  roundtrips (DataManager.backupData (JArr ids) now) 2 ->
  roundtrips (JArr ids) 0 ->
  Z.of_nat (String.length (JSON_stringify (DataManager.backupData (JArr ids) now) 2))
    <= 1024 * 1024 ->
  exists fileName dataStr afterReset restored,
    DataManager.exportData now st = DataManager.Exported fileName dataStr
    /\ DataManager.resetData true st = (DataManager.ResetDone, afterReset)
    /\ DataManager.exportData later afterReset = DataManager.ExportNoData
    /\ Home.redeemedCoupons (Home.page (Home.load herName later afterReset)) = []
    /\ DataManager.handleFileSelect
         (Some {| DataManager.name := fileName;
                  DataManager.size := Z.of_nat (String.length dataStr);
                  DataManager.content := dataStr |}) afterReset
       = (DataManager.Imported false, restored)
    /\ Home.redeemedCoupons (Home.page (Home.load herName later restored))
       = Home.redeemedCoupons (Home.page (Home.load herName later st))
    /\ forall k, k <> DataManager.STORAGE_KEY -> getItem k restored = getItem k st.
Proof.
  intros Hav Hget Hne Hparse Hnums [Hdoc_ne Hdoc] [Harr_ne Harr] Hsize.
  assert (Hav_reset : isAvailable (snd (removeItem DataManager.STORAGE_KEY st)) = true).
  { unfold isAvailable, removeItem in *. destruct st as [m [] []]; cbn in *;
      (reflexivity || discriminate). }
  assert (Hgone : getItem DataManager.STORAGE_KEY
                    (snd (removeItem DataManager.STORAGE_KEY st)) = None).
  { unfold getItem, removeItem. destruct st as [m [] fl]; cbn; [|reflexivity].
    apply lookup_delete_eq. }
  pose proof (setItem_available DataManager.STORAGE_KEY (JSON_stringify (JArr ids) 0)
                _ Hav_reset) as Hset.
  eexists _, _, _, _.
  split; [exact (exportData_stored now st saved (JArr ids) Hav Hget Hne Hparse)|].
  split; [exact (resetData_confirmed st Hav)|].
  split; [|split; [|split; [|split]]].
  - unfold DataManager.exportData. rewrite Hav_reset, Hgone. reflexivity.
  - rewrite load_redeemedCoupons. change Home.STORAGE_KEY with DataManager.STORAGE_KEY.
    rewrite Hgone. reflexivity.
  - unfold DataManager.handleFileSelect.
    cbn [DataManager.name DataManager.size DataManager.content].
    rewrite endsWith_app_app. cbn [negb].
    replace (1024 * 1024 <? _) with false by (symmetry; apply Z.ltb_ge; exact Hsize).
    apply String.eqb_neq in Hdoc_ne. rewrite Hdoc_ne, Hdoc.
    rewrite validateBackupData_spec.
    change (payload_of_numbers (DataManager.backupData (JArr ids) now))
      with (forallb is_number ids).
    rewrite Hnums. cbn [negb].
    change (default JNull (get_prop (DataManager.backupData (JArr ids) now) "redeemedCoupons"))
      with (JArr ids).
    rewrite Hset. reflexivity.
  - rewrite !load_redeemedCoupons.
    change Home.STORAGE_KEY with DataManager.STORAGE_KEY.
    rewrite Hget. apply String.eqb_neq in Harr_ne, Hne. rewrite Hne, Hparse.
    replace (getItem DataManager.STORAGE_KEY _)
      with (Some (JSON_stringify (JArr ids) 0)).
    + rewrite Harr_ne, Harr. reflexivity.
    + symmetry. unfold getItem. cbn [available items].
      unfold isAvailable in Hav_reset. apply andb_true_iff in Hav_reset.
      destruct Hav_reset as [-> _]. apply lookup_insert_eq.
  - intros k Hk.
    transitivity (getItem k (snd (removeItem DataManager.STORAGE_KEY st))).
    + unfold getItem. cbn [available items]. destruct (available _); [|reflexivity].
      apply lookup_insert_ne. congruence.
    + unfold getItem, removeItem. destruct st as [m [] fl]; cbn; [|reflexivity].
      apply lookup_delete_ne. congruence.
Qed.

(** X21.  A second confirmed reset changes nothing and gives the answer
    of the first. *)
Theorem reset_twice (st : Storage) :
  DataManager.resetData true (snd (DataManager.resetData true st))
  = DataManager.resetData true st.
Proof.
  unfold DataManager.resetData.
  destruct (isAvailable st) eqn:Hav; cbn [negb].
  - assert (Hav' : isAvailable (snd (removeItem DataManager.STORAGE_KEY st)) = true).
    { unfold isAvailable, removeItem in *. destruct st as [m [] []]; cbn in *;
        (reflexivity || discriminate). }
    destruct (removeItem DataManager.STORAGE_KEY st) as [success st'] eqn:Hrem.
    assert (Hst' : st' = snd (removeItem DataManager.STORAGE_KEY st))
      by (rewrite Hrem; reflexivity).
    cbn [snd] in Hav'.
    destruct success; cbn [snd]; rewrite Hav'; cbn [negb];
      rewrite Hst', removeItem_twice, Hrem; reflexivity.
  - cbn [snd]. rewrite Hav. reflexivity.
Qed.

(** X22.  The auto-save writes what the redemption has written: a tick of
    the interval right after a redemption changes neither the page nor
    the storage, whether the storage works or not, and a second tick
    changes nothing after any first one. *)
Theorem autoSave_is_quiet (couponId : number) (now : Date) (w : Home.World) :
  Home.autoSave (Home.handleRedeem couponId now w) = Home.handleRedeem couponId now w
  /\ Home.autoSave (Home.autoSave w) = Home.autoSave w.
Proof.
  split.
  - unfold Home.autoSave. rewrite handleRedeem_redeemedCoupons.
    replace (0 <? Z.of_nat (length (Set_add (JNum couponId)
                                      (Home.redeemedCoupons (Home.page w))))) with true.
    + unfold Home.handleRedeem, Home.saveRedeemedDate. cbn [Home.page Home.storage].
      f_equal. unfold setItem.
      destruct (Home.storage w) as [m [] []]; cbn; try reflexivity.
      f_equal. apply map_eq. intros k.
      destruct (decide (k = Home.STORAGE_KEY)) as [->|Hk].
      * rewrite lookup_insert_eq.
        rewrite lookup_insert_ne by discriminate.
        rewrite lookup_insert_eq. reflexivity.
      * rewrite lookup_insert_ne by congruence. reflexivity.
    + symmetry. apply Z.ltb_lt. unfold Set_add.
      destruct (Set_has _ _) eqn:Hhas.
      * destruct (Home.redeemedCoupons (Home.page w)); [discriminate Hhas|cbn [length]; lia].
      * rewrite length_app. cbn [length]. lia.
  - unfold Home.autoSave.
    destruct (0 <? Z.of_nat (length (Home.redeemedCoupons (Home.page w)))) eqn:Hpos;
      cbn [Home.page Home.storage]; rewrite Hpos; [|reflexivity].
    f_equal. unfold setItem.
    destruct (Home.storage w) as [m [] []]; cbn; try reflexivity.
    rewrite insert_insert_eq. reflexivity.
Qed.

End Restore.

(** A backup of coupon 1, imported over a storage that holds coupon 5. *)
Lemma import_replaces_witness :
  let f := {| DataManager.name := "backup.json";
              DataManager.size := 64;
              DataManager.content :=
                Reference.print
                  (JObj [("redeemedCoupons", JArr [JNum (num 1)]);
                         ("exportDate", JStr "2025-12-01T08:00:00.000Z");
                         ("version", JStr "1.0.0")]) |} in
  let st2 := Home.storage
               (@Home.handleRedeem Reference.runtime (num 5)
                  (Reference.dec 5 "2025-12-05T10:00:00.000Z") Reference.start) in
  exists st2' stored,
    @DataManager.handleFileSelect Reference.runtime (Some f) st2
    = (DataManager.Imported false, st2')
    /\ getItem DataManager.STORAGE_KEY
         (snd (@DataManager.handleFileSelect Reference.runtime (Some f) fresh_storage))
       = Some stored
    /\ getItem DataManager.STORAGE_KEY st2' = Some stored
    /\ forall k, k <> DataManager.STORAGE_KEY -> getItem k st2' = getItem k st2.
Proof.
  cbv zeta.
  refine (@import_replaces Reference.runtime _ fresh_storage _ _ false _ _).
  - vm_compute. reflexivity.
  - reflexivity.
Defined.


(** The storage after coupons 5 and 12 were redeemed, saved, reset and
    restored. *)
Lemma backup_reset_restore_witness :
  let w := @Home.handleRedeem Reference.runtime (num 12)
             (Reference.dec 12 "2025-12-12T20:15:00.000Z")
             (@Home.handleRedeem Reference.runtime (num 5)
                (Reference.dec 5 "2025-12-05T10:00:00.000Z") Reference.start) in
  let now := Reference.dec 13 "2025-12-13T07:45:00.000Z" in
  let later := Reference.dec 14 "2025-12-14T07:45:00.000Z" in
  exists fileName dataStr afterReset restored,
    @DataManager.exportData Reference.runtime now (Home.storage w)
    = DataManager.Exported fileName dataStr
    /\ DataManager.resetData true (Home.storage w) = (DataManager.ResetDone, afterReset)
    /\ @DataManager.exportData Reference.runtime later afterReset = DataManager.ExportNoData
    /\ Home.redeemedCoupons (Home.page (@Home.load Reference.runtime "" later afterReset)) = []
    /\ @DataManager.handleFileSelect Reference.runtime
         (Some {| DataManager.name := fileName;
                  DataManager.size := Z.of_nat (String.length dataStr);
                  DataManager.content := dataStr |}) afterReset
       = (DataManager.Imported false, restored)
    /\ Home.redeemedCoupons (Home.page (@Home.load Reference.runtime "" later restored))
       = Home.redeemedCoupons
           (Home.page (@Home.load Reference.runtime "" later (Home.storage w)))
    /\ forall k, k <> DataManager.STORAGE_KEY
                 -> getItem k restored = getItem k (Home.storage w).
Proof.
  cbv zeta.
  apply (@backup_reset_restore Reference.runtime "" _ _ _ "[5,12]"
           [JNum (num 5); JNum (num 12)]).
  - reflexivity.
  - reflexivity.
  - discriminate.
  - vm_compute. reflexivity.
  - reflexivity.
  - split; [intros Hc; vm_compute in Hc; discriminate Hc|vm_compute; reflexivity].
  - split; [intros Hc; vm_compute in Hc; discriminate Hc|vm_compute; reflexivity].
  - apply Z.leb_le. vm_compute. reflexivity.
Defined.

(** ** The countdown *)

Lemma timeLeftOf_fields (difference : Z) :
  0 < difference ->
  let t := Countdown.timeLeftOf difference in
  Countdown.hours t * 3600 + Countdown.minutes t * 60 + Countdown.seconds t
  = Countdown.totalSeconds t
  /\ 0 <= Countdown.seconds t < 60
  /\ 0 <= Countdown.minutes t < 60
  /\ 0 <= Countdown.hours t
  /\ Countdown.totalSeconds t = difference / 1000.
Proof.
  intros Hpos. cbv zeta. unfold Countdown.timeLeftOf.
  cbn [Countdown.hours Countdown.minutes Countdown.seconds Countdown.totalSeconds].
  assert (Hs : 0 <= difference / 1000) by (apply Z.div_pos; lia).
  rewrite !Z.rem_mod_nonneg by lia.
  set (s := difference / 1000) in *. clearbody s.
  repeat split; try (Z.div_mod_to_equations; lia).
Qed.

(** X23.  What the countdown shows, for every reading of the clock.  The
    three fields recompose the seconds that are left, minutes and seconds
    stay under 60.  The calendar is complete exactly when the page shows
    every door unlocked; until then [nextDay] is the first door the page
    still shows locked.  The last ten seconds are announced only with ten
    seconds or less on the clock, never on a complete calendar. *)
Theorem countdown_state (m : Countdown.Moment) (refs : Countdown.Refs) :
  let s := fst (fst (Countdown.calculateTimeLeft m refs)) in
  let t := Countdown.timeLeft s in
  Countdown.hours t * 3600 + Countdown.minutes t * 60 + Countdown.seconds t
  = Countdown.totalSeconds t
  /\ 0 <= Countdown.seconds t < 60
  /\ 0 <= Countdown.minutes t < 60
  /\ 0 <= Countdown.hours t
  /\ (Countdown.isComplete s = true
      <-> forall c, In c coupons -> Home.isUnlocked (Countdown.today m) (day c) = true)
  /\ (Countdown.isComplete s = false ->
      Home.isUnlocked (Countdown.today m) (Countdown.nextDay s) = false
      /\ forall d, 1 <= d < Countdown.nextDay s ->
                   Home.isUnlocked (Countdown.today m) d = true)
  /\ (Countdown.isLastTenSeconds s = true ->
      Countdown.totalSeconds t <= 10 /\ Countdown.isComplete s = false).
Proof.
  cbv zeta.
  assert (Hall : (getMonth (Countdown.today m) =? 11)
                 && (24 <=? getDate (Countdown.today m)) = true
                 <-> forall c, In c coupons
                               -> Home.isUnlocked (Countdown.today m) (day c) = true).
  { unfold Home.isUnlocked. split.
    - intros Hc c Hin. apply andb_true_iff in Hc. destruct Hc as [Hm Hd].
      rewrite Hm. cbn [andb]. apply Z.leb_le. apply Z.leb_le in Hd.
      pose proof (getCouponById_catalogue c Hin) as [_ Hid].
      assert (Hday : day c = id c).
      { clear -Hin. revert c Hin. refine (proj1 (List.Forall_forall _ _) _).
        repeat constructor. }
      lia.
    - intros Hc.
      assert (Hlast : exists c, In c coupons /\ day c = 24)
        by (eexists; split; [do 23 right; left; reflexivity|reflexivity]).
      destruct Hlast as (c & Hin & Hday). rewrite <- Hday. exact (Hc c Hin). }
  unfold Countdown.calculateTimeLeft.
  destruct (getMonth (Countdown.today m) =? 11) eqn:Hmonth; cbn [negb].
  - unfold Countdown.LAST_DAY, Countdown.FIRST_DAY, Countdown.COMPLETION_DAY.
    destruct (24 <=? getDate (Countdown.today m)) eqn:Hday.
    + cbn [fst Countdown.timeLeft Countdown.isComplete Countdown.isLastTenSeconds
             Countdown.nextDay Countdown.noTime Countdown.hours Countdown.minutes
             Countdown.seconds Countdown.totalSeconds].
      repeat split; try lia; try discriminate.
      * intros _. apply Hall. reflexivity.
    + apply Z.leb_gt in Hday.
      assert (Hnext : Z.min (getDate (Countdown.today m) + 1) 24
                      = getDate (Countdown.today m) + 1) by lia.
      rewrite Hnext.
      assert (Hlocked : Home.isUnlocked (Countdown.today m)
                          (getDate (Countdown.today m) + 1) = false
                        /\ forall d, 1 <= d < getDate (Countdown.today m) + 1 ->
                                     Home.isUnlocked (Countdown.today m) d = true).
      { unfold Home.isUnlocked. rewrite Hmonth. cbn [andb]. split.
        - apply Z.leb_gt. lia.
        - intros d Hd. apply Z.leb_le. lia. }
      assert (Hnot : ~ (forall c, In c coupons
                                  -> Home.isUnlocked (Countdown.today m) (day c) = true)).
      { intros Hc. apply Hall in Hc. discriminate Hc. }
      destruct (Countdown.untilDecember m (getDate (Countdown.today m) + 1) <=? 0) eqn:Hdiff.
      * destruct (negb (Countdown.lastUnlockToast refs =? _));
          cbn [fst Countdown.timeLeft Countdown.isComplete Countdown.isLastTenSeconds
                 Countdown.nextDay Countdown.noTime Countdown.hours Countdown.minutes
                 Countdown.seconds Countdown.totalSeconds];
          (split; [lia|]); (split; [lia|]); (split; [lia|]); (split; [lia|]);
          (split; [split; [discriminate|intros Hc; contradiction]|]);
          (split; [intros _; exact Hlocked|discriminate]).
      * apply Z.leb_gt in Hdiff.
        pose proof (timeLeftOf_fields _ Hdiff) as (Hsum & Hsec & Hmin & Hh & _).
        set (t := Countdown.timeLeftOf _) in *.
        destruct (Countdown.totalSeconds t <=? Countdown.LAST_SECONDS_THRESHOLD) eqn:Hten;
          destruct (negb (Countdown.hasPlayedSound refs));
          cbn [andb negb fst Countdown.timeLeft Countdown.isComplete
                 Countdown.isLastTenSeconds Countdown.nextDay];
          (split; [exact Hsum|]); (split; [exact Hsec|]); (split; [exact Hmin|]);
          (split; [exact Hh|]);
          (split; [split; [discriminate|intros Hc; contradiction]|]);
          (split; [intros _; exact Hlocked|]);
          rewrite ?Hten; try discriminate;
          intros _; (split; [apply Z.leb_le; exact Hten|reflexivity]).
  - assert (Hnot : ~ (forall c, In c coupons
                                -> Home.isUnlocked (Countdown.today m) (day c) = true)).
    { intros Hc. apply Hall in Hc. discriminate Hc. }
    assert (Hlocked : Home.isUnlocked (Countdown.today m) Countdown.FIRST_DAY = false
                      /\ forall d, 1 <= d < Countdown.FIRST_DAY ->
                                   Home.isUnlocked (Countdown.today m) d = true).
    { unfold Home.isUnlocked, Countdown.FIRST_DAY. rewrite Hmonth. split; [reflexivity|].
      intros d Hd. lia. }
    destruct (Countdown.untilDecember m Countdown.FIRST_DAY <=? 0) eqn:Hdiff.
    + cbn [fst Countdown.timeLeft Countdown.isComplete Countdown.isLastTenSeconds
             Countdown.nextDay Countdown.noTime Countdown.hours Countdown.minutes
             Countdown.seconds Countdown.totalSeconds].
      (split; [lia|]); (split; [lia|]); (split; [lia|]); (split; [lia|]).
      (split; [split; [discriminate|intros Hc; contradiction]|]).
      split; [intros _; exact Hlocked|discriminate].
    + apply Z.leb_gt in Hdiff.
      pose proof (timeLeftOf_fields _ Hdiff) as (Hsum & Hsec & Hmin & Hh & _).
      set (t := Countdown.timeLeftOf _) in *.
      cbn [fst Countdown.timeLeft Countdown.isComplete Countdown.isLastTenSeconds
             Countdown.nextDay].
      (split; [exact Hsum|]); (split; [exact Hsec|]); (split; [exact Hmin|]);
        (split; [exact Hh|]).
      (split; [split; [discriminate|intros Hc; contradiction]|]).
      split; [intros _; exact Hlocked|].
      intros Hten. split; [apply Z.leb_le; exact Hten|reflexivity].
Qed.

Lemma countdown_state_last_seconds (m : Countdown.Moment) (refs : Countdown.Refs) :
  let s := fst (fst (Countdown.calculateTimeLeft m refs)) in
  Countdown.isLastTenSeconds s = true
  -> Countdown.totalSeconds (Countdown.timeLeft s) <= 10.
Proof.
  cbv zeta. unfold Countdown.calculateTimeLeft.
  destruct (negb (getMonth (Countdown.today m) =? 11)).
  { destruct (_ <=? 0); cbn [fst Countdown.isLastTenSeconds Countdown.timeLeft];
      [discriminate|]. intros Hten. apply Z.leb_le. exact Hten. }
  destruct (Countdown.LAST_DAY <=? getDate (Countdown.today m)); [discriminate|].
  destruct (_ <=? 0).
  - destruct (negb _); discriminate.
  - destruct (Countdown.totalSeconds _ <=? Countdown.LAST_SECONDS_THRESHOLD) eqn:Hten;
      destruct (negb (Countdown.hasPlayedSound refs));
      cbn [andb negb fst Countdown.isLastTenSeconds Countdown.timeLeft];
      try discriminate; intros _; apply Z.leb_le; exact Hten.
Qed.

(** What one tick does to the refs and which toasts it shows. *)
Lemma calculateTimeLeft_toasts (m : Countdown.Moment) (refs : Countdown.Refs) :
  let r := Countdown.calculateTimeLeft m refs in
  let s := fst (fst r) in
  let refs' := snd (fst r) in
  let toasts := snd r in
  (toasts = []
   /\ Countdown.lastUnlockToast refs' = Countdown.lastUnlockToast refs
   /\ (Countdown.hasPlayedSound refs' = Countdown.hasPlayedSound refs
       \/ Countdown.hasPlayedSound refs' = false /\ Countdown.isLastTenSeconds s = false))
  \/ (exists d, toasts = [Countdown.DoorUnlocked d]
                /\ d <> Countdown.lastUnlockToast refs
                /\ Countdown.lastUnlockToast refs' = d
                /\ Countdown.hasPlayedSound refs' = Countdown.hasPlayedSound refs)
  \/ (toasts = [Countdown.LastTenSeconds]
      /\ Countdown.lastUnlockToast refs' = Countdown.lastUnlockToast refs
      /\ Countdown.hasPlayedSound refs = false
      /\ Countdown.hasPlayedSound refs' = true
      /\ Countdown.isLastTenSeconds s = true).
Proof.
  cbv zeta. unfold Countdown.calculateTimeLeft.
  destruct (negb (getMonth (Countdown.today m) =? 11)).
  { destruct (_ <=? 0); cbn [fst snd]; left; repeat split; left; reflexivity. }
  destruct (Countdown.LAST_DAY <=? getDate (Countdown.today m)).
  { cbn [fst snd]. left. repeat split. left. reflexivity. }
  destruct (_ <=? 0).
  - destruct (Countdown.lastUnlockToast refs =? _) eqn:Hlast; cbn [negb fst snd].
    + left. repeat split. left. reflexivity.
    + right. left. eexists. split; [reflexivity|].
      apply Z.eqb_neq in Hlast. cbn [Countdown.lastUnlockToast Countdown.hasPlayedSound].
      repeat split. congruence.
  - destruct (Countdown.totalSeconds _ <=? Countdown.LAST_SECONDS_THRESHOLD) eqn:Hten;
      destruct (Countdown.hasPlayedSound refs) eqn:Hplayed;
      cbn [andb negb fst snd Countdown.lastUnlockToast Countdown.hasPlayedSound
             Countdown.isLastTenSeconds].
    + left. repeat split. left. exact Hplayed.
    + right. right. repeat split.
    + left. repeat split. right. split; reflexivity.
    + left. repeat split. left. reflexivity.
Qed.

(** X24.  In a run of ticks of any length, over any readings of the
    clock, no door is announced twice in a row: each announcement of an
    unlocked door names another day than the one before it, and the first
    one another day than the ref held at the start. *)
Theorem door_toast_once (ms : list Countdown.Moment) (refs : Countdown.Refs) :
  Countdown.changes (Countdown.lastUnlockToast refs)
    (Countdown.unlockedDays (Countdown.ticks ms refs)) = true.
Proof.
  revert refs. induction ms as [|m ms IH]; intros refs; [reflexivity|].
  cbn [Countdown.ticks].
  pose proof (calculateTimeLeft_toasts m refs) as Hstep. cbv zeta in Hstep.
  destruct (Countdown.calculateTimeLeft m refs) as [[s refs'] toasts].
  cbn [fst snd] in Hstep. specialize (IH refs').
  destruct Hstep as [(-> & Hlast & _)|[(d & -> & Hd & Hlast & _)|(-> & Hlast & _)]].
  - cbn [app]. rewrite <- Hlast. exact IH.
  - cbn [app Countdown.unlockedDays flat_map Countdown.changes].
    rewrite Hlast in IH. change (Countdown.unlockedDays (Countdown.ticks ms refs'))
      with (flat_map (fun t => match t with
                               | Countdown.DoorUnlocked d => [d]
                               | Countdown.LastTenSeconds => []
                               end) (Countdown.ticks ms refs')) in IH.
    rewrite IH.
    replace (Countdown.lastUnlockToast refs =? d) with false
      by (symmetry; apply Z.eqb_neq; congruence).
    reflexivity.
  - cbn [app Countdown.unlockedDays flat_map]. rewrite <- Hlast. exact IH.
Qed.

(** X25.  The last ten seconds are announced once: a tick announces them
    only with the sound ref down and ten seconds or less on the clock, and
    raises the ref; with the ref up no tick announces them; so they are
    never announced on two ticks in a row, and a raised ref falls only on
    a tick that is outside the last ten seconds. *)
Theorem last_ten_seconds_once (m1 m2 : Countdown.Moment) (refs : Countdown.Refs) :
  let r1 := Countdown.calculateTimeLeft m1 refs in
  let r2 := Countdown.calculateTimeLeft m2 (snd (fst r1)) in
  (Countdown.announcesLastSeconds (snd r1) = true
   -> Countdown.isLastTenSeconds (fst (fst r1)) = true
      /\ Countdown.totalSeconds (Countdown.timeLeft (fst (fst r1))) <= 10
      /\ Countdown.hasPlayedSound refs = false
      /\ Countdown.hasPlayedSound (snd (fst r1)) = true)
  /\ (Countdown.hasPlayedSound refs = true
      -> Countdown.announcesLastSeconds (snd r1) = false)
  /\ Countdown.announcesLastSeconds (snd r1) && Countdown.announcesLastSeconds (snd r2)
     = false
  /\ (Countdown.hasPlayedSound refs = true
      -> Countdown.hasPlayedSound (snd (fst r1)) = false
      -> Countdown.isLastTenSeconds (fst (fst r1)) = false).
Proof.
  cbv zeta.
  pose proof (countdown_state_last_seconds m1 refs) as Hten. cbv zeta in Hten.
  pose proof (calculateTimeLeft_toasts m1 refs) as H1. cbv zeta in H1.
  destruct (Countdown.calculateTimeLeft m1 refs) as [[s1 refs1] toasts1].
  cbn [fst snd] in *.
  pose proof (calculateTimeLeft_toasts m2 refs1) as H2. cbv zeta in H2.
  destruct (Countdown.calculateTimeLeft m2 refs1) as [[s2 refs2] toasts2].
  cbn [fst snd] in *.
  destruct H1 as [(-> & _ & Hplayed)|[(d & -> & _ & _ & Hplayed)|(-> & _ & Hdown & Hup & Hlast)]];
    cbn [Countdown.announcesLastSeconds existsb orb andb].
  - repeat split; try discriminate.
    intros Hwas Hfell. destruct Hplayed as [Hsame|[_ Hout]]; [congruence|exact Hout].
  - repeat split; try discriminate. intros Hwas Hfell. congruence.
  - split; [intros _; repeat split; auto|].
    split; [intros Hwas; congruence|].
    split; [|intros Hwas; congruence].
    destruct H2 as [(-> & _)|[(d & -> & _)|(_ & _ & Hdown2 & _)]];
      [reflexivity|reflexivity|congruence].
Qed.

(** ** The achievements of the profile *)

Lemma half_threshold (n : Z) :
  ProfileStats.js_ge (js_mul (js_div (num n) (num 24)) (num 100)) (num 50)
  = (12 <=? n).
Proof.
  unfold num at 1. rewrite js_div_finite by discriminate.
  unfold num. cbn [js_mul ProfileStats.js_ge].
  destruct (Z.leb_spec 12 n) as [Hn|Hn].
  - apply bool_decide_eq_true.
    unfold Qcle, Qcmult, Qcdiv, Qcinv, Qcmult, Q2Qc, this.
    rewrite !Qred_correct. simpl this.
    unfold Qle, Qmult, Qinv, inject_Z. simpl. lia.
  - apply bool_decide_eq_false. intros Hle. revert Hle.
    unfold Qcle, Qcmult, Qcdiv, Qcinv, Qcmult, Q2Qc, this.
    rewrite !Qred_correct. simpl this.
    unfold Qle, Qmult, Qinv, inject_Z. simpl. lia.
Qed.

Lemma assoc_set_length {A} (k : string) (v : A) (l : list (string * A)) :
  (length (assoc_set k v l) <= S (length l))%nat.
Proof.
  induction l as [|[k0 v0] l IH]; cbn [assoc_set length]; [lia|].
  destruct (String.eqb k k0); cbn [length]; lia.
Qed.

Lemma count_by_category_length (l : list Coupon) :
  (length (count_by_category l) <= length l)%nat.
Proof.
  unfold count_by_category.
  assert (Hgen : forall acc : list (string * Z),
             (length (fold_left
                        (fun (acc : list (string * Z)) coupon =>
                           let k := category_value (category coupon) in
                           assoc_set k (default 0 (assoc_get k acc) + 1)%Z acc) l acc)
              <= length acc + length l)%nat).
  { induction l as [|c l IH]; intros acc; cbn [fold_left length]; [lia|].
    specialize (IH (assoc_set (category_value (category c))
                      (default 0 (assoc_get (category_value (category c)) acc) + 1) acc)).
    cbv zeta in IH |- *.
    pose proof (assoc_set_length (category_value (category c))
                  (default 0 (assoc_get (category_value (category c)) acc) + 1) acc).
    lia. }
  exact (Hgen []).
Qed.

Lemma assoc_set_key_in {A} (k : string) (v : A) (l : list (string * A)) (k' : string) :
  In k' (map fst (assoc_set k v l)) <-> k' = k \/ In k' (map fst l).
Proof.
  split; [apply assoc_set_keys|].
  induction l as [|[k0 v0] l IH]; cbn [assoc_set map fst In].
  - intros [->|[]]. left. reflexivity.
  - destruct (String.eqb k k0) eqn:Hk; cbn [map fst In].
    + apply String.eqb_eq in Hk. subst k0.
      intros [->|[->|Hin]]; [left|left|right]; auto.
    + intros [->|[->|Hin]]; [right; apply IH; left|left|right; apply IH; right]; auto.
Qed.

Lemma assoc_set_NoDup {A} (k : string) (v : A) (l : list (string * A)) :
  List.NoDup (map fst l) -> List.NoDup (map fst (assoc_set k v l)).
Proof.
  induction l as [|[k0 v0] l IH]; cbn [assoc_set map fst].
  - intros _. constructor; [intros []|constructor].
  - intros Hnd. inversion Hnd as [|? ? Hnotin Hrest]; subst.
    destruct (String.eqb k k0) eqn:Hk; cbn [map fst].
    + apply String.eqb_eq in Hk. subst k0. constructor; assumption.
    + apply String.eqb_neq in Hk. constructor; [|apply IH; exact Hrest].
      intros Hin. apply assoc_set_keys in Hin. destruct Hin as [->|Hin]; auto.
Qed.

(** The keys of the counters: one for each category met, none twice. *)
Lemma count_by_category_keys (l : list Coupon) :
  List.NoDup (map fst (count_by_category l))
  /\ forall k, In k (map fst (count_by_category l))
               <-> exists c, In c l /\ category_value (category c) = k.
Proof.
  unfold count_by_category.
  assert (Hgen : forall acc,
             List.NoDup (map fst acc) ->
             let r := fold_left
                        (fun acc coupon =>
                           let k := category_value (category coupon) in
                           assoc_set k (default 0 (assoc_get k acc) + 1) acc) l acc in
             List.NoDup (map fst r)
             /\ forall k, In k (map fst r)
                          <-> In k (map fst acc)
                              \/ exists c, In c l /\ category_value (category c) = k).
  { induction l as [|c l IH]; intros acc Hacc; cbv zeta; cbn [fold_left].
    - split; [exact Hacc|]. intros k. split; [intros Hin; left; exact Hin|].
      intros [Hin|(c & [] & _)]. exact Hin.
    - specialize (IH (assoc_set (category_value (category c))
                        (default 0 (assoc_get (category_value (category c)) acc) + 1) acc)
                    (assoc_set_NoDup _ _ _ Hacc)).
      cbv zeta in IH. destruct IH as [Hnd Hkeys]. split; [exact Hnd|].
      intros k. rewrite Hkeys, assoc_set_key_in. split.
      + intros [[->|Hin]|(c' & Hin & Hcat)].
        * right. exists c. split; [left; reflexivity|reflexivity].
        * left. exact Hin.
        * right. exists c'. split; [right; exact Hin|exact Hcat].
      + intros [Hin|(c' & [->|Hin] & Hcat)].
        * left. right. exact Hin.
        * left. left. symmetry. exact Hcat.
        * right. exists c'. split; assumption. }
  destruct (Hgen [] (List.NoDup_nil _)) as [Hnd Hkeys]. split; [exact Hnd|].
  intros k. rewrite Hkeys. cbn [map In]. tauto.
Qed.

Lemma count_category_pos (k : string) (l : list Coupon) :
  (0 <? count_category k l) = true
  <-> exists c, In c l /\ category_value (category c) = k.
Proof.
  unfold count_category. rewrite Z.ltb_lt. split.
  - intros Hpos.
    destruct (List.filter (fun c => String.eqb (category_value (category c)) k) l)
      as [|c rest] eqn:Hf; [cbn in Hpos; lia|].
    assert (Hin : In c (List.filter
                          (fun c => String.eqb (category_value (category c)) k) l))
      by (rewrite Hf; left; reflexivity).
    apply filter_In in Hin. destruct Hin as [Hin Hk]. apply String.eqb_eq in Hk.
    exists c. split; assumption.
  - intros (c & Hin & Hk).
    assert (Hin' : In c (List.filter
                           (fun c => String.eqb (category_value (category c)) k) l)).
    { apply filter_In. split; [exact Hin|]. apply String.eqb_eq. exact Hk. }
    destruct (List.filter _ l); [destruct Hin'|cbn [length]; lia].
Qed.

(** The six categories of the catalogue, in the order of their first
    coupons. *)
Lemma catalogue_categories :
  map fst (count_by_category coupons)
  = ["relaxation"; "romantic"; "home"; "surprise"; "adventure"; "creative"].
Proof. reflexivity. Qed.

(** The counters of a list of coupons have as many keys as there are
    categories of the catalogue with a coupon in the list. *)
Lemma count_by_category_size (l : list Coupon) :
  length (count_by_category l)
  = length (List.filter (fun kv => 0 <? count_category (fst kv) l)
              (count_by_category coupons)).
Proof.
  rewrite <- (length_map fst (count_by_category l)).
  rewrite <- (length_map fst (List.filter _ _)).
  apply Permutation_length. destruct (count_by_category_keys l) as [Hnd Hkeys].
  apply NoDup_Permutation.
  - apply NoDup_ListNoDup. exact Hnd.
  - apply NoDup_ListNoDup.
    rewrite <- (filter_map_swap (fun k => 0 <? count_category k l) fst).
    apply List.NoDup_filter. rewrite catalogue_categories.
    apply NoDup_ListNoDup. refine (bool_decide_unpack _ _). vm_compute. exact I.
  - intros k. rewrite !list_elem_of_In.
    rewrite <- (filter_map_swap (fun k => 0 <? count_category k l) fst).
    rewrite filter_In, Hkeys, count_category_pos, catalogue_categories.
    split; [|intros [_ Hc]; exact Hc].
    intros (c & Hin & Hk). split; [|exists c; split; assumption].
    rewrite <- Hk. destruct (category c); cbn; tauto.
Qed.

(** The counters of the redeemed coupons have one key for each row of the
    profile that is not empty. *)
Lemma categories_with_redeemed (redeemedCouponIds : list json) :
  Z.of_nat (length (count_by_category (getRedeemedCoupons redeemedCouponIds)))
  = Z.of_nat (length (ProfileStats.categoryData redeemedCouponIds))
    - Z.of_nat (length (List.filter (fun r => ProfileStats.rowRedeemed r =? 0)
                          (ProfileStats.categoryData redeemedCouponIds))).
Proof.
  rewrite count_by_category_size.
  unfold ProfileStats.categoryData, getCouponStats.
  cbn [categoryCounts redeemedByCategory].
  rewrite filter_map_swap, !length_map.
  set (l := getRedeemedCoupons redeemedCouponIds).
  rewrite <- (filter_length
                (fun kv => 0 <? count_category (fst kv) l) (count_by_category coupons)).
  rewrite (filter_ext
             (fun a : string * Z =>
                ProfileStats.rowRedeemed
                  (let '(category, total) := a in
                   {| ProfileStats.rowCategory := category;
                      ProfileStats.rowTotal := total;
                      ProfileStats.rowRedeemed :=
                        default 0 (assoc_get category (count_by_category l)) |}) =? 0)
             (fun kv => negb (0 <? count_category (fst kv) l))).
  - lia.
  - intros [k total]. cbn [ProfileStats.rowRedeemed fst].
    rewrite count_by_category_get.
    pose proof (Nat2Z.is_nonneg
                  (length (List.filter
                             (fun c => String.eqb (category_value (category c)) k) l))).
    unfold count_category.
    destruct (Z.eqb_spec (Z.of_nat (length (List.filter
                (fun c => String.eqb (category_value (category c)) k) l))) 0) as [->|Hne].
    + reflexivity.
    + symmetry. apply negb_false_iff. apply Z.ltb_lt. lia.
Qed.

Lemma unlockedOf_calculateAchievements
    (redeemedCount totalCount : Z) (categoryCounts : list (string * Z)) :
  let a := ProfileStats.calculateAchievements redeemedCount totalCount categoryCounts in
  ProfileStats.unlockedOf "first_coupon" a = (1 <=? redeemedCount)
  /\ ProfileStats.unlockedOf "five_coupons" a = (5 <=? redeemedCount)
  /\ ProfileStats.unlockedOf "ten_coupons" a = (10 <=? redeemedCount)
  /\ ProfileStats.unlockedOf "half_complete" a
     = ProfileStats.js_ge
         (js_mul (js_div (num redeemedCount) (num totalCount)) (num 100)) (num 50)
  /\ ProfileStats.unlockedOf "all_categories" a
     = (3 <=? Z.of_nat (length categoryCounts))
  /\ ProfileStats.unlockedOf "complete" a = (totalCount <=? redeemedCount).
Proof.
  cbv zeta.
  set (p := ProfileStats.js_ge _ _).
  unfold ProfileStats.calculateAchievements. cbv zeta. fold p. clearbody p.
  unfold ProfileStats.unlockedOf.
  cbn [existsb ProfileStats.aid ProfileStats.unlocked].
  repeat split;
    repeat match goal with
           | |- context [String.eqb ?a ?b] =>
               let v := eval vm_compute in (String.eqb a b) in
               replace (String.eqb a b) with v by (vm_compute; reflexivity)
           end;
    cbn [andb orb]; rewrite ?orb_false_r; reflexivity.
Qed.

Lemma redeemedByCategory_redeemed (redeemedIds : list json) :
  redeemedByCategory (getCouponStats redeemedIds)
  = count_by_category (getRedeemedCoupons redeemedIds).
Proof. unfold getCouponStats. cbn [redeemedByCategory]. reflexivity. Qed.

Lemma unlockedOf_achievements (redeemedCouponIds : list json) :
  let a := ProfileStats.achievements redeemedCouponIds in
  let n := Z.of_nat (length redeemedCouponIds) in
  ProfileStats.unlockedOf "first_coupon" a = (1 <=? n)
  /\ ProfileStats.unlockedOf "five_coupons" a = (5 <=? n)
  /\ ProfileStats.unlockedOf "ten_coupons" a = (10 <=? n)
  /\ ProfileStats.unlockedOf "half_complete" a = (12 <=? n)
  /\ ProfileStats.unlockedOf "all_categories" a
     = (3 <=? Z.of_nat (length (count_by_category (getRedeemedCoupons redeemedCouponIds))))
  /\ ProfileStats.unlockedOf "complete" a = (24 <=? n).
Proof.
  cbv zeta. unfold ProfileStats.achievements.
  pose proof (unlockedOf_calculateAchievements
                (redeemed (getCouponStats redeemedCouponIds))
                (total (getCouponStats redeemedCouponIds))
                (redeemedByCategory (getCouponStats redeemedCouponIds))) as Hcalc.
  cbv zeta in Hcalc.
  set (a := ProfileStats.calculateAchievements _ _ _) in *. clearbody a.
  rewrite total_is_24, redeemed_is_length, half_threshold in Hcalc.
  rewrite redeemedByCategory_redeemed in Hcalc.
  exact Hcalc.
Qed.

(** X26.  The achievements as the profile shows them, by the number of
    redeemed IDs: the first coupon from 1, five from 5, ten from 10, half
    of the calendar from 12 (the percentage reaching 50), the whole from
    24, so that each of these unlocks the ones before it.  The achievement
    for the categories asks for three categories among the redeemed
    coupons of the catalogue, and can only be unlocked with three of them
    redeemed. *)
Theorem achievements_ladder (redeemedCouponIds : list json) :
  let a := ProfileStats.achievements redeemedCouponIds in
  let n := Z.of_nat (length redeemedCouponIds) in
  (ProfileStats.unlockedOf "first_coupon" a = true <-> 1 <= n)
  /\ (ProfileStats.unlockedOf "five_coupons" a = true <-> 5 <= n)
  /\ (ProfileStats.unlockedOf "ten_coupons" a = true <-> 10 <= n)
  /\ (ProfileStats.unlockedOf "half_complete" a = true <-> 12 <= n)
  /\ (ProfileStats.unlockedOf "complete" a = true <-> 24 <= n)
  /\ (ProfileStats.unlockedOf "all_categories" a = true
      <-> 3 <= Z.of_nat (length (ProfileStats.categoryData redeemedCouponIds))
               - Z.of_nat (length (List.filter
                                     (fun r => ProfileStats.rowRedeemed r =? 0)
                                     (ProfileStats.categoryData redeemedCouponIds))))
  /\ (ProfileStats.unlockedOf "all_categories" a = true
      -> 3 <= Z.of_nat (length (getRedeemedCoupons redeemedCouponIds)) <= n).
Proof.
  cbv zeta.
  destruct (unlockedOf_achievements redeemedCouponIds)
    as (-> & -> & -> & -> & Hcat & ->).
  rewrite Hcat.
  split; [apply Z.leb_le|]. split; [apply Z.leb_le|]. split; [apply Z.leb_le|].
  split; [apply Z.leb_le|]. split; [apply Z.leb_le|].
  split.
  - rewrite Z.leb_le. rewrite (categories_with_redeemed redeemedCouponIds). reflexivity.
  - intros Hthree. apply Z.leb_le in Hthree.
    pose proof (count_by_category_length (getRedeemedCoupons redeemedCouponIds)).
    pose proof (getRedeemedCoupons_length redeemedCouponIds).
    lia.
Qed.

(** The achievement for the categories is unlocked with three of the six
    categories: here with coupons 1, 2 and 3, three rows of the profile
    staying empty.  And the achievement for the whole calendar counts IDs,
    not coupons: 24 IDs the catalogue does not have unlock it. *)
Example three_categories_suffice :
  let ids := [JNum (num 1); JNum (num 2); JNum (num 3)] in
  ProfileStats.unlockedOf "all_categories" (ProfileStats.achievements ids) = true
  /\ length (List.filter (fun r => ProfileStats.rowRedeemed r =? 0)
               (ProfileStats.categoryData ids)) = 3%nat.
Proof. vm_compute. split; reflexivity. Qed.

Example complete_counts_ids :
  let ids := map (fun z => JNum (num z)) (seqZ 101 24) in
  ProfileStats.unlockedOf "complete" (ProfileStats.achievements ids) = true
  /\ getRedeemedCoupons ids = [].
Proof. vm_compute. split; reflexivity. Qed.

(** ** The storage hook *)

Lemma same_value_zero_eq (a b : json) : same_value_zero a b = true -> a = b.
Proof.
  destruct a, b; cbn; try discriminate; try reflexivity.
  - intros Heq. apply Bool.eqb_prop in Heq. congruence.
  - intros Heq. apply bool_decide_eq_true in Heq. congruence.
  - intros Heq. apply String.eqb_eq in Heq. congruence.
Qed.

Section Hook.
Context `{Runtime}.

Lemma mount_unfold (key : string) (initialValue : json) (st : Storage) :
  UseLocalStorage.mount key initialValue st
  = (UseLocalStorage.readEffect key
       {| UseLocalStorage.value := initialValue; UseLocalStorage.isHydrated := false |} st,
     snd (setItem key
            (JSON_stringify
               (UseLocalStorage.value
                  (UseLocalStorage.readEffect key
                     {| UseLocalStorage.value := initialValue;
                        UseLocalStorage.isHydrated := false |} st)) 0) st)).
Proof. reflexivity. Qed.

Lemma mount_reads_back (key : string) (initialValue v : json) (st : Storage) :
  getItem key st = Some (JSON_stringify v 0) ->
  roundtrips v 0 ->
  fst (UseLocalStorage.mount key initialValue st)
  = {| UseLocalStorage.value := v; UseLocalStorage.isHydrated := true |}.
Proof.
  intros Hget [Hne Hparse]. rewrite mount_unfold. cbn [fst].
  unfold UseLocalStorage.readEffect. rewrite Hget.
  apply String.eqb_neq in Hne. rewrite Hne, Hparse. reflexivity.
Qed.

(** X27.  The storage hook, whatever the key, the initial value and the
    storage.  After the mount the hook is hydrated and every other key is
    as it was.  On a working storage the item now holds the text of the
    value the hook returns: a missing or empty item, and an item that
    does not parse, are overwritten with the text of the initial value.
    When [JSON.parse] reads that text back, a second mount changes
    nothing, and a value set after the mount is the value the next mount
    returns. *)
Theorem useLocalStorage_mount (key : string) (initialValue v : json) (st : Storage) :
  let h := fst (UseLocalStorage.mount key initialValue st) in
  let st' := snd (UseLocalStorage.mount key initialValue st) in
  UseLocalStorage.isHydrated h = true
  /\ (forall k, k <> key -> getItem k st' = getItem k st)
  /\ (isAvailable st = true ->
      getItem key st' = Some (JSON_stringify (UseLocalStorage.value h) 0))
  /\ (getItem key st = None \/ getItem key st = Some ""
      \/ (exists item, getItem key st = Some item /\ JSON_parse item = None) ->
      UseLocalStorage.value h = initialValue)
  /\ (isAvailable st = true -> roundtrips (UseLocalStorage.value h) 0 ->
      UseLocalStorage.mount key initialValue st' = (h, st'))
  /\ (isAvailable st = true -> roundtrips v 0 ->
      fst (UseLocalStorage.mount key initialValue
             (snd (UseLocalStorage.setValue key v h st')))
      = {| UseLocalStorage.value := v; UseLocalStorage.isHydrated := true |}).
Proof.
  cbv zeta. rewrite mount_unfold. cbn [fst snd].
  set (h := UseLocalStorage.readEffect key _ st).
  assert (Hstored : isAvailable st = true ->
                    getItem key (snd (setItem key
                                        (JSON_stringify (UseLocalStorage.value h) 0) st))
                    = Some (JSON_stringify (UseLocalStorage.value h) 0)).
  { intros Hav. apply getItem_setItem_same.
    rewrite (setItem_available _ _ st Hav). reflexivity. }
  assert (Hav' : isAvailable st = true ->
                 isAvailable (snd (setItem key
                                     (JSON_stringify (UseLocalStorage.value h) 0) st))
                 = true).
  { intros Hav. rewrite (setItem_available _ _ st Hav). exact Hav. }
  split; [reflexivity|].
  split; [intros k Hk; apply getItem_setItem_other; congruence|].
  split; [exact Hstored|].
  split; [|split].
  - unfold h, UseLocalStorage.readEffect. cbn [UseLocalStorage.value].
    intros [->|[->|(item & -> & Hparse)]]; [reflexivity|reflexivity|].
    destruct (String.eqb item ""); [reflexivity|]. rewrite Hparse. reflexivity.
  - intros Hav Hround.
    rewrite mount_unfold.
    pose proof (mount_reads_back key initialValue (UseLocalStorage.value h) _
                  (Hstored Hav) Hround) as Hread.
    rewrite mount_unfold in Hread. cbn [fst] in Hread. rewrite Hread.
    cbn [UseLocalStorage.value].
    apply pair_equal_spec. split; [reflexivity|].
    rewrite (setItem_available _ _ st Hav). unfold setItem.
    unfold isAvailable in Hav. cbn [available full items snd]. rewrite Hav.
    cbn [snd]. rewrite insert_insert_eq. reflexivity.
  - intros Hav Hround.
    unfold UseLocalStorage.setValue.
    destruct (same_value_zero v (UseLocalStorage.value h)) eqn:Hsame.
    + apply same_value_zero_eq in Hsame. cbn [snd]. subst v.
      exact (mount_reads_back key initialValue _ _ (Hstored Hav) Hround).
    + cbn [snd]. unfold UseLocalStorage.writeEffect.
      cbn [UseLocalStorage.isHydrated UseLocalStorage.value].
      change (UseLocalStorage.isHydrated h) with true. cbn [negb].
      apply mount_reads_back; [|exact Hround].
      apply getItem_setItem_same.
      rewrite (setItem_available _ _ _ (Hav' Hav)). reflexivity.
Qed.

End Hook.

(** A name that was stored is read back; a corrupt item is replaced by the
    text of the initial value. *)
Example useLocalStorage_corrupt_item :
  let st := snd (setItem "herName" "{oops" fresh_storage) in
  let r := @UseLocalStorage.mount Reference.runtime "herName" (JStr "") st in
  UseLocalStorage.value (fst r) = JStr ""
  /\ getItem "herName" (snd r) = Some (Reference.print (JStr "")).
Proof. vm_compute. split; reflexivity. Qed.

(** ** The name of the welcome overlay *)

Lemma wo_trimStart_head (s : WelcomeOverlay.jsstring) (c : Z) (rest : WelcomeOverlay.jsstring) :
  WelcomeOverlay.trimStart s = c :: rest -> WelcomeOverlay.isWhiteSpace c = false.
Proof.
  induction s as [|x s IH]; cbn [WelcomeOverlay.trimStart]; [discriminate|].
  destruct (WelcomeOverlay.isWhiteSpace x) eqn:Hx; [exact IH|].
  intros [= <- _]. exact Hx.
Qed.

Lemma wo_trimStart_keeps (s : WelcomeOverlay.jsstring) :
  match s with
  | c :: _ => WelcomeOverlay.isWhiteSpace c = false
  | [] => True
  end ->
  WelcomeOverlay.trimStart s = s.
Proof.
  destruct s as [|c rest]; [reflexivity|].
  cbn [WelcomeOverlay.trimStart]. intros ->. reflexivity.
Qed.

Lemma wo_trimStart_split (s : WelcomeOverlay.jsstring) :
  exists p, s = p ++ WelcomeOverlay.trimStart s.
Proof.
  induction s as [|x s IH]; [exists []; reflexivity|].
  cbn [WelcomeOverlay.trimStart]. destruct (WelcomeOverlay.isWhiteSpace x).
  - destruct IH as [p Hp]. exists (x :: p). cbn [app]. rewrite <- Hp. reflexivity.
  - exists []. reflexivity.
Qed.

Lemma wo_trimStart_twice (s : WelcomeOverlay.jsstring) :
  WelcomeOverlay.trimStart (WelcomeOverlay.trimStart s) = WelcomeOverlay.trimStart s.
Proof.
  apply wo_trimStart_keeps.
  destruct (WelcomeOverlay.trimStart s) as [|c rest] eqn:Hs; [exact I|].
  exact (wo_trimStart_head s c rest Hs).
Qed.

Lemma wo_trimStart_length (s : WelcomeOverlay.jsstring) :
  (length (WelcomeOverlay.trimStart s) <= length s)%nat.
Proof.
  destruct (wo_trimStart_split s) as [p Hp]. rewrite Hp at 2. rewrite length_app. lia.
Qed.

Lemma wo_trim_length (s : WelcomeOverlay.jsstring) :
  (length (WelcomeOverlay.trim s) <= length s)%nat.
Proof.
  unfold WelcomeOverlay.trim. rewrite length_rev.
  pose proof (wo_trimStart_length (rev (WelcomeOverlay.trimStart s))) as H1.
  rewrite length_rev in H1. pose proof (wo_trimStart_length s). lia.
Qed.

(** Trimming what is trimmed changes nothing. *)
Lemma wo_trim_twice (s : WelcomeOverlay.jsstring) :
  WelcomeOverlay.trim (WelcomeOverlay.trim s) = WelcomeOverlay.trim s.
Proof.
  unfold WelcomeOverlay.trim.
  set (a := WelcomeOverlay.trimStart s).
  set (b := WelcomeOverlay.trimStart (rev a)).
  assert (Hfront : WelcomeOverlay.trimStart (rev b) = rev b).
  { apply wo_trimStart_keeps. destruct (rev b) as [|c rest] eqn:Hb; [exact I|].
    destruct (wo_trimStart_split (rev a)) as [p Hp]. fold b in Hp.
    apply (f_equal (@rev Z)) in Hp. rewrite rev_involutive, rev_app_distr, Hb in Hp.
    cbn [app] in Hp. exact (wo_trimStart_head s c _ Hp). }
  rewrite Hfront, rev_involutive. unfold b. rewrite wo_trimStart_twice. reflexivity.
Qed.

(** X28.  The name of the welcome overlay.  [validateName] accepts a name
    exactly when, trimmed, it has 2 to 20 code units, each a letter of
    the class, white space or a hyphen, and its answer does not change
    when the name is trimmed first.  The button to the second step is
    disabled, and [finish] stores nothing, exactly on the names
    [validateName] reports as missing.  An accepted name is stored by
    [finish] trimmed, and what is stored is accepted as it is.  With the
    20 characters the input allows the error for a long name cannot
    occur.  The fallback name of [handleSkip] is an accepted name. *)
Theorem welcome_name (name : WelcomeOverlay.jsstring) :
  (WelcomeOverlay.validateName name = None
   <-> (2 <= length (WelcomeOverlay.trim name) <= 20)%nat
       /\ forallb WelcomeOverlay.isNameChar (WelcomeOverlay.trim name) = true)
  /\ WelcomeOverlay.validateName (WelcomeOverlay.trim name)
     = WelcomeOverlay.validateName name
  /\ (WelcomeOverlay.nextDisabled name = true
      <-> WelcomeOverlay.validateName name = Some WelcomeOverlay.Required)
  /\ (WelcomeOverlay.finish name = None
      <-> WelcomeOverlay.validateName name = Some WelcomeOverlay.Required)
  /\ (WelcomeOverlay.validateName name = None ->
      WelcomeOverlay.finish name = Some (WelcomeOverlay.trim name)
      /\ WelcomeOverlay.validateName (WelcomeOverlay.trim name) = None
      /\ WelcomeOverlay.finish (WelcomeOverlay.trim name) = Some (WelcomeOverlay.trim name))
  /\ ((length name <= 20)%nat ->
      WelcomeOverlay.validateName name <> Some WelcomeOverlay.TooLong)
  /\ WelcomeOverlay.validateName WelcomeOverlay.handleSkip = None.
Proof.
  assert (Hvalid : forall n,
             WelcomeOverlay.validateName n = None
             <-> (2 <= length (WelcomeOverlay.trim n) <= 20)%nat
                 /\ forallb WelcomeOverlay.isNameChar (WelcomeOverlay.trim n) = true).
  { intros n. unfold WelcomeOverlay.validateName. cbv zeta.
    destruct (WelcomeOverlay.trim n) as [|c rest] eqn:Ht.
    - split; [discriminate|]. cbn [length]. lia.
    - set (t := c :: rest) in *.
      destruct (Nat.ltb_spec (length t) 2) as [Hshort|Hshort].
      { split; [discriminate|]. lia. }
      destruct (Nat.ltb_spec 20 (length t)) as [Hlong|Hlong].
      { split; [discriminate|]. lia. }
      destruct (forallb WelcomeOverlay.isNameChar t); cbn [negb].
      + split; [intros _; split; [lia|reflexivity]|reflexivity].
      + split; [discriminate|]. intros [_ Hc]. discriminate Hc. }
  assert (Hsame : WelcomeOverlay.validateName (WelcomeOverlay.trim name)
                  = WelcomeOverlay.validateName name).
  { unfold WelcomeOverlay.validateName. rewrite wo_trim_twice. reflexivity. }
  assert (Hmissing : WelcomeOverlay.validateName name = Some WelcomeOverlay.Required
                     <-> WelcomeOverlay.trim name = []).
  { unfold WelcomeOverlay.validateName. cbv zeta.
    destruct (WelcomeOverlay.trim name) as [|c rest] eqn:Ht.
    - split; reflexivity.
    - destruct (_ <? 2)%nat; [split; discriminate|].
      destruct (20 <? _)%nat; [split; discriminate|].
      destruct (negb _); split; discriminate. }
  split; [apply Hvalid|]. split; [exact Hsame|].
  split; [|split; [|split; [|split]]].
  - rewrite Hmissing. unfold WelcomeOverlay.nextDisabled.
    destruct (WelcomeOverlay.trim name); split; (reflexivity || discriminate).
  - rewrite Hmissing. unfold WelcomeOverlay.finish.
    destruct (WelcomeOverlay.trim name); split; (reflexivity || discriminate).
  - intros Hok.
    assert (Hne : WelcomeOverlay.trim name <> []).
    { intros He. apply Hmissing in He. congruence. }
    split; [|split].
    + unfold WelcomeOverlay.finish.
      destruct (WelcomeOverlay.trim name); [contradiction|reflexivity].
    + rewrite Hsame. exact Hok.
    + unfold WelcomeOverlay.finish. rewrite wo_trim_twice.
      destruct (WelcomeOverlay.trim name); [contradiction|reflexivity].
  - intros Hlen. pose proof (wo_trim_length name) as Htrim.
    unfold WelcomeOverlay.validateName. cbv zeta.
    destruct (WelcomeOverlay.trim name) as [|c rest] eqn:Ht; [discriminate|].
    destruct (_ <? 2)%nat; [discriminate|].
    destruct (Nat.ltb_spec 20 (length (c :: rest))) as [Hlong|Hlong]; [lia|].
    destruct (negb _); discriminate.
  - reflexivity.
Qed.

(** Two hyphens are a name; a name with a digit is not. *)
Example hyphens_are_a_name :
  WelcomeOverlay.validateName [45; 45] = None
  /\ WelcomeOverlay.validateName [65; 110; 105; 97; 50] = Some WelcomeOverlay.OnlyLetters.
Proof. split; reflexivity. Qed.

(** ** The list of the profile *)

Lemma insert_Permutation {A} (after : A -> A -> bool) (x : A) (l : list A) :
  ProfileView.insert after x l ≡ₚ x :: l.
Proof.
  induction l as [|y l IH]; cbn [ProfileView.insert]; [reflexivity|].
  destruct (after x y); [|reflexivity].
  rewrite IH. apply Permutation_swap.
Qed.

Lemma sorted_list_Permutation {A} (after : A -> A -> bool) (l : list A) :
  ProfileView.sorted_list after l ≡ₚ l.
Proof.
  induction l as [|x l IH]; [reflexivity|].
  cbn [ProfileView.sorted_list fold_right].
  fold (ProfileView.sorted_list after l).
  rewrite insert_Permutation, IH. reflexivity.
Qed.

(** An element does not pass the elements of its own class. *)
Lemma insert_filter {A} (after : A -> A -> bool) (p : A -> bool) (x : A) (l : list A) :
  (forall y, p x = true -> p y = true -> after x y = false) ->
  List.filter p (ProfileView.insert after x l) = List.filter p (x :: l).
Proof.
  intros Hclass. induction l as [|y l IH]; cbn [ProfileView.insert]; [reflexivity|].
  destruct (after x y) eqn:Hxy; [|reflexivity].
  cbn [List.filter] in *. rewrite IH.
  destruct (p x) eqn:Hx, (p y) eqn:Hy; try reflexivity.
  rewrite (Hclass y eq_refl Hy) in Hxy. discriminate Hxy.
Qed.

Lemma sorted_list_filter {A} (after : A -> A -> bool) (p : A -> bool) (l : list A) :
  (forall x y, p x = true -> p y = true -> after x y = false) ->
  List.filter p (ProfileView.sorted_list after l) = List.filter p l.
Proof.
  intros Hclass. induction l as [|x l IH]; [reflexivity|].
  cbn [ProfileView.sorted_list fold_right].
  fold (ProfileView.sorted_list after l).
  rewrite insert_filter by (intros y; apply Hclass).
  cbn [List.filter]. rewrite IH. reflexivity.
Qed.

Lemma insert_head {A} (after : A -> A -> bool) (x : A) (l : list A) :
  exists rest,
    ProfileView.insert after x l = x :: rest
    \/ exists y l', l = y :: l' /\ after x y = true
                    /\ ProfileView.insert after x l = y :: rest.
Proof.
  destruct l as [|y l]; cbn [ProfileView.insert].
  - exists []. left. reflexivity.
  - destruct (after x y) eqn:Hxy.
    + exists (ProfileView.insert after x l). right. exists y, l. repeat split. exact Hxy.
    + exists (y :: l). left. reflexivity.
Qed.

Lemma insert_ascending {A} (key : A -> Z) (x : A) (l : list A) :
  ProfileView.ascending (map key l) = true ->
  ProfileView.ascending
    (map key (ProfileView.insert (fun a b => 0 <? key a - key b) x l)) = true.
Proof.
  induction l as [|y l IH]; cbn [ProfileView.insert map]; [reflexivity|].
  intros Hasc. destruct (Z.ltb_spec 0 (key x - key y)) as [Hgt|Hle].
  - assert (Htail : ProfileView.ascending (map key l) = true).
    { cbn [ProfileView.ascending] in Hasc. destruct (map key l); [reflexivity|].
      apply andb_true_iff in Hasc. exact (proj2 Hasc). }
    specialize (IH Htail).
    destruct (insert_head (fun a b => 0 <? key a - key b) x l)
      as [rest [Hins|(z & l' & -> & Hxz & Hins)]]; rewrite Hins in *;
      cbn [map ProfileView.ascending] in *.
    + rewrite IH. replace (key y <=? key x) with true by (symmetry; apply Z.leb_le; lia).
      reflexivity.
    + apply andb_true_iff in Hasc. destruct Hasc as [Hyz _].
      rewrite Hyz, IH. reflexivity.
  - cbn [map ProfileView.ascending] in *. rewrite Hasc.
    replace (key x <=? key y) with true by (symmetry; apply Z.leb_le; lia).
    reflexivity.
Qed.

Lemma sorted_list_ascending {A} (key : A -> Z) (l : list A) :
  ProfileView.ascending
    (map key (ProfileView.sorted_list (fun a b => 0 <? key a - key b) l)) = true.
Proof.
  induction l as [|x l IH]; [reflexivity|].
  cbn [ProfileView.sorted_list fold_right]. apply insert_ascending. exact IH.
Qed.

Lemma read_lookup (r : nat) (hp : ProfileView.Heap) (l : list Profile.TimelineItem) :
  hp !! r = Some l -> ProfileView.read r hp = l.
Proof. unfold ProfileView.read. intros ->. reflexivity. Qed.

Lemma Array_filter_heap (p : Profile.TimelineItem -> bool) (r : nat)
    (hp : ProfileView.Heap) (l : list Profile.TimelineItem) :
  hp !! r = Some l ->
  ProfileView.Array_filter p r hp = (length hp, hp ++ [List.filter p l])
  /\ (hp ++ [List.filter p l]) !! length hp = Some (List.filter p l)
  /\ forall r' l', hp !! r' = Some l' -> (hp ++ [List.filter p l]) !! r' = Some l'.
Proof.
  intros Hr. unfold ProfileView.Array_filter. rewrite (read_lookup r hp l Hr).
  split; [reflexivity|]. split.
  - apply list_lookup_middle. reflexivity.
  - intros r' l' Hr'. apply lookup_app_l_Some. exact Hr'.
Qed.

Section View.
Variable toLowerCase : string -> string.
Variable localeCompare : string -> string -> Z.
Variable getTime : string -> number.

Local Abbreviation filteredCoupons := (ProfileView.filteredCoupons toLowerCase localeCompare getTime).
Local Abbreviation view := (ProfileView.view toLowerCase localeCompare getTime).
Local Abbreviation passing := (ProfileView.passing toLowerCase).
Local Abbreviation ordered := (ProfileView.ordered localeCompare getTime).

(** The switch on the sort mode, on the array [filtered]. *)
Lemma sort_heap (sortMode : string) (filtered : nat) (hp : ProfileView.Heap)
    (l : list Profile.TimelineItem) :
  hp !! filtered = Some l ->
  let r := if String.eqb sortMode "date"
           then ProfileView.Array_sort (ProfileView.byDate getTime) filtered hp
           else if String.eqb sortMode "category"
           then ProfileView.Array_sort (ProfileView.byCategory localeCompare) filtered hp
           else if String.eqb sortMode "name"
           then ProfileView.Array_sort (ProfileView.byName localeCompare) filtered hp
           else if String.eqb sortMode "difficulty"
           then ProfileView.Array_sort ProfileView.byDifficulty filtered hp
           else (filtered, hp) in
  fst r = filtered
  /\ snd r !! filtered = Some (ordered sortMode l)
  /\ forall r', r' <> filtered -> snd r !! r' = hp !! r'.
Proof.
  intros Hr. cbv zeta. unfold ProfileView.ordered, ProfileView.Array_sort.
  rewrite (read_lookup filtered hp l Hr).
  pose proof (lookup_lt_Some _ _ _ Hr) as Hlt.
  destruct (String.eqb sortMode "date");
    [|destruct (String.eqb sortMode "category");
      [|destruct (String.eqb sortMode "name");
        [|destruct (String.eqb sortMode "difficulty")]]];
    cbn [fst snd];
    (split; [reflexivity|]);
    (split; [first [apply list_lookup_insert_eq; exact Hlt|exact Hr]|]);
    intros r' Hr'; first [apply list_lookup_insert_ne; congruence|reflexivity].
Qed.

(** What [filteredCoupons] leaves in the heap. *)
Lemma filteredCoupons_heap (filterCategory searchQuery sortMode : string)
    (redeemedCoupons : nat) (hp : ProfileView.Heap) (items : list Profile.TimelineItem) :
  hp !! redeemedCoupons = Some items ->
  let r := filteredCoupons filterCategory searchQuery sortMode redeemedCoupons hp in
  ProfileView.read (fst r) (snd r) = ordered sortMode (passing filterCategory searchQuery items)
  /\ snd r !! redeemedCoupons
     = Some (if String.eqb filterCategory "all" && String.eqb searchQuery ""
             then ordered sortMode items else items)
  /\ forall r' l, r' <> redeemedCoupons -> hp !! r' = Some l -> snd r !! r' = Some l.
Proof.
  intros Hmemo. cbv zeta.
  pose proof (lookup_lt_Some _ _ _ Hmemo) as Hlt.
  unfold ProfileView.filteredCoupons, ProfileView.passing.
  destruct (String.eqb filterCategory "all") eqn:Hf;
    destruct (String.eqb searchQuery "") eqn:Hq; cbn [negb andb].
  - (* no filter: the memoised array itself is sorted *)
    destruct (sort_heap sortMode redeemedCoupons hp items Hmemo) as (Hfst & Hnew & Hold).
    cbv zeta in Hfst, Hnew, Hold.
    set (r := if String.eqb sortMode "date" then _ else _) in *.
    rewrite Hfst. split; [apply read_lookup; exact Hnew|].
    split; [exact Hnew|].
    intros r' l Hr' Hl. rewrite (Hold r' Hr'). exact Hl.
  - destruct (Array_filter_heap
                (ProfileView.matches toLowerCase (toLowerCase searchQuery))
                redeemedCoupons hp items Hmemo) as (-> & Hnew & Hold).
    destruct (sort_heap sortMode (length hp) _ _ Hnew) as (Hfst & Hsorted & Hrest).
    cbv zeta in Hfst, Hsorted, Hrest.
    set (r := if String.eqb sortMode "date" then _ else _) in *.
    rewrite Hfst. split; [apply read_lookup; exact Hsorted|].
    split.
    + rewrite (Hrest redeemedCoupons) by lia. apply Hold. exact Hmemo.
    + intros r' l Hr' Hl.
      rewrite (Hrest r') by (apply lookup_lt_Some in Hl; lia). apply Hold. exact Hl.
  - destruct (Array_filter_heap (ProfileView.inCategory filterCategory)
                redeemedCoupons hp items Hmemo) as (-> & Hnew & Hold).
    destruct (sort_heap sortMode (length hp) _ _ Hnew) as (Hfst & Hsorted & Hrest).
    cbv zeta in Hfst, Hsorted, Hrest.
    set (r := if String.eqb sortMode "date" then _ else _) in *.
    rewrite Hfst. split; [apply read_lookup; exact Hsorted|].
    split.
    + rewrite (Hrest redeemedCoupons) by lia. apply Hold. exact Hmemo.
    + intros r' l Hr' Hl.
      rewrite (Hrest r') by (apply lookup_lt_Some in Hl; lia). apply Hold. exact Hl.
  - destruct (Array_filter_heap (ProfileView.inCategory filterCategory)
                redeemedCoupons hp items Hmemo) as (-> & Hnew & Hold).
    destruct (Array_filter_heap
                (ProfileView.matches toLowerCase (toLowerCase searchQuery))
                (length hp) _ _ Hnew) as (-> & Hnew2 & Hold2).
    destruct (sort_heap sortMode _ _ _ Hnew2) as (Hfst & Hsorted & Hrest).
    cbv zeta in Hfst, Hsorted, Hrest.
    set (r := if String.eqb sortMode "date" then _ else _) in *.
    rewrite Hfst. split; [apply read_lookup; exact Hsorted|].
    assert (Hlen : length (hp ++ [List.filter (ProfileView.inCategory filterCategory) items])
                   = S (length hp)) by (rewrite length_app; cbn [length]; lia).
    split.
    + rewrite (Hrest redeemedCoupons) by lia. apply Hold2, Hold. exact Hmemo.
    + intros r' l Hr' Hl.
      rewrite (Hrest r') by (apply lookup_lt_Some in Hl; lia). apply Hold2, Hold. exact Hl.
Qed.

Lemma view_ordered (filterCategory searchQuery sortMode : string)
    (items : list Profile.TimelineItem) :
  view filterCategory searchQuery sortMode items
  = ordered sortMode (passing filterCategory searchQuery items).
Proof.
  unfold ProfileView.view. cbv zeta.
  exact (proj1 (filteredCoupons_heap filterCategory searchQuery sortMode 0 [items] items
                  eq_refl)).
Qed.

Lemma ordered_Permutation (sortMode : string) (l : list Profile.TimelineItem) :
  ordered sortMode l ≡ₚ l.
Proof.
  unfold ProfileView.ordered.
  destruct (String.eqb sortMode "date"); [apply sorted_list_Permutation|].
  destruct (String.eqb sortMode "category"); [apply sorted_list_Permutation|].
  destruct (String.eqb sortMode "name"); [apply sorted_list_Permutation|].
  destruct (String.eqb sortMode "difficulty"); [apply sorted_list_Permutation|].
  reflexivity.
Qed.

End View.

Section ProfileList.
Variable toLowerCase : string -> string.
Variable localeCompare : string -> string -> Z.
Variable getTime : string -> number.

Local Abbreviation filteredCoupons :=
  (ProfileView.filteredCoupons toLowerCase localeCompare getTime).
Local Abbreviation view := (ProfileView.view toLowerCase localeCompare getTime).
Local Abbreviation passing := (ProfileView.passing toLowerCase).
Local Abbreviation ordered := (ProfileView.ordered localeCompare getTime).

Lemma passing_In (filterCategory searchQuery : string)
    (items : list Profile.TimelineItem) (x : Profile.TimelineItem) :
  In x (passing filterCategory searchQuery items) -> In x items.
Proof.
  unfold ProfileView.passing.
  destruct (String.eqb filterCategory "all"), (String.eqb searchQuery "");
    intros Hin; repeat (apply filter_In in Hin; destruct Hin as [Hin _]); exact Hin.
Qed.

(** The list under the filter of one category is as long as the counter
    of that category says. *)
Lemma view_category_length (k sortMode : string) (redeemedCouponIds : list json) (now : Date) :
  String.eqb k "all" = false ->
  Z.of_nat (length (view k "" sortMode (Profile.redeemedCoupons redeemedCouponIds now)))
  = default 0 (assoc_get k (count_by_category (getRedeemedCoupons redeemedCouponIds))).
Proof.
  intros Hk. rewrite view_ordered.
  rewrite (Permutation_length (ordered_Permutation localeCompare getTime sortMode _)).
  unfold ProfileView.passing. rewrite Hk. cbn [String.eqb].
  unfold Profile.redeemedCoupons. rewrite filter_map_swap, length_map.
  rewrite count_by_category_get.
  unfold count_category, ProfileView.inCategory. cbn [Profile.item]. reflexivity.
Qed.

(** X29.  The list of the profile, for every locale, filter, search text,
    sort mode and array of redeemed coupons.  The list shown holds exactly
    the items that pass the filters, each once, in whatever order: no
    sort loses or repeats one.  Sorted by difficulty the list goes from
    easy over medium to special, and the coupons of one difficulty keep
    the order they had.  A sort mode that is none of the four (the mode
    is read from the storage as it is) leaves the order alone.  And under
    the filter of one category the list is as long as the bar of that
    category in the profile says. *)
Theorem profile_list (filterCategory searchQuery sortMode : string)
    (items : list Profile.TimelineItem) (redeemedCouponIds : list json) (now : Date) :
  let shown := view filterCategory searchQuery sortMode items in
  let level := fun c : Profile.TimelineItem =>
                 ProfileView.difficultyOrder (difficulty (Profile.item c)) in
  shown ≡ₚ passing filterCategory searchQuery items
  /\ (forall x, In x shown -> In x items)
  /\ (sortMode = "difficulty" ->
      ProfileView.ascending (map level shown) = true
      /\ forall d, List.filter (fun c => level c =? d) shown
                   = List.filter (fun c => level c =? d)
                       (passing filterCategory searchQuery items))
  /\ (sortMode <> "date" -> sortMode <> "category" -> sortMode <> "name" ->
      sortMode <> "difficulty" ->
      shown = passing filterCategory searchQuery items)
  /\ Forall (fun r => Z.of_nat (length (view (ProfileStats.rowCategory r) "" sortMode
                                          (Profile.redeemedCoupons redeemedCouponIds now)))
                      = ProfileStats.rowRedeemed r)
            (ProfileStats.categoryData redeemedCouponIds).
Proof.
  cbv zeta. rewrite view_ordered.
  split; [apply ordered_Permutation|].
  split.
  { intros x Hin. apply (passing_In filterCategory searchQuery).
    apply list_elem_of_In. rewrite <- (ordered_Permutation localeCompare getTime sortMode).
    apply list_elem_of_In. exact Hin. }
  split; [|split].
  - intros ->. unfold ProfileView.ordered. cbn [String.eqb Ascii.eqb Bool.eqb].
    split.
    + exact (sorted_list_ascending
               (fun c => ProfileView.difficultyOrder (difficulty (Profile.item c))) _).
    + intros d. apply sorted_list_filter.
      intros x y Hx Hy. unfold ProfileView.byDifficulty.
      apply Z.eqb_eq in Hx, Hy. apply Z.ltb_ge. lia.
  - intros Hdate Hcategory Hname Hdifficulty.
    apply String.eqb_neq in Hdate, Hcategory, Hname, Hdifficulty.
    unfold ProfileView.ordered. rewrite Hdate, Hcategory, Hname, Hdifficulty. reflexivity.
  - unfold ProfileStats.categoryData.
    rewrite redeemedByCategory_redeemed.
    apply Forall_map.
    unfold getCouponStats. cbn [categoryCounts].
    change (count_by_category coupons)
      with [("relaxation", 5); ("romantic", 7); ("home", 5); ("surprise", 3);
            ("adventure", 1); ("creative", 3)].
    repeat (constructor;
            [cbn [ProfileStats.rowCategory ProfileStats.rowRedeemed];
             apply view_category_length; reflexivity|]).
    constructor.
Qed.

(** X30.  The sort reaches the export.  [sort] works in place, and with
    no filter and no search text the array it is called on is the
    memoised array of the redeemed coupons itself: the document of
    [handleExport] then lists the coupons in the order on the screen.
    With a filter or a search text the sort works on a new array and the
    export keeps the order it had.  Either way the memoised array keeps
    its elements, and the next list made from that array (the array is
    made anew only when the page hands the profile a new list of IDs) is
    made from the order this one has left, not from the order of the
    catalogue. *)
Theorem export_follows_sort (filterCategory searchQuery sortMode : string)
    (redeemedCoupons : nat) (hp : ProfileView.Heap) (items : list Profile.TimelineItem) :
  hp !! redeemedCoupons = Some items ->
  let r := filteredCoupons filterCategory searchQuery sortMode redeemedCoupons hp in
  let exported := ProfileView.exportedCoupons redeemedCoupons (snd r) in
  (filterCategory = "all" -> searchQuery = "" ->
   exported = ProfileView.read (fst r) (snd r) /\ exported = ordered sortMode items)
  /\ (filterCategory <> "all" \/ searchQuery <> "" -> exported = items)
  /\ exported ≡ₚ items
  /\ (forall filterCategory' searchQuery' sortMode',
        let r' := filteredCoupons filterCategory' searchQuery' sortMode'
                    redeemedCoupons (snd r) in
        ProfileView.read (fst r') (snd r')
        = ordered sortMode' (passing filterCategory' searchQuery' exported)).
Proof.
  intros Hmemo. cbv zeta.
  destruct (filteredCoupons_heap toLowerCase localeCompare getTime
              filterCategory searchQuery sortMode redeemedCoupons hp items Hmemo)
    as (Hview & Hnew & _).
  cbv zeta in Hview, Hnew.
  set (r := filteredCoupons filterCategory searchQuery sortMode redeemedCoupons hp) in *.
  unfold ProfileView.exportedCoupons. rewrite (read_lookup _ _ _ Hnew).
  split; [|split; [|split]].
  - intros -> ->. cbn [String.eqb andb]. rewrite Hview.
    unfold ProfileView.passing. cbn [String.eqb]. split; reflexivity.
  - intros [Hf|Hq].
    + apply String.eqb_neq in Hf. rewrite Hf. reflexivity.
    + apply String.eqb_neq in Hq. rewrite Hq, andb_false_r. reflexivity.
  - destruct (String.eqb filterCategory "all" && String.eqb searchQuery "");
      [apply ordered_Permutation|reflexivity].
  - intros f' q' s'.
    exact (proj1 (filteredCoupons_heap toLowerCase localeCompare getTime
                    f' q' s' redeemedCoupons (snd r) _ Hnew)).
Qed.

End ProfileList.

(** Coupons 2 and 4, both romantic, the first medium and the second easy:
    the list sorted by difficulty with no filter, and what the export
    holds after it. *)
Lemma export_follows_sort_witness :
  let items := Profile.redeemedCoupons [JNum (num 2); JNum (num 4)]
                 (Reference.dec 5 "2025-12-05T10:00:00.000Z") in
  let r := ProfileView.filteredCoupons ReferenceLocale.toLowerCase
             ReferenceLocale.localeCompare ReferenceLocale.getTime
             "all" "" "difficulty" 0 [items] in
  map (fun c => id (Profile.item c)) items = [2; 4]
  /\ ProfileView.exportedCoupons 0 (snd r)
     = ProfileView.ordered ReferenceLocale.localeCompare ReferenceLocale.getTime
         "difficulty" items
  /\ map (fun c => id (Profile.item c)) (ProfileView.exportedCoupons 0 (snd r)) = [4; 2].
Proof.
  cbv zeta. split; [reflexivity|]. split; [|reflexivity].
  exact (proj2 (proj1 (export_follows_sort ReferenceLocale.toLowerCase
                         ReferenceLocale.localeCompare ReferenceLocale.getTime
                         "all" "" "difficulty" 0
                         [Profile.redeemedCoupons [JNum (num 2); JNum (num 4)]
                            (Reference.dec 5 "2025-12-05T10:00:00.000Z")]
                         (Profile.redeemedCoupons [JNum (num 2); JNum (num 4)]
                            (Reference.dec 5 "2025-12-05T10:00:00.000Z"))
                         eq_refl) eq_refl eq_refl)).
Defined.

(** The list depends on what was shown before: the romantic coupons sorted
    by category come in the order of the catalogue on a fresh profile, and
    in the order of their difficulty once the whole list was sorted by
    difficulty. *)
Example list_depends_on_history :
  let items := Profile.redeemedCoupons [JNum (num 2); JNum (num 4)]
                 (Reference.dec 5 "2025-12-05T10:00:00.000Z") in
  let refresh := ProfileView.filteredCoupons ReferenceLocale.toLowerCase
                   ReferenceLocale.localeCompare ReferenceLocale.getTime in
  let fresh := refresh "romantic" "" "category" 0%nat [items] in
  let sorted := refresh "all" "" "difficulty" 0%nat [items] in
  let later := refresh "romantic" "" "category" 0%nat (snd sorted) in
  map (fun c => id (Profile.item c)) (ProfileView.read (fst fresh) (snd fresh)) = [2; 4]
  /\ map (fun c => id (Profile.item c)) (ProfileView.read (fst later) (snd later)) = [4; 2].
Proof. vm_compute. split; reflexivity. Qed.
